(** * BirdRiskSim: the bird-strike risk pipeline, embedded in Rocq

    A shallow embedding of the parts of the Python sources under
    [bird_strike_risk_calculator/] that the specification talks about:

    - [bds_server.py]   (module [Risk]):   risk level, TTC, hysteresis,
                                           active tracks;
    - [byte_track.py]   (module [Track]):  sessions and the session tracker;
    - [triangulate.py]  (module [Tri]):    cross-camera matching,
                                           triangulation, flock merging;
    - [route_based_risk_calculator.py] (module [Routes]): route loading;
    - [bds_tcp_client.py] (module [Tcp]):  wire framing.

    Conventions.  Python floats are read as real numbers ([R]); the value
    [float('inf')] gets a constructor of its own where the code produces it.
    Python integers are [Z].  A method that mutates [self] becomes a function
    from the old state to the new state (and the returned value).  An
    exception that the source lets escape is the [None] of an [option]; one
    that the source catches is modelled by the branch its handler takes.

    The first part of the file holds the definitions, one module per source
    file; the second part holds the statements proved about them. *)

From Stdlib Require Import Reals Lra Lia ZArith String Ascii Bool.
From Stdlib Require Import Strings.Byte DecimalString List Sorted.
Import ListNotations.

Set Implicit Arguments.

(* ================================================================== *)
(** * Part I: definitions *)
(* ================================================================== *)

(** ** Python built-ins shared by the modules *)

Module Py.

(** [l[-1]]; an empty list raises [IndexError], here [None]. *)
Fixpoint last_item {A : Type} (l : list A) : option A :=
  match l with
  | [] => None
  | [a] => Some a
  | _ :: l' => last_item l'
  end.

(** [i in used] for a set of indices. *)
Definition mem (i : nat) (used : list nat) : bool :=
  existsb (Nat.eqb i) used.

(** [enumerate(l)]. *)
Definition enumerate {A : Type} (l : list A) : list (nat * A) :=
  combine (seq 0 (length l)) l.

(** [sum(l)] and [np.mean(l)] over reals. *)
Definition sum (l : list R) : R := fold_right Rplus 0%R l.

Definition mean (l : list R) : R := (sum l / INR (length l))%R.

(** [str(n)] for a natural number. *)
Definition str_of_nat (n : nat) : string :=
  NilEmpty.string_of_uint (Nat.to_uint n).

End Py.

(** ** [triangulate.py]: matching, triangulation, flock merging *)

Module Tri.

Open Scope R_scope.

(** A 3x4 projection matrix, row by row. *)
Definition Row4 : Type := (R * R * R * R)%type.
Definition Mat34 : Type := (Row4 * Row4 * Row4)%type.

(** A detection dictionary of the realtime pipeline:
    [{'camera': str, 'class': str, 'center': [x, y], 'confidence': float}]. *)
Record Detection : Type := mkDetection {
  det_camera : string;
  det_class : string;
  det_center : R * R;
  det_confidence : R
}.

(** A triangulated point dictionary of the realtime pipeline. *)
Record Point : Type := mkPoint {
  frame : Z;
  class : string;
  x : R;
  y : R;
  z : R;
  confidence : R;
  cameras : string
}.

(** A match dictionary of [match_objects_simple]. *)
Record Match : Type := mkMatch {
  m_class : string;
  det1 : Detection;
  det2 : Detection
}.

(** *** [merge_nearby_flocks_3d] *)

Definition is_flock (p : Point) : bool := String.eqb (class p) "Flock".

Definition not_flock (p : Point) : bool := negb (is_flock p).

(** The XZ distance computed in the inner loop. *)
Definition dist_xz (flock1 flock2 : Point) : R :=
  sqrt ((x flock1 - x flock2) ^ 2 + (z flock1 - z flock2) ^ 2).

(** The inner [for j, flock2 in enumerate(flocks)] loop: it threads
    [used_indices] and [merge_group]. *)
Fixpoint merge_inner (flock1 : Point) (distance_threshold : R)
    (js : list (nat * Point)) (used_indices : list nat)
    (merge_group : list Point) : list nat * list Point :=
  match js with
  | [] => (used_indices, merge_group)
  | (j, flock2) :: js' =>
      if Py.mem j used_indices then
        merge_inner flock1 distance_threshold js' used_indices merge_group
      else if Rlt_dec (dist_xz flock1 flock2) distance_threshold then
        merge_inner flock1 distance_threshold js'
          (j :: used_indices) (merge_group ++ [flock2])
      else
        merge_inner flock1 distance_threshold js' used_indices merge_group
  end.

(** The dictionary built for a group of more than one flock. *)
Definition merged_flock (flock1 : Point) (merge_group : list Point) : Point :=
  {| frame := frame flock1;
     class := "Flock";
     x := Py.mean (map x merge_group);
     y := Py.mean (map y merge_group);
     z := Py.mean (map z merge_group);
     confidence := Py.mean (map confidence merge_group);
     cameras := "merged_" ++ Py.str_of_nat (length merge_group) ++ "_flocks" |}.

(** The outer [for i, flock1 in enumerate(flocks)] loop: it threads
    [used_indices] and [merged_flocks]. *)
Fixpoint merge_outer (flocks : list Point) (distance_threshold : R)
    (todo : list (nat * Point)) (used_indices : list nat)
    (merged_flocks : list Point) : list Point :=
  match todo with
  | [] => merged_flocks
  | (i, flock1) :: todo' =>
      if Py.mem i used_indices then
        merge_outer flocks distance_threshold todo' used_indices merged_flocks
      else
        let '(used_indices', merge_group) :=
          merge_inner flock1 distance_threshold (Py.enumerate flocks)
            (i :: used_indices) [flock1] in
        if (1 <? length merge_group)%nat then
          merge_outer flocks distance_threshold todo' used_indices'
            (merged_flocks ++ [merged_flock flock1 merge_group])
        else
          merge_outer flocks distance_threshold todo' used_indices'
            (merged_flocks ++ [flock1])
  end.

Definition merge_nearby_flocks_3d (points : list Point)
    (distance_threshold : R) : list Point :=
  match points with
  | [] => points
  | _ :: _ =>
      let flocks := filter is_flock points in
      let others := filter not_flock points in
      if (length flocks <=? 1)%nat then points
      else
        merge_outer flocks distance_threshold (Py.enumerate flocks) [] []
        ++ others
  end.

(** What the merge loop may emit for the flock list [flocks]: one of the
    flocks themselves, or the mean of a group of at least two of them whose
    members all lie within the threshold of the group's first member. *)
Definition emitted_from (distance_threshold : R) (flocks : list Point)
    (p : Point) : Prop :=
  is_flock p = true
  /\ (In p flocks
      \/ exists g : list Point,
           (1 < length g)%nat
           /\ incl g flocks
           /\ Forall (fun q => dist_xz (hd p g) q < distance_threshold)
                (tl g)
           /\ x p = Py.mean (map x g)
           /\ y p = Py.mean (map y g)
           /\ z p = Py.mean (map z g)).

(** *** [merge_nearby_flocks_2d] *)

(** A box in [xywh] form: centre, then size. *)
Definition Box : Type := (R * R * R * R)%type.

Definition box_center (b : Box) : R * R :=
  let '(cx, cy, _, _) := b in (cx, cy).

Definition box_size (b : Box) : R * R :=
  let '(_, _, w, h) := b in (w, h).

Definition Rltb (a b : R) : bool := if Rlt_dec a b then true else false.

(** [np.linalg.norm(c1 - c2)] for two pixel centres. *)
Definition norm_diff (c1 c2 : R * R) : R :=
  sqrt ((fst c1 - fst c2) ^ 2 + (snd c1 - snd c2) ^ 2).

(** Entry [distances[i, j]] of the distance matrix: zero on the diagonal,
    the value computed for the pair [(min i j, max i j)] elsewhere. *)
Definition distance_entry (centers : list (R * R)) (i j : nat) : R :=
  if (i =? j)%nat then 0
  else norm_diff (nth (Nat.min i j) centers (0, 0))
                 (nth (Nat.max i j) centers (0, 0)).

(** The loop that builds [merged_groups]; [n] is [len(flocks)]. *)
Fixpoint merged_groups_loop (centers : list (R * R)) (distance_threshold : R)
    (n : nat) (todo : list nat) (used : list nat) : list (list nat) :=
  match todo with
  | [] => []
  | i :: todo' =>
      if Py.mem i used then
        merged_groups_loop centers distance_threshold n todo' used
      else
        let nearby :=
          filter (fun j => Rltb (distance_entry centers i j)
                             distance_threshold
                           && negb (Py.mem j used))
            (seq 0 n) in
        match nearby with
        | [] =>
            [i] :: merged_groups_loop centers distance_threshold n todo'
                     (i :: used)
        | _ :: _ =>
            let group := i :: nearby in
            group :: merged_groups_loop centers distance_threshold n todo'
                       (group ++ used)
        end
  end.

(** [np.max] of a non-empty column. *)
Definition column_max (l : list R) : R :=
  match l with
  | [] => 0
  | a :: rest => fold_left Rmax rest a
  end.

(** The composite built for a group of several indices. *)
Definition merge_group_2d (flocks : list (Box * R)) (group : list nat)
  : Box * R :=
  let members := map (fun i => nth i flocks ((0, 0, 0, 0), 0)) group in
  let group_boxes := map fst members in
  let group_confs := map snd members in
  let weights := map (fun c => c / Py.sum group_confs) group_confs in
  let weighted (coord : Box -> R) :=
    Py.sum (map (fun bw => coord (fst bw) * snd bw)
              (combine group_boxes weights)) in
  let merged_center :=
    (weighted (fun b => fst (box_center b)),
     weighted (fun b => snd (box_center b))) in
  let merged_size :=
    (column_max (map (fun b => fst (box_size b)) group_boxes),
     column_max (map (fun b => snd (box_size b)) group_boxes)) in
  let merged_conf := Py.mean group_confs in
  ((fst merged_center, snd merged_center, fst merged_size, snd merged_size),
   merged_conf).

Definition merge_nearby_flocks_2d (flocks : list (Box * R))
    (distance_threshold : R) : list (Box * R) :=
  match flocks with
  | [] => []
  | _ :: _ =>
      let centers := map (fun f => box_center (fst f)) flocks in
      let n := length flocks in
      let merged_groups :=
        merged_groups_loop centers distance_threshold n (seq 0 n) [] in
      map (fun group =>
             match group with
             | [i] => nth i flocks ((0, 0, 0, 0), 0)
             | _ => merge_group_2d flocks group
             end)
        merged_groups
  end.

(** *** [match_objects_yolo] *)

(** The part of a YOLO result the matcher reads: [boxes.xywh], [boxes.cls],
    [boxes.conf] and the [names] table, which covers every class index the
    detector emits. *)
Record YoloResults : Type := mkYoloResults {
  xywh : list Box;
  cls : list nat;
  conf : list R;
  names : nat -> string
}.

(** A match dictionary of [match_objects_yolo]. *)
Record YoloMatch : Type := mkYoloMatch {
  ym_class : string;
  pt1 : R * R;
  pt2 : R * R;
  conf1 : R;
  conf2 : R
}.

(** [zip(boxes.xywh, boxes.cls, boxes.conf)]. *)
Definition zip_boxes (results : YoloResults) : list (Box * nat * R) :=
  combine (combine (xywh results) (cls results)) (conf results).

(** [d[k] = v] on an insertion-ordered dictionary. *)
Fixpoint dict_set {V : Type} (k : string) (v : V) (d : list (string * V))
  : list (string * V) :=
  match d with
  | [] => [(k, v)]
  | (k', v') :: rest =>
      if String.eqb k' k then (k', v) :: rest
      else (k', v') :: dict_set k v rest
  end.

(** [d.get(k)]. *)
Fixpoint dict_get {V : Type} (k : string) (d : list (string * V))
  : option V :=
  match d with
  | [] => None
  | (k', v) :: rest => if String.eqb k' k then Some v else dict_get k rest
  end.

(** One step of the loop that fills [flocks] and [others]. *)
Definition split_step (results : YoloResults)
    (acc : list (Box * R) * list (string * (Box * R)))
    (item : Box * nat * R)
  : list (Box * R) * list (string * (Box * R)) :=
  let '(b, c, cf) := item in
  let cls_name := names results c in
  if String.eqb cls_name "Flock" then (fst acc ++ [(b, cf)], snd acc)
  else (fst acc, dict_set cls_name (b, cf) (snd acc)).

Definition split_flocks (results : YoloResults)
  : list (Box * R) * list (string * (Box * R)) :=
  fold_left (split_step results) (zip_boxes results) ([], []).

Definition yolo_match (cls_name : string) (e1 e2 : Box * R) : YoloMatch :=
  {| ym_class := cls_name;
     pt1 := box_center (fst e1);
     pt2 := box_center (fst e2);
     conf1 := snd e1;
     conf2 := snd e2 |}.

(** [match_objects_yolo].  Python iterates [common_classes], a set, in an
    unspecified order; here the classes come in the insertion order of
    [others1]. *)
Definition match_objects_yolo (results1 results2 : YoloResults)
  : list YoloMatch :=
  let '(flocks1, others1) := split_flocks results1 in
  let '(flocks2, others2) := split_flocks results2 in
  let merged_flocks1 := merge_nearby_flocks_2d flocks1 100 in
  let merged_flocks2 := merge_nearby_flocks_2d flocks2 100 in
  flat_map (fun f1 => map (fun f2 => yolo_match "Flock" f1 f2) merged_flocks2)
    merged_flocks1
  ++ flat_map (fun kv =>
                 match dict_get (fst kv) others2 with
                 | Some e2 => [yolo_match (fst kv) (snd kv) e2]
                 | None => []
                 end)
       others1.

Definition of_class (results : YoloResults) (c : string)
    (item : Box * nat * R) : bool :=
  String.eqb (names results (snd (fst item))) c.

Definition entry_of (item : Box * nat * R) : Box * R :=
  (fst (fst item), snd item).

Definition class_is (c : string) (m : YoloMatch) : bool :=
  String.eqb (ym_class m) c.

(** The last detection of class [cls_name] in a YOLO result, as box and
    confidence. *)
Definition last_of_class (cls_name : string) (results : YoloResults)
  : option (Box * R) :=
  Py.last_item
    (map (fun item => (fst (fst item), snd item))
       (filter (fun item => String.eqb (names results (snd (fst item)))
                              cls_name)
          (zip_boxes results))).

(** *** [match_objects_simple] *)

(** The inner [for i, det2 in enumerate(detections2)] loop up to its
    [break]: the first unused detection of camera 2 with the class of
    [det1], with its index. *)
Fixpoint first_unused_same_class (cls : string)
    (ids : list (nat * Detection)) (used_det2_indices : list nat)
  : option (nat * Detection) :=
  match ids with
  | [] => None
  | (i, d2) :: ids' =>
      if Py.mem i used_det2_indices then
        first_unused_same_class cls ids' used_det2_indices
      else if String.eqb cls (det_class d2) then Some (i, d2)
      else first_unused_same_class cls ids' used_det2_indices
  end.

Fixpoint match_objects_simple_loop (detections1 detections2 : list Detection)
    (used_det2_indices : list nat) : list Match :=
  match detections1 with
  | [] => []
  | d1 :: rest =>
      match first_unused_same_class (det_class d1)
              (Py.enumerate detections2) used_det2_indices with
      | Some (i, d2) =>
          {| m_class := det_class d1; det1 := d1; det2 := d2 |}
          :: match_objects_simple_loop rest detections2
               (i :: used_det2_indices)
      | None =>
          match_objects_simple_loop rest detections2 used_det2_indices
      end
  end.

Definition match_objects_simple (detections1 detections2 : list Detection)
  : list Match :=
  match_objects_simple_loop detections1 detections2 [].

Definition has_class (cls_name : string) (d : Detection) : bool :=
  String.eqb (det_class d) cls_name.

(** The detections of camera 2 that are still unused, and among them those
    of one class, in list order. *)
Definition unused (used_det2_indices : list nat) (id : nat * Detection)
  : bool :=
  negb (Py.mem (fst id) used_det2_indices).

Definition available (cls_name : string) (used_det2_indices : list nat)
    (ids : list (nat * Detection)) : list Detection :=
  filter (has_class cls_name)
    (map snd (filter (unused used_det2_indices) ids)).

Definition match_of_class (cls_name : string) (m : Match) : bool :=
  String.eqb (m_class m) cls_name.

Definition match_pair (m : Match) : Detection * Detection :=
  (det1 m, det2 m).

(** Example inputs: a camera that reports two airplanes and one that reports
    a single airplane, as YOLO results and as realtime detections. *)
Definition all_airplanes (c : nat) : string := "Airplane".

Definition two_planes_yolo : YoloResults :=
  {| xywh := [(100, 100, 20, 10); (200, 200, 20, 10)];
     cls := [0%nat; 0%nat];
     conf := [0.9; 0.8];
     names := all_airplanes |}.

Definition one_plane_yolo : YoloResults :=
  {| xywh := [(150, 150, 20, 10)];
     cls := [0%nat];
     conf := [0.7];
     names := all_airplanes |}.

Definition plane_at (cam : string) (c : R * R) : Detection :=
  {| det_camera := cam; det_class := "Airplane";
     det_center := c; det_confidence := 0.9 |}.

(** *** Dictionaries of the batch path *)

(** A dictionary appended to [triangulated_points] by
    [process_frame_multicam]. *)
Record PairPoint : Type := mkPairPoint {
  pp_frame : Z;
  pp_class : string;
  pp_x : R;
  pp_y : R;
  pp_z : R;
  pp_confidence : R;
  pp_cameras : string;
  pp_num_detected_cameras : nat;
  pp_total_cameras : nat
}.

(** A dictionary of [merged_points], the result of
    [process_frame_multicam]. *)
Record MergedPoint : Type := mkMergedPoint {
  mp_frame : Z;
  mp_class : string;
  mp_x : R;
  mp_y : R;
  mp_z : R;
  mp_confidence : R;
  mp_num_detected_cameras : nat;
  mp_total_cameras : nat;
  mp_num_camera_pairs : nat
}.

(** [f'Camera_{chr(65+idx)}']. *)
Definition camera_name (idx : nat) : string :=
  "Camera_" ++ String (ascii_of_nat (65 + idx)) "".

(** [max_coord = 10000] and the outlier test of the batch path. *)
Definition max_coord : R := 10000.

Definition Rgtb (a b : R) : bool := if Rgt_dec a b then true else false.

Definition is_outlier (p : R * R * R) : bool :=
  let '(px, py, pz) := p in
  Rgtb (Rabs px) max_coord || Rgtb (Rabs py) max_coord
  || Rgtb (Rabs pz) max_coord.

(** The bound of the specification on a position. *)
Definition within_bounds (px py pz : R) : Prop :=
  Rabs px <= max_coord /\ Rabs py <= max_coord /\ Rabs pz <= max_coord.

Definition pair_point_bounded (p : PairPoint) : Prop :=
  within_bounds (pp_x p) (pp_y p) (pp_z p).

Definition merged_point_bounded (p : MergedPoint) : Prop :=
  within_bounds (mp_x p) (mp_y p) (mp_z p).

(** [frame_class_groups[key].append(point)], creating the entry when the key
    is new. *)
Definition key_eqb (k1 k2 : Z * string) : bool :=
  Z.eqb (fst k1) (fst k2) && String.eqb (snd k1) (snd k2).

Fixpoint group_append (key : Z * string) (point : PairPoint)
    (groups : list ((Z * string) * list PairPoint))
  : list ((Z * string) * list PairPoint) :=
  match groups with
  | [] => [(key, [point])]
  | (k, members) :: rest =>
      if key_eqb k key then (k, members ++ [point]) :: rest
      else (k, members) :: group_append key point rest
  end.

Definition frame_class_groups (triangulated_points : list PairPoint)
  : list ((Z * string) * list PairPoint) :=
  fold_left (fun acc point =>
               group_append (pp_frame point, pp_class point) point acc)
    triangulated_points [].

Definition group_bounded (group : (Z * string) * list PairPoint) : Prop :=
  Forall pair_point_bounded (snd group).

(** The dictionary built for one (frame, class) group; an empty group would
    be skipped by [if len(points) > 0]. *)
Definition merge_group (num_cameras : nat) (points : list PairPoint)
  : list MergedPoint :=
  match points with
  | [] => []
  | first :: _ =>
      let max_detected_cameras :=
        fold_right Nat.max 0%nat (map pp_num_detected_cameras points) in
      let confidence_weight :=
        INR max_detected_cameras / INR num_cameras in
      [ {| mp_frame := pp_frame first;
           mp_class := pp_class first;
           mp_x := Py.mean (map pp_x points);
           mp_y := Py.mean (map pp_y points);
           mp_z := Py.mean (map pp_z points);
           mp_confidence :=
             Py.mean (map pp_confidence points) * confidence_weight;
           mp_num_detected_cameras := max_detected_cameras;
           mp_total_cameras := num_cameras;
           mp_num_camera_pairs := length points |} ]
  end.

(** [valid_cameras] paired with the YOLO results stored for them. *)
Definition valid_cameras (detections : list (option YoloResults))
  : list (nat * YoloResults) :=
  flat_map (fun id =>
              match snd id with
              | Some results => [(fst id, results)]
              | None => []
              end)
    (Py.enumerate detections).

(** *** Triangulation of one pair of image points *)

Section WithOpenCV.

(** [cv2.triangulatePoints(P1, P2, points1, points2)] for one point per
    image: the homogeneous 4-vector it returns, or [None] when it raises.
    OpenCV computes it by a singular value decomposition; the embedding takes
    it as given. *)
Variable triangulatePoints :
  Mat34 -> Mat34 -> R * R -> R * R -> option (R * R * R * R).

(** [triangulate_point]; the unused [camera_positions] argument is left
    out. *)
Definition triangulate_point (point1 point2 : R * R) (P1 P2 : Mat34)
  : option (R * R * R) :=
  match triangulatePoints P1 P2 point1 point2 with
  | Some (hx, hy, hz, hw) =>
      if Req_dec_T hw 0 then None
      else Some (hx / hw, hy / hw, hz / hw)
  | None => None
  end.

(** *** [triangulate_objects_realtime] *)

(** [camera_detections[camera].append(det)], creating the entry when the
    camera is new; dictionaries keep insertion order. *)
Fixpoint dict_append (camera : string) (det : Detection)
    (camera_detections : list (string * list Detection))
  : list (string * list Detection) :=
  match camera_detections with
  | [] => [(camera, [det])]
  | (c, dets) :: rest =>
      if String.eqb c camera then (c, dets ++ [det]) :: rest
      else (c, dets) :: dict_append camera det rest
  end.

Definition group_by_camera (detections : list Detection)
  : list (string * list Detection) :=
  fold_left (fun acc det => dict_append (det_camera det) det acc)
    detections [].

(** [camera_letters.index(cam)]; [None] stands for [ValueError]. *)
Fixpoint index (camera_letters : list string) (cam : string) : option nat :=
  match camera_letters with
  | [] => None
  | c :: rest =>
      if String.eqb c cam then Some 0%nat
      else option_map S (index rest cam)
  end.

(** The pairs [(l[i], l[j])] with [i < j], in the order of the two nested
    [range] loops. *)
Fixpoint index_pairs {A : Type} (l : list A) : list (A * A) :=
  match l with
  | [] => []
  | a :: rest => map (pair a) rest ++ index_pairs rest
  end.

(** The [for match in matches] loop for one camera pair; [None] stands for
    the [IndexError] of [projection_matrices[cam_idx]]. *)
Fixpoint triangulate_matches (frame_id : Z) (cam1 cam2 : string)
    (cam1_idx cam2_idx : nat) (projection_matrices : list Mat34)
    (matches : list Match) : option (list Point) :=
  match matches with
  | [] => Some []
  | m :: rest =>
      match nth_error projection_matrices cam1_idx,
            nth_error projection_matrices cam2_idx with
      | Some P1, Some P2 =>
          let found :=
            match triangulate_point (det_center (det1 m))
                    (det_center (det2 m)) P1 P2 with
            | Some (px, py, pz) =>
                [ {| frame := frame_id;
                     class := m_class m;
                     x := px;
                     y := py;
                     z := pz;
                     confidence :=
                       (det_confidence (det1 m) + det_confidence (det2 m)) / 2;
                     cameras := "Camera_" ++ cam1 ++ "-Camera_" ++ cam2 |} ]
            | None => []
            end in
          option_map (app found)
            (triangulate_matches frame_id cam1 cam2 cam1_idx cam2_idx
               projection_matrices rest)
      | _, _ => None
      end
  end.

(** The body of the two nested loops over camera pairs. *)
Fixpoint triangulate_pairs (frame_id : Z) (camera_letters : list string)
    (projection_matrices : list Mat34)
    (pairs : list ((string * list Detection) * (string * list Detection)))
  : option (list Point) :=
  match pairs with
  | [] => Some []
  | ((cam1, dets1), (cam2, dets2)) :: rest =>
      match index camera_letters cam1, index camera_letters cam2 with
      | Some cam1_idx, Some cam2_idx =>
          match triangulate_matches frame_id cam1 cam2 cam1_idx cam2_idx
                  projection_matrices (match_objects_simple dets1 dets2) with
          | Some pts =>
              option_map (app pts)
                (triangulate_pairs frame_id camera_letters
                   projection_matrices rest)
          | None => None
          end
      | _, _ => None
      end
  end.

(** [triangulate_objects_realtime]; [None] when the call raises. *)
Definition triangulate_objects_realtime (detections : list Detection)
    (projection_matrices : list Mat34) (camera_letters : list string)
    (frame_id : Z) (distance_threshold : R) : option (list Point) :=
  if (length projection_matrices <? 2)%nat then Some []
  else
    let camera_detections := group_by_camera detections in
    match triangulate_pairs frame_id camera_letters projection_matrices
            (index_pairs camera_detections) with
    | Some triangulated_points =>
        match triangulated_points with
        | [] => Some triangulated_points
        | _ :: _ =>
            Some (merge_nearby_flocks_3d triangulated_points
                    distance_threshold)
        end
    | None => None
    end.

(** *** [process_frame_multicam] *)

(** The [for match in matches] loop of the batch path.  [frame] is
    [int(img_paths[0].stem.split('_')[1])], [None] when that expression
    raises; [None] as result stands for an escaping exception. *)
Fixpoint triangulate_yolo_matches (frame : option Z)
    (cam1_idx cam2_idx num_valid num_cameras : nat)
    (projection_matrices : list Mat34) (matches : list YoloMatch)
  : option (list PairPoint) :=
  match matches with
  | [] => Some []
  | m :: rest =>
      let continue :=
        triangulate_yolo_matches frame cam1_idx cam2_idx num_valid
          num_cameras projection_matrices rest in
      match nth_error projection_matrices cam1_idx,
            nth_error projection_matrices cam2_idx with
      | Some P1, Some P2 =>
          match triangulate_point (pt1 m) (pt2 m) P1 P2 with
          | None => continue
          | Some (px, py, pz) =>
              if is_outlier (px, py, pz) then continue
              else
                match frame with
                | None => None
                | Some f =>
                    option_map
                      (cons {| pp_frame := f;
                               pp_class := ym_class m;
                               pp_x := px;
                               pp_y := py;
                               pp_z := pz;
                               pp_confidence := (conf1 m + conf2 m) / 2;
                               pp_cameras :=
                                 camera_name cam1_idx ++ "-"
                                 ++ camera_name cam2_idx;
                               pp_num_detected_cameras := num_valid;
                               pp_total_cameras := num_cameras |})
                      continue
                end
          end
      | _, _ => None
      end
  end.

Fixpoint triangulate_yolo_pairs (frame : option Z)
    (num_valid num_cameras : nat) (projection_matrices : list Mat34)
    (pairs : list ((nat * YoloResults) * (nat * YoloResults)))
  : option (list PairPoint) :=
  match pairs with
  | [] => Some []
  | ((cam1_idx, results1), (cam2_idx, results2)) :: rest =>
      match triangulate_yolo_matches frame cam1_idx cam2_idx num_valid
              num_cameras projection_matrices
              (match_objects_yolo results1 results2) with
      | Some pts =>
          option_map (app pts)
            (triangulate_yolo_pairs frame num_valid num_cameras
               projection_matrices rest)
      | None => None
      end
  end.

(** [process_frame_multicam].  The detector is an external collaborator:
    [detections] holds, per image path, the raw YOLO result it produced, or
    [None] when it found nothing or failed. *)
Definition process_frame_multicam (frame : option Z)
    (detections : list (option YoloResults))
    (projection_matrices : list Mat34) : option (list MergedPoint) :=
  let num_cameras := length detections in
  if (num_cameras <? 2)%nat then Some []
  else
    let valid := valid_cameras detections in
    if (length valid <? 2)%nat then Some []
    else
      match triangulate_yolo_pairs frame (length valid) num_cameras
              projection_matrices (index_pairs valid) with
      | Some triangulated_points =>
          Some (flat_map (fun group => merge_group num_cameras (snd group))
                  (frame_class_groups triangulated_points))
      | None => None
      end.

End WithOpenCV.

(** *** The linear system behind [cv2.triangulatePoints]

    OpenCV documents [triangulatePoints] as the Direct Linear Transform: for
    each view with projection rows [p1, p2, p3] and image point [(u, v)] the
    homogeneous point [X] is to satisfy [(u p3 - p1) . X = 0] and
    [(v p3 - p2) . X = 0].  These definitions state that system, so that an
    answer assumed for the library can be checked against it. *)

Definition Hom : Type := (R * R * R * R)%type.

Definition dot4 (r : Row4) (X : Hom) : R :=
  let '(r1, r2, r3, r4) := r in
  let '(hx, hy, hz, hw) := X in
  r1 * hx + r2 * hy + r3 * hz + r4 * hw.

Definition dlt_row (u : R) (p3 p : Row4) : Row4 :=
  let '(a1, a2, a3, a4) := p3 in
  let '(b1, b2, b3, b4) := p in
  (u * a1 - b1, u * a2 - b2, u * a3 - b3, u * a4 - b4).

Definition dlt_system (P1 P2 : Mat34) (point1 point2 : R * R) : list Row4 :=
  let '(p11, p12, p13) := P1 in
  let '(p21, p22, p23) := P2 in
  [dlt_row (fst point1) p13 p11; dlt_row (snd point1) p13 p12;
   dlt_row (fst point2) p23 p21; dlt_row (snd point2) p23 p22].

Definition dlt_solution (P1 P2 : Mat34) (point1 point2 : R * R) (X : Hom)
  : Prop :=
  X <> (0, 0, 0, 0)
  /\ Forall (fun row => dot4 row X = 0) (dlt_system P1 P2 point1 point2).

(** *** A concrete rig

    Two cameras 10 m apart on the X axis, both looking along +Z, with
    fx = fy = 600 and cx = cy = 320 (the rig of the specification's first
    scenario moved to the origin).  [P = K [I | -position]]. *)
Definition camera_A : Mat34 :=
  ((600, 0, 320, 0), (0, 600, 320, 0), (0, 0, 1, 0)).

Definition camera_B : Mat34 :=
  ((600, 0, 320, - 6000), (0, 600, 320, 0), (0, 0, 1, 0)).

(** An airplane at (5, 0, 12000) projects to pixel (320.25, 320) in camera A
    and to (319.75, 320) in camera B. *)
Definition far_plane_detections : list Detection :=
  [ {| det_camera := "A"; det_class := "Airplane";
       det_center := (320.25, 320); det_confidence := 0.9 |};
    {| det_camera := "B"; det_class := "Airplane";
       det_center := (319.75, 320); det_confidence := 0.7 |} ].

(** A stand-in for the library that answers with the exact homogeneous
    point. *)
Definition exact_far_plane (P1 P2 : Mat34) (point1 point2 : R * R)
  : option Hom :=
  Some (5, 0, 12000, 1).

(** *** Camera calibration *)

(** A numpy vector of three numbers and a 3x3 matrix, row by row.  The
    arrays are created with [dtype=np.float32]; the rounding to single
    precision is not followed. *)
Definition V3 : Type := (R * R * R)%type.
Definition Mat33 : Type := (V3 * V3 * V3)%type.

Definition dot3 (u v : V3) : R :=
  let '(u1, u2, u3) := u in
  let '(v1, v2, v3) := v in
  u1 * v1 + u2 * v2 + u3 * v3.

(** [M.T], [M @ v], [A @ B], [-v] and [-M]. *)
Definition transpose (m : Mat33) : Mat33 :=
  let '((a11, a12, a13), (a21, a22, a23), (a31, a32, a33)) := m in
  ((a11, a21, a31), (a12, a22, a32), (a13, a23, a33)).

Definition matvec (m : Mat33) (v : V3) : V3 :=
  let '(r1, r2, r3) := m in (dot3 r1 v, dot3 r2 v, dot3 r3 v).

Definition matmul (a b : Mat33) : Mat33 :=
  let '(a1, a2, a3) := a in
  let '(c1, c2, c3) := transpose b in
  ((dot3 a1 c1, dot3 a1 c2, dot3 a1 c3),
   (dot3 a2 c1, dot3 a2 c2, dot3 a2 c3),
   (dot3 a3 c1, dot3 a3 c2, dot3 a3 c3)).

Definition neg (v : V3) : V3 :=
  let '(v1, v2, v3) := v in (- v1, - v2, - v3).

Definition neg_matrix (m : Mat33) : Mat33 :=
  let '(r1, r2, r3) := m in (neg r1, neg r2, neg r3).

Definition identity : Mat33 := ((1, 0, 0), (0, 1, 0), (0, 0, 1)).

(** [quaternion_to_rotation_matrix]: the same array, without the
    normalisation. *)
Definition quaternion_to_rotation_matrix (q : R * R * R * R) : Mat33 :=
  let '(qx, qy, qz, qw) := q in
  ((1 - 2 * (qy * qy + qz * qz), 2 * (qx * qy - qz * qw),
    2 * (qx * qz + qy * qw)),
   (2 * (qx * qy + qz * qw), 1 - 2 * (qx * qx + qz * qz),
    2 * (qy * qz - qx * qw)),
   (2 * (qx * qz - qy * qw), 2 * (qy * qz + qx * qw),
    1 - 2 * (qx * qx + qy * qy))).

(** [quaternion_to_rotation_matrix_corrected]. *)
Definition quaternion_to_rotation_matrix_corrected (q : R * R * R * R)
  : Mat33 :=
  let '(qx0, qy0, qz0, qw0) := q in
  let norm := sqrt (qx0 * qx0 + qy0 * qy0 + qz0 * qz0 + qw0 * qw0) in
  let '(qx, qy, qz, qw) :=
    if Rgt_dec norm 0
    then (qx0 / norm, qy0 / norm, qz0 / norm, qw0 / norm)
    else (qx0, qy0, qz0, qw0) in
  ((1 - 2 * (qy * qy + qz * qz), 2 * (qx * qy - qz * qw),
    2 * (qx * qz + qy * qw)),
   (2 * (qx * qy + qz * qw), 1 - 2 * (qx * qx + qz * qz),
    2 * (qy * qz - qx * qw)),
   (2 * (qx * qz - qy * qw), 2 * (qy * qz + qx * qw),
    1 - 2 * (qx * qx + qy * qy))).

(** The entries of the camera parameter dictionary that
    [get_projection_matrix] reads: [projectionMatrix.m00] and [.m11],
    [imageWidth], [imageHeight], [position_UnityWorld] and
    [rotation_UnityWorld] (x, y, z, w). *)
Record CameraParams : Type := mkCameraParams {
  m00 : R;
  m11 : R;
  imageWidth : R;
  imageHeight : R;
  position_UnityWorld : V3;
  rotation_UnityWorld : R * R * R * R
}.

(** [np.hstack([R, t.reshape(3, 1)])] and [K @ Rt]. *)
Definition hstack (m : Mat33) (t : V3) : Mat34 :=
  let '((a11, a12, a13), (a21, a22, a23), (a31, a32, a33)) := m in
  let '(t1, t2, t3) := t in
  ((a11, a12, a13, t1), (a21, a22, a23, t2), (a31, a32, a33, t3)).

Definition matmul34 (k : Mat33) (rt : Mat34) : Mat34 :=
  let '(k1, k2, k3) := k in
  let '((a11, a12, a13, a14), (a21, a22, a23, a24), (a31, a32, a33, a34)) :=
    rt in
  let row (r : V3) : Row4 :=
    (dot3 r (a11, a21, a31), dot3 r (a12, a22, a32),
     dot3 r (a13, a23, a33), dot3 r (a14, a24, a34)) in
  (row k1, row k2, row k3).

(** [get_projection_matrix]. *)
Definition get_projection_matrix (params : CameraParams) : Mat34 :=
  let width := imageWidth params in
  let height := imageHeight params in
  let fx := m00 params * width / 2 in
  let fy := m11 params * height / 2 in
  let cx := width / 2 in
  let cy := height / 2 in
  let K : Mat33 := ((fx, 0, cx), (0, fy, cy), (0, 0, 1)) in
  let t_world := position_UnityWorld params in
  let R_cam_to_world :=
    quaternion_to_rotation_matrix_corrected (rotation_UnityWorld params) in
  let R_world_to_cam := transpose R_cam_to_world in
  let t_world_to_cam := matvec (neg_matrix R_world_to_cam) t_world in
  let unity_to_opencv : Mat33 := ((1, 0, 0), (0, 1, 0), (0, 0, 1)) in
  let R_opencv :=
    matmul (matmul unity_to_opencv R_world_to_cam)
      (transpose unity_to_opencv) in
  let t_opencv := matvec unity_to_opencv t_world_to_cam in
  let Rt := hstack R_opencv t_opencv in
  matmul34 K Rt.

(** The image of a homogeneous point under a projection matrix. *)
Definition project (P : Mat34) (X : Hom) : V3 :=
  let '(p1, p2, p3) := P in (dot4 p1 X, dot4 p2 X, dot4 p3 X).

(** An example: a camera at (3, 4, 5) turned a quarter turn about the
    vertical axis. *)
Definition side_camera : CameraParams :=
  {| m00 := 2; m11 := 2; imageWidth := 640; imageHeight := 480;
     position_UnityWorld := (3, 4, 5);
     rotation_UnityWorld := (0, 1, 0, 1) |}.

End Tri.

(** ** [byte_track.py]: sessions and the session tracker *)

Module Track.

Open Scope R_scope.

(** A sample [(frame, a, b)]: a position [(frame, x, z)] or a velocity
    [(frame, vx, vz)]. *)
Definition Sample : Type := (Z * R * R)%type.

Definition sample_frame (s : Sample) : Z := fst (fst s).
Definition sample_a (s : Sample) : R := snd (fst s).
Definition sample_b (s : Sample) : R := snd s.

(** The dataclass [Session]. *)
Record Session : Type := mkSession {
  session_id : Z;
  start_frame : Z;
  end_frame : Z;
  airplane_positions : list Sample;
  flock_positions : list Sample;
  airplane_velocities : list Sample;
  flock_velocities : list Sample
}.

(** [Session.get_session_length]. *)
Definition get_session_length (self : Session) : Z :=
  (end_frame self - start_frame self + 1)%Z.

(** The loop of [Session._recalculate_velocities], with the previous sample
    carried along. *)
Fixpoint recalculate_from (prev : Sample) (rest : list Sample) : list Sample :=
  match rest with
  | [] => []
  | curr :: rest' =>
      let dt := IZR (sample_frame curr - sample_frame prev) / 30 in
      (if Rgt_dec dt 0 then
         [(sample_frame curr,
           (sample_a curr - sample_a prev) / dt,
           (sample_b curr - sample_b prev) / dt)]
       else [])
      ++ recalculate_from curr rest'
  end.

(** [Session._recalculate_velocities]. *)
Definition _recalculate_velocities (positions : list Sample) : list Sample :=
  match positions with
  | [] => []
  | first :: rest => recalculate_from first rest
  end.

(** The dictionary [current_session_data] once a session has been started. *)
Record SessionData : Type := mkSessionData {
  cur_start_frame : Z;
  cur_last_frame : Z;
  cur_airplane_positions : list Sample;
  cur_flock_positions : list Sample;
  cur_airplane_velocities : list Sample;
  cur_flock_velocities : list Sample
}.

(** The attributes of [SessionTracker].  [current_session_data] is [None]
    while it is still the empty dictionary of [__init__]. *)
Record SessionTracker : Type := mkSessionTracker {
  position_jump_threshold : R;
  jump_duration_threshold : Z;
  min_session_length : Z;
  sessions : list Session;
  current_session_id : Z;
  in_session : bool;
  current_session_data : option SessionData;
  last_airplane_position : option (R * R);
  last_frame_number : option Z;
  jump_start_frame : option Z;
  jump_frames_count : Z
}.

(** [SessionTracker.__init__]. *)
Definition init (position_jump_threshold : R)
    (jump_duration_threshold min_session_length : Z) : SessionTracker :=
  {| position_jump_threshold := position_jump_threshold;
     jump_duration_threshold := jump_duration_threshold;
     min_session_length := min_session_length;
     sessions := [];
     current_session_id := 0;
     in_session := false;
     current_session_data := None;
     last_airplane_position := None;
     last_frame_number := None;
     jump_start_frame := None;
     jump_frames_count := 0 |}.

(** Attribute assignments. *)
Definition set_jump (self : SessionTracker) (start : option Z) (count : Z)
  : SessionTracker :=
  {| position_jump_threshold := position_jump_threshold self;
     jump_duration_threshold := jump_duration_threshold self;
     min_session_length := min_session_length self;
     sessions := sessions self;
     current_session_id := current_session_id self;
     in_session := in_session self;
     current_session_data := current_session_data self;
     last_airplane_position := last_airplane_position self;
     last_frame_number := last_frame_number self;
     jump_start_frame := start;
     jump_frames_count := count |}.

Definition set_session (self : SessionTracker) (history : list Session)
    (id : Z) (active : bool) (data : option SessionData) : SessionTracker :=
  {| position_jump_threshold := position_jump_threshold self;
     jump_duration_threshold := jump_duration_threshold self;
     min_session_length := min_session_length self;
     sessions := history;
     current_session_id := id;
     in_session := active;
     current_session_data := data;
     last_airplane_position := last_airplane_position self;
     last_frame_number := last_frame_number self;
     jump_start_frame := jump_start_frame self;
     jump_frames_count := jump_frames_count self |}.

Definition set_last (self : SessionTracker) (pos : option (R * R))
    (frame_number : option Z) : SessionTracker :=
  {| position_jump_threshold := position_jump_threshold self;
     jump_duration_threshold := jump_duration_threshold self;
     min_session_length := min_session_length self;
     sessions := sessions self;
     current_session_id := current_session_id self;
     in_session := in_session self;
     current_session_data := current_session_data self;
     last_airplane_position := pos;
     last_frame_number := frame_number;
     jump_start_frame := jump_start_frame self;
     jump_frames_count := jump_frames_count self |}.

(** [SessionTracker._start_new_session]. *)
Definition _start_new_session (self : SessionTracker) (start_frame : Z)
  : SessionTracker :=
  set_jump
    (set_session self (sessions self) (current_session_id self + 1)%Z true
       (Some {| cur_start_frame := start_frame;
                cur_last_frame := start_frame;
                cur_airplane_positions := [];
                cur_flock_positions := [];
                cur_airplane_velocities := [];
                cur_flock_velocities := [] |}))
    None 0%Z.

(** [SessionTracker._end_current_session].  [None] stands for the [KeyError]
    of reading ['last_frame'] from the empty dictionary.  The new [Session]
    shares its lists with [current_session_data]; the tracker never appends to
    them again (the next append follows a [_start_new_session], which installs
    fresh lists), so copying the values loses nothing. *)
Definition _end_current_session (self : SessionTracker)
  : option SessionTracker :=
  if negb (in_session self) then Some self
  else
    match current_session_data self with
    | None => None
    | Some data =>
        let session_length :=
          (cur_last_frame data - cur_start_frame data + 1)%Z in
        if (session_length <? min_session_length self)%Z then
          Some (set_session self (sessions self) (current_session_id self)
                  false (current_session_data self))
        else
          let session :=
            {| session_id := current_session_id self;
               start_frame := cur_start_frame data;
               end_frame := cur_last_frame data;
               airplane_positions := cur_airplane_positions data;
               flock_positions := cur_flock_positions data;
               airplane_velocities := cur_airplane_velocities data;
               flock_velocities := cur_flock_velocities data |} in
          Some (set_session self (sessions self ++ [session])
                  (current_session_id self) false (current_session_data self))
    end.

(** [SessionTracker.finalize]. *)
Definition finalize (self : SessionTracker) : option SessionTracker :=
  if in_session self then _end_current_session self else Some self.

Definition is_airplane (d : Tri.Point) : bool :=
  String.eqb (Tri.class d) "Airplane".

Definition is_flock (d : Tri.Point) : bool :=
  String.eqb (Tri.class d) "Flock".

(** The position-jump block of [update] (lines 178-194). *)
Definition track_jump (self : SessionTracker) (frame_number : Z)
    (current_airplane_pos : R * R) : SessionTracker :=
  match last_airplane_position self with
  | Some last =>
      let distance :=
        sqrt ((fst current_airplane_pos - fst last) ^ 2
              + (snd current_airplane_pos - snd last) ^ 2) in
      if Rgt_dec distance (position_jump_threshold self) then
        match jump_start_frame self with
        | None => set_jump self (Some frame_number) 1%Z
        | Some _ =>
            set_jump self (jump_start_frame self)
              (jump_frames_count self + 1)%Z
        end
      else set_jump self None 0%Z
  | None => self
  end.

(** The session-state block of [update] (lines 199-214), reached with an
    airplane in the frame: the branch [elif not airplane_detections] cannot be
    taken there. *)
Definition manage_session (self : SessionTracker) (frame_number : Z)
    (sustained_jump : bool) : option SessionTracker :=
  if negb (in_session self) then Some (_start_new_session self frame_number)
  else if sustained_jump then
    match _end_current_session self with
    | Some self' => Some (_start_new_session self' frame_number)
    | None => None
    end
  else Some self.

(** The block of [update] that appends to the current session
    (lines 217-244). *)
Definition record_frame (self : SessionTracker) (frame_number : Z)
    (airplane : Tri.Point) (flock_detections : list Tri.Point)
  : option SessionTracker :=
  if in_session self then
    match current_session_data self with
    | None => None
    | Some data =>
        let airplane_positions' :=
          cur_airplane_positions data
          ++ [(frame_number, Tri.x airplane, Tri.z airplane)] in
        let airplane_velocities' :=
          match last_airplane_position self, last_frame_number self with
          | Some last_pos, Some last_frame =>
              if (frame_number >? last_frame)%Z then
                let dt := (frame_number - last_frame)%Z in
                let vx := (Tri.x airplane - fst last_pos) / IZR dt in
                let vz := (Tri.z airplane - snd last_pos) / IZR dt in
                cur_airplane_velocities data ++ [(frame_number, vx, vz)]
              else cur_airplane_velocities data
          | _, _ => cur_airplane_velocities data
          end in
        let '(flock_positions', flock_velocities') :=
          match flock_detections with
          | flock :: _ =>
              let positions' :=
                cur_flock_positions data
                ++ [(frame_number, Tri.x flock, Tri.z flock)] in
              match Py.last_item (cur_flock_positions data) with
              | Some prev_flock =>
                  let dt := (frame_number - sample_frame prev_flock)%Z in
                  if (dt >? 0)%Z then
                    let vx := (Tri.x flock - sample_a prev_flock) / IZR dt in
                    let vz := (Tri.z flock - sample_b prev_flock) / IZR dt in
                    (positions',
                     cur_flock_velocities data ++ [(frame_number, vx, vz)])
                  else (positions', cur_flock_velocities data)
              | None => (positions', cur_flock_velocities data)
              end
          | [] => (cur_flock_positions data, cur_flock_velocities data)
          end in
        Some (set_session self (sessions self) (current_session_id self)
                (in_session self)
                (Some {| cur_start_frame := cur_start_frame data;
                         cur_last_frame := frame_number;
                         cur_airplane_positions := airplane_positions';
                         cur_flock_positions := flock_positions';
                         cur_airplane_velocities := airplane_velocities';
                         cur_flock_velocities := flock_velocities' |}))
    end
  else Some self.

(** [SessionTracker.update]. *)
Definition update (self : SessionTracker) (frame_number : Z)
    (detections : list Tri.Point) : option SessionTracker :=
  let airplane_detections := filter is_airplane detections in
  let flock_detections := filter is_flock detections in
  match airplane_detections with
  | airplane :: _ =>
      let current_airplane_pos := (Tri.x airplane, Tri.z airplane) in
      let self1 := track_jump self frame_number current_airplane_pos in
      let sustained_jump :=
        (jump_frames_count self1 >=? jump_duration_threshold self1)%Z in
      match manage_session self1 frame_number sustained_jump with
      | Some self2 =>
          match record_frame self2 frame_number airplane flock_detections with
          | Some self3 =>
              Some (set_last self3 (Some current_airplane_pos)
                      (Some frame_number))
          | None => None
          end
      | None => None
      end
  | [] =>
      match (if in_session self then _end_current_session self
             else Some self) with
      | Some self1 => Some (set_jump self1 None 0%Z)
      | None => None
      end
  end.

(** The tracker driven over a sequence of frames, as in
    [RealTimePipeline.process_frame] and in [main]. *)
Fixpoint run (self : SessionTracker) (frames : list (Z * list Tri.Point))
  : option SessionTracker :=
  match frames with
  | [] => Some self
  | (frame_number, detections) :: rest =>
      match update self frame_number detections with
      | Some self' => run self' rest
      | None => None
      end
  end.

(** The invariant of the tracker for minimum session length [m]: the
    parameter is [m], an open session has its dictionary, and every session in
    the history spans at least [m] frames. *)
Definition long_enough (m : Z) (s : Session) : Prop :=
  (m <= get_session_length s)%Z.

Definition tracker_ok (m : Z) (self : SessionTracker) : Prop :=
  min_session_length self = m
  /\ (in_session self = true -> current_session_data self <> None)
  /\ Forall (long_enough m) (sessions self).

(** Example points. *)
Definition point_at (cls_name : string) (px pz : R) : Tri.Point :=
  {| Tri.frame := 0; Tri.class := cls_name;
     Tri.x := px; Tri.y := 0; Tri.z := pz;
     Tri.confidence := 1; Tri.cameras := "Camera_A-Camera_B" |}.

Definition two_frames : list (Z * list Tri.Point) :=
  [(1%Z, [point_at "Airplane" 0 0; point_at "Flock" 0 0]);
   (2%Z, [point_at "Airplane" 3 0; point_at "Flock" 6 0])].

(** *** Cleaning a session *)

Definition Rleb (a b : R) : bool := if Rle_dec a b then true else false.

(** The test of [Session._remove_position_outliers] on an inner point, with
    its neighbours in the original list. *)
Definition within_speed (threshold : R) (prev curr next : Sample) : bool :=
  let dist_prev :=
    sqrt ((sample_a curr - sample_a prev) ^ 2
          + (sample_b curr - sample_b prev) ^ 2) in
  let dist_next :=
    sqrt ((sample_a next - sample_a curr) ^ 2
          + (sample_b next - sample_b curr) ^ 2) in
  let frame_gap_prev := Z.max 1 (sample_frame curr - sample_frame prev) in
  let frame_gap_next := Z.max 1 (sample_frame next - sample_frame curr) in
  let speed_prev := dist_prev / IZR frame_gap_prev in
  let speed_next := dist_next / IZR frame_gap_next in
  Rleb speed_prev threshold && Rleb speed_next threshold.

(** The loop of [_remove_position_outliers] from index 1 on: [prev] and
    [curr] are [positions[i-1]] and [positions[i]], [rest] what follows. *)
Fixpoint remove_outliers_from (threshold : R) (prev curr : Sample)
    (rest : list Sample) : list Sample :=
  match rest with
  | [] => [curr]
  | next :: rest' =>
      (if within_speed threshold prev curr next then [curr] else [])
      ++ remove_outliers_from threshold curr next rest'
  end.

(** [Session._remove_position_outliers]. *)
Definition _remove_position_outliers (positions : list Sample)
    (threshold : R) : list Sample :=
  match positions with
  | first :: second :: third :: rest =>
      first :: remove_outliers_from threshold first second (third :: rest)
  | _ => positions
  end.

(** [positions[start:end]] for indices within the list. *)
Definition slice {A : Type} (l : list A) (start stop : nat) : list A :=
  firstn (stop - start) (skipn start l).

(** [Session._smooth_positions].  The window size is a natural number: the
    callers pass 3, and a negative size would average an empty slice. *)
Definition _smooth_positions (positions : list Sample) (window_size : nat)
  : list Sample :=
  if (length positions <? window_size)%nat then positions
  else
    let half_window := (window_size / 2)%nat in
    map (fun ip =>
           let i := fst ip in
           let start_idx := (i - half_window)%nat in
           let end_idx := Nat.min (length positions) (i + half_window + 1) in
           let window := slice positions start_idx end_idx in
           (sample_frame (snd ip),
            Py.mean (map sample_a window),
            Py.mean (map sample_b window)))
      (Py.enumerate positions).

(** [Session.clean_data]. *)
Definition clean_data (self : Session) (position_jump_threshold : R)
    (smoothing_window : nat) : Session :=
  let airplane_positions' :=
    _smooth_positions
      (_remove_position_outliers (airplane_positions self)
         position_jump_threshold)
      smoothing_window in
  let flock_positions' :=
    _smooth_positions
      (_remove_position_outliers (flock_positions self)
         position_jump_threshold)
      smoothing_window in
  {| session_id := session_id self;
     start_frame := start_frame self;
     end_frame := end_frame self;
     airplane_positions := airplane_positions';
     flock_positions := flock_positions';
     airplane_velocities := _recalculate_velocities airplane_positions';
     flock_velocities := _recalculate_velocities flock_positions' |}.

(** A list obtained from another by dropping elements. *)
Inductive subsequence {A : Type} : list A -> list A -> Prop :=
| subsequence_nil : subsequence [] []
| subsequence_keep (a : A) (l1 l2 : list A) :
    subsequence l1 l2 -> subsequence (a :: l1) (a :: l2)
| subsequence_drop (a : A) (l1 l2 : list A) :
    subsequence l1 l2 -> subsequence l1 (a :: l2).

(** The velocity [_recalculate_velocities] computes between two samples
    whose frames increase. *)
Definition velocity_between (pair : Sample * Sample) : Sample :=
  let prev := fst pair in
  let curr := snd pair in
  let dt := IZR (sample_frame curr - sample_frame prev) / 30 in
  (sample_frame curr,
   (sample_a curr - sample_a prev) / dt,
   (sample_b curr - sample_b prev) / dt).

(** The frames of a list of samples come in strictly increasing order. *)
Fixpoint frames_increase_from (prev : Sample) (rest : list Sample) : Prop :=
  match rest with
  | [] => True
  | curr :: rest' =>
      (sample_frame prev < sample_frame curr)%Z
      /\ frames_increase_from curr rest'
  end.

Definition frames_increase (positions : list Sample) : Prop :=
  match positions with
  | [] => True
  | first :: rest => frames_increase_from first rest
  end.

(** The session identifiers of the history increase, and none is ahead of
    the tracker's counter; while a session is open its identifier is still
    unused. *)
Definition ids_ok (self : SessionTracker) : Prop :=
  StronglySorted Z.lt (map session_id (sessions self))
  /\ Forall (fun s => (1 <= session_id s <= current_session_id self)%Z)
       (sessions self)
  /\ (in_session self = true ->
      (1 <= current_session_id self)%Z
      /\ Forall (fun s => (session_id s < current_session_id self)%Z)
           (sessions self))
  /\ (0 <= current_session_id self)%Z.

(** The frames of a list of samples. *)
Definition frames_of (samples : list Sample) : list Z :=
  map sample_frame samples.

(** A recorded session spans its airplane samples: the first one is at
    [start_frame], the last one at [end_frame], and every flock sample is at
    the frame of an airplane sample, in the same order. *)
Definition session_spans (s : Session) : Prop :=
  hd_error (frames_of (airplane_positions s)) = Some (start_frame s)
  /\ Py.last_item (frames_of (airplane_positions s)) = Some (end_frame s)
  /\ subsequence (frames_of (flock_positions s))
       (frames_of (airplane_positions s)).

(** The same for the dictionary of the open session. *)
Definition data_spans (data : SessionData) : Prop :=
  hd_error (frames_of (cur_airplane_positions data))
  = Some (cur_start_frame data)
  /\ Py.last_item (frames_of (cur_airplane_positions data))
     = Some (cur_last_frame data)
  /\ subsequence (frames_of (cur_flock_positions data))
       (frames_of (cur_airplane_positions data)).

(** The dictionary [_start_new_session] installs for a session that starts at
    [frame_number]. *)
Definition fresh_data (frame_number : Z) (data : SessionData) : Prop :=
  cur_start_frame data = frame_number
  /\ cur_airplane_positions data = []
  /\ cur_flock_positions data = [].

(** Between two calls of [update]: the history holds spanning sessions, and
    so does the dictionary while a session is open. *)
Definition spans_ok (self : SessionTracker) : Prop :=
  Forall session_spans (sessions self)
  /\ (in_session self = true ->
      exists data,
        current_session_data self = Some data /\ data_spans data).

(** Example states: a tracker after one frame with an airplane at the
    origin, and the same with a jump counted over four frames. *)
Definition tracking : SessionTracker :=
  {| position_jump_threshold := 50;
     jump_duration_threshold := 5;
     min_session_length := 50;
     sessions := [];
     current_session_id := 1;
     in_session := true;
     current_session_data :=
       Some {| cur_start_frame := 1;
               cur_last_frame := 1;
               cur_airplane_positions := [(1%Z, 0, 0)];
               cur_flock_positions := [];
               cur_airplane_velocities := [];
               cur_flock_velocities := [] |};
     last_airplane_position := Some (0, 0);
     last_frame_number := Some 1%Z;
     jump_start_frame := None;
     jump_frames_count := 0 |}.

Definition jumping : SessionTracker :=
  set_jump tracking (Some 2%Z) 4.

End Track.

(** ** [bds_server.py]: the risk engine *)

Module Risk.

Open Scope R_scope.

(** The three level strings ['BR_LOW'], ['BR_MEDIUM'], ['BR_HIGH']; they are
    the only values [calculate_dynamic_risk_level] returns and the only values
    [last_risk_level] ever holds. *)
Inductive risk_level : Type := BR_LOW | BR_MEDIUM | BR_HIGH.

(** [level_priority = {'BR_LOW': 0, 'BR_MEDIUM': 1, 'BR_HIGH': 2}] *)
Definition level_priority (l : risk_level) : Z :=
  match l with
  | BR_LOW => 0
  | BR_MEDIUM => 1
  | BR_HIGH => 2
  end.

(** A float that may be [float('inf')]. *)
Inductive efloat : Type :=
| Fin (r : R)
| Inf.

(** The hysteresis part of [RealTimePipeline]'s attributes. *)
Record RiskState : Type := mkRiskState {
  last_risk_level : risk_level;
  risk_level_downgrade_counter : Z;
  downgrade_threshold : Z
}.

(** [RealTimePipeline.__init__], lines 95-97. *)
Definition initial_risk_state : RiskState :=
  {| last_risk_level := BR_LOW;
     risk_level_downgrade_counter := 0;
     downgrade_threshold := 5 |}.

(** [RealTimePipeline.get_stable_risk_level]: the new state and the returned
    pair (score, level). *)
Definition get_stable_risk_level (self : RiskState)
    (new_risk_score : R) (new_risk_level : risk_level)
  : RiskState * (R * risk_level) :=
  let prev_level := last_risk_level self in
  let curr_level := new_risk_level in
  if (level_priority curr_level >? level_priority prev_level)%Z then
    ({| last_risk_level := curr_level;
        risk_level_downgrade_counter := 0;
        downgrade_threshold := downgrade_threshold self |},
     (new_risk_score, curr_level))
  else if (level_priority curr_level <? level_priority prev_level)%Z then
    let counter := (risk_level_downgrade_counter self + 1)%Z in
    if (counter >=? downgrade_threshold self)%Z then
      ({| last_risk_level := curr_level;
          risk_level_downgrade_counter := 0;
          downgrade_threshold := downgrade_threshold self |},
       (new_risk_score, curr_level))
    else
      let prev_score :=
        match prev_level with
        | BR_MEDIUM => 120
        | BR_HIGH => 180
        | BR_LOW => new_risk_score
        end in
      ({| last_risk_level := prev_level;
          risk_level_downgrade_counter := counter;
          downgrade_threshold := downgrade_threshold self |},
       (prev_score, prev_level))
  else
    ({| last_risk_level := prev_level;
        risk_level_downgrade_counter := 0;
        downgrade_threshold := downgrade_threshold self |},
     (new_risk_score, curr_level)).

(** One state of the stabilizer: reporting HIGH, nothing counted yet, the
    default threshold of five frames. *)
Definition reporting_high : RiskState :=
  {| last_risk_level := BR_HIGH;
     risk_level_downgrade_counter := 0;
     downgrade_threshold := 5 |}.

(** The stabilizer fed one raw (score, level) pair per frame: the pairs it
    returns, frame by frame. *)
Fixpoint stabilize (self : RiskState) (frames : list (R * risk_level))
  : list (R * risk_level) :=
  match frames with
  | [] => []
  | (score, level) :: rest =>
      let '(self', out) := get_stable_risk_level self score level in
      out :: stabilize self' rest
  end.

(** [RealTimePipeline.calculate_dynamic_risk_level]. *)
Definition calculate_dynamic_risk_level
    (distance relative_speed : R) (ttc : efloat) : R * risk_level :=
  if Rlt_dec distance 50 then (180, BR_HIGH)
  else if Rlt_dec distance 100 then (120, BR_MEDIUM)
  else
    let floor :=
      match ttc with
      | Inf => None
      | Fin t =>
          if Rlt_dec t 5 then Some (180, BR_HIGH)
          else if Rlt_dec t 12 then Some (120, BR_MEDIUM)
          else None
      end in
    match floor with
    | Some r => r
    | None =>
        let distance_score :=
          if Rle_dec distance 50 then 100
          else if Rle_dec distance 100 then 80 - (distance - 50) * 0.6
          else if Rle_dec distance 200 then 50 - (distance - 100) * 0.3
          else Rmax 0 (20 - (distance - 200) * 0.05) in
        let speed_score :=
          if Rle_dec relative_speed 0 then 0
          else if Rle_dec relative_speed 10 then relative_speed * 3
          else if Rle_dec relative_speed 30
               then 30 + (relative_speed - 10) * 2.5
          else Rmin 100 (80 + (relative_speed - 30) * 1) in
        let ttc_score :=
          match ttc with
          | Inf => 0
          | Fin t =>
              if Rle_dec t 5 then 100
              else if Rle_dec t 15 then 100 - (t - 5) * 5
              else if Rle_dec t 30 then 50 - (t - 15) * 2
              else Rmax 0 (20 - (t - 30) * 0.5)
          end in
        let risk_score :=
          (distance_score * 0.4 + speed_score * 0.3 + ttc_score * 0.3) * 2 in
        let risk_level :=
          if Rge_dec risk_score 80 then BR_HIGH
          else if Rge_dec risk_score 60 then BR_MEDIUM
          else BR_LOW in
        (risk_score, risk_level)
    end.

(** A track dictionary as built by [get_active_tracks_from_sessions]. *)
Record TrackDict : Type := mkTrackDict {
  track_id : Z;
  class_name : string;
  positions : list (R * R);
  velocities : list (R * R);
  frames : list Z;
  session_id : Z;
  last_update : Z
}.

(** [RealTimePipeline.get_active_tracks_from_sessions], as a function of
    the tracker it reads. *)
Definition get_active_tracks_from_sessions (tracker : Track.SessionTracker)
  : list TrackDict :=
  if Track.in_session tracker then
    match Track.current_session_data tracker with
    | Some session_data =>
        let xz (s : Track.Sample) := (Track.sample_a s, Track.sample_b s) in
        let airplane_track :=
          match Track.cur_airplane_positions session_data with
          | [] => []
          | _ :: _ =>
              [ {| track_id := 1;
                   class_name := "Airplane";
                   positions :=
                     map xz (Track.cur_airplane_positions session_data);
                   velocities :=
                     map xz (Track.cur_airplane_velocities session_data);
                   frames :=
                     map Track.sample_frame
                       (Track.cur_airplane_positions session_data);
                   session_id := Track.current_session_id tracker;
                   last_update := Track.cur_last_frame session_data |} ]
          end in
        let flock_track :=
          match Track.cur_flock_positions session_data with
          | [] => []
          | _ :: _ =>
              [ {| track_id := 2;
                   class_name := "Flock";
                   positions :=
                     map xz (Track.cur_flock_positions session_data);
                   velocities :=
                     map xz (Track.cur_flock_velocities session_data);
                   frames :=
                     map Track.sample_frame
                       (Track.cur_flock_positions session_data);
                   session_id := Track.current_session_id tracker;
                   last_update := Track.cur_last_frame session_data |} ]
          end in
        airplane_track ++ flock_track
    | None => []
    end
  else [].

(** The length [last_frame - start_frame + 1] of the session in progress. *)
Definition current_session_length (tracker : Track.SessionTracker)
  : option Z :=
  match Track.current_session_data tracker with
  | Some session_data =>
      Some (Track.cur_last_frame session_data
            - Track.cur_start_frame session_data + 1)%Z
  | None => None
  end.

(** The threshold [1e-6] of [calculate_realtime_ttc]. *)
Definition epsilon : R := 1e-6.

(** [RealTimePipeline.calculate_realtime_ttc].  [positions[-1]] on an empty
    list raises [IndexError], which the handler turns into [float('inf')]. *)
Definition calculate_realtime_ttc (airplane_track flock_track : TrackDict)
  : efloat :=
  match Py.last_item (positions airplane_track),
        Py.last_item (positions flock_track) with
  | Some airplane_pos, Some flock_pos =>
      match Py.last_item (velocities airplane_track),
            Py.last_item (velocities flock_track) with
      | Some airplane_vel, Some flock_vel =>
          let dx := fst airplane_pos - fst flock_pos in
          let dz := snd airplane_pos - snd flock_pos in
          let current_distance := sqrt (dx ^ 2 + dz ^ 2) in
          let rel_vx := fst airplane_vel - fst flock_vel in
          let rel_vz := snd airplane_vel - snd flock_vel in
          let rel_speed_magnitude := sqrt (rel_vx ^ 2 + rel_vz ^ 2) in
          if Rlt_dec current_distance epsilon then Inf
          else if Rlt_dec rel_speed_magnitude epsilon then Inf
          else
            let unit_x := dx / current_distance in
            let unit_z := dz / current_distance in
            let closing_speed := - (rel_vx * unit_x + rel_vz * unit_z) in
            if Rle_dec closing_speed 0 then Inf
            else
              let ttc := current_distance / closing_speed in
              Fin (Rmax 0.1 (Rmin 300 ttc))
      | _, _ => Inf
      end
  | _, _ => Inf
  end.

(** *** The quantities of the specification's TTC rule

    Written from the specification's words, to be compared with the code:
    [d] is the current XZ distance, [v_close] is minus the relative velocity
    dotted with the unit vector from flock to airplane. *)
Definition spec_d (airplane_pos flock_pos : R * R) : R :=
  sqrt ((fst airplane_pos - fst flock_pos) ^ 2
        + (snd airplane_pos - snd flock_pos) ^ 2).

Definition spec_v_close (airplane_pos flock_pos airplane_vel flock_vel : R * R)
  : R :=
  let d := spec_d airplane_pos flock_pos in
  - ((fst airplane_vel - fst flock_vel)
       * ((fst airplane_pos - fst flock_pos) / d)
     + (snd airplane_vel - snd flock_vel)
       * ((snd airplane_pos - snd flock_pos) / d)).

Definition spec_rel_speed (airplane_vel flock_vel : R * R) : R :=
  sqrt ((fst airplane_vel - fst flock_vel) ^ 2
        + (snd airplane_vel - snd flock_vel) ^ 2).

Definition clamp (lo hi v : R) : R := Rmax lo (Rmin hi v).

(** Example tracks: the airplane 10 m east of the flock, drifting sideways at
    1 m/s and closing at only [1e-7] m/s. *)
Definition slow_airplane : TrackDict :=
  {| track_id := 1; class_name := "Airplane";
     positions := [(10, 0)]; velocities := [(- 1e-7, 1)];
     frames := [1%Z]; session_id := 1; last_update := 1 |}.

Definition still_flock : TrackDict :=
  {| track_id := 2; class_name := "Flock";
     positions := [(0, 0)]; velocities := [(0, 0)];
     frames := [1%Z]; session_id := 1; last_update := 1 |}.

(** [RealTimePipeline.calculate_3d_distance]. *)
Definition calculate_3d_distance (airplane_pos flock_pos : R * R) : R :=
  let dx := fst airplane_pos - fst flock_pos in
  let dz := snd airplane_pos - snd flock_pos in
  let horizontal_distance := sqrt (dx ^ 2 + dz ^ 2) in
  let altitude_diff := 50 in
  sqrt (horizontal_distance ^ 2 + altitude_diff ^ 2).

(** [RealTimePipeline.calculate_relative_speed]: [0.0] when a velocity list
    is empty, when the handler catches the [IndexError] of an empty position
    list, and when the objects are closer than [1e-6]. *)
Definition calculate_relative_speed (airplane_track flock_track : TrackDict)
  : R :=
  match Py.last_item (velocities airplane_track),
        Py.last_item (velocities flock_track) with
  | Some airplane_vel, Some flock_vel =>
      match Py.last_item (positions airplane_track),
            Py.last_item (positions flock_track) with
      | Some airplane_pos, Some flock_pos =>
          let dx := fst airplane_pos - fst flock_pos in
          let dz := snd airplane_pos - snd flock_pos in
          let distance := sqrt (dx ^ 2 + dz ^ 2) in
          if Rlt_dec distance epsilon then 0
          else
            let unit_x := dx / distance in
            let unit_z := dz / distance in
            let rel_vx := fst airplane_vel - fst flock_vel in
            let rel_vz := snd airplane_vel - snd flock_vel in
            rel_vx * unit_x + rel_vz * unit_z
      | _, _ => 0
      end
  | _, _ => 0
  end.

(** The raw level is strictly below the level the stabilizer reports. *)
Definition below_reported (self : RiskState) (frame : R * risk_level)
  : Prop :=
  (level_priority (snd frame) < level_priority (last_risk_level self))%Z.

End Risk.

(** ** [route_based_risk_calculator.py]: loading the routes *)

Module Routes.

Open Scope R_scope.

(** A value returned by [json.load].  A dictionary is the Python [dict]
    after loading: its keys are distinct. *)
#[local] Unset Elimination Schemes.
Inductive json : Type :=
| JNull
| JBool (b : bool)
| JNum (value : R)
| JStr (s : string)
| JList (items : list json)
| JDict (entries : list (string * json)).
#[local] Set Elimination Schemes.

(** [d.get(key)] on the entries of a dictionary. *)
Fixpoint lookup (key : string) (entries : list (string * json))
  : option json :=
  match entries with
  | [] => None
  | (k, v) :: rest => if String.eqb k key then Some v else lookup key rest
  end.

(** [value[key]] for a string key: [KeyError] on a dictionary without the
    key, [TypeError] on anything that is not a dictionary; both are [None]. *)
Definition getitem (value : json) (key : string) : option json :=
  match value with
  | JDict entries => lookup key entries
  | _ => None
  end.

(** The characters of a string, each as a one-character string. *)
Fixpoint characters (s : string) : list json :=
  match s with
  | EmptyString => []
  | String c rest => JStr (String c EmptyString) :: characters rest
  end.

(** [for item in value]: a list yields its items, a dictionary its keys, a
    string its characters; anything else raises [TypeError] ([None]). *)
Definition iterate (value : json) : option (list json) :=
  match value with
  | JList items => Some items
  | JDict entries => Some (map (fun kv => JStr (fst kv)) entries)
  | JStr s => Some (characters s)
  | _ => None
  end.

(** The dataclass [RoutePoint]; the loader stores whatever values the file
    holds. *)
Record RoutePoint : Type := mkRoutePoint {
  x : json;
  y : json;
  z : json
}.

(** The dataclass [FlightRoute]. *)
Record FlightRoute : Type := mkFlightRoute {
  path_name : json;
  waypoints : list RoutePoint;
  route_points : list RoutePoint;
  export_time : json;
  total_waypoints : json
}.

(** [RoutePoint(wp['x'], wp['y'], wp['z'])]. *)
Definition route_point_of (wp : json) : option RoutePoint :=
  match getitem wp "x", getitem wp "y", getitem wp "z" with
  | Some px, Some py, Some pz => Some {| x := px; y := py; z := pz |}
  | _, _, _ => None
  end.

(** A list comprehension [[RoutePoint(...) for wp in items]]. *)
Fixpoint route_points_of (items : list json) : option (list RoutePoint) :=
  match items with
  | [] => Some []
  | wp :: rest =>
      match route_point_of wp, route_points_of rest with
      | Some p, Some ps => Some (p :: ps)
      | _, _ => None
      end
  end.

(** The records the loader writes to its logger; the text of the caught
    exception is left out. *)
Inductive log_record : Type :=
| Warning_directory_not_found (routes_directory : string)
| Info_loaded_route (name : json) (points : nat)
| Error_loading_route (json_path : string)
| Error_failed_to_load (json_file : string).

(** The body of the [try] block of [_load_route_from_json] once [json.load]
    has returned [data].  [None] is any exception raised in the block. *)
Definition parse_route (data : json) : option FlightRoute :=
  match getitem data "waypoints" with
  | None => None
  | Some wps =>
      match iterate wps with
      | None => None
      | Some wp_items =>
          match route_points_of wp_items with
          | None => None
          | Some waypoints =>
              match getitem data "routePoints" with
              | None => None
              | Some rps =>
                  match iterate rps with
                  | None => None
                  | Some rp_items =>
                      match route_points_of rp_items with
                      | None => None
                      | Some route_points =>
                          match getitem data "pathName",
                                getitem data "exportTime",
                                getitem data "totalWaypoints" with
                          | Some name, Some time, Some total =>
                              Some {| path_name := name;
                                      waypoints := waypoints;
                                      route_points := route_points;
                                      export_time := time;
                                      total_waypoints := total |}
                          | _, _, _ => None
                          end
                      end
                  end
              end
          end
      end
  end.

(** [RouteBasedRiskCalculator._load_route_from_json]: the returned route and
    the records logged.  [contents] is [None] when the file cannot be opened
    or is not valid JSON. *)
Definition _load_route_from_json (json_path : string)
    (contents : option json) : option FlightRoute * list log_record :=
  match contents with
  | None => (None, [Error_loading_route json_path])
  | Some data =>
      match parse_route data with
      | Some route => (Some route, [])
      | None => (None, [Error_loading_route json_path])
      end
  end.

(** Keys of [flight_routes]: lists and dictionaries are unhashable; Python
    equates [True] with [1] and [False] with [0]. *)
Definition hashable (key : json) : bool :=
  match key with
  | JList _ | JDict _ => false
  | _ => true
  end.

Definition Reqb (a b : R) : bool := if Req_dec_T a b then true else false.

Definition key_eqb (k1 k2 : json) : bool :=
  match k1, k2 with
  | JNull, JNull => true
  | JBool b1, JBool b2 => Bool.eqb b1 b2
  | JNum a, JNum b => Reqb a b
  | JBool b, JNum a | JNum a, JBool b => Reqb a (if b then 1 else 0)
  | JStr s1, JStr s2 => String.eqb s1 s2
  | _, _ => false
  end.

(** [flight_routes[key] = route]. *)
Fixpoint routes_set (key : json) (route : FlightRoute)
    (flight_routes : list (json * FlightRoute))
  : list (json * FlightRoute) :=
  match flight_routes with
  | [] => [(key, route)]
  | (k, r) :: rest =>
      if key_eqb k key then (k, route) :: rest
      else (k, r) :: routes_set key route rest
  end.

(** The attributes of [RouteBasedRiskCalculator] that loading touches, with
    the logger's output. *)
Record Calculator : Type := mkCalculator {
  routes_directory : string;
  flight_routes : list (json * FlightRoute);
  log : list log_record
}.

(** [s.endswith(suffix)] and [s.startswith(prefix)]. *)
Fixpoint endswith (s suffix : string) : bool :=
  if String.eqb s suffix then true
  else
    match s with
    | EmptyString => false
    | String _ rest => endswith rest suffix
    end.

Definition startswith (s prefix : string) : bool := String.prefix prefix s.

(** [os.path.join(directory, name)] for a name that [os.listdir] returned. *)
Definition path_join (directory name : string) : string :=
  if String.eqb directory "" then name
  else if endswith directory "/" then directory ++ name
  else directory ++ "/" ++ name.

(** One iteration of the loop of [_load_all_routes] over a file that passed
    the two name tests. *)
Definition load_one (self : Calculator) (json_file : string)
    (contents : option json) : Calculator :=
  let '(route, logged) :=
    _load_route_from_json (path_join (routes_directory self) json_file)
      contents in
  match route with
  | Some r =>
      if hashable (path_name r) then
        {| routes_directory := routes_directory self;
           flight_routes := routes_set (path_name r) r (flight_routes self);
           log := log self ++ logged
                  ++ [Info_loaded_route (path_name r)
                        (length (route_points r))] |}
      else
        {| routes_directory := routes_directory self;
           flight_routes := flight_routes self;
           log := log self ++ logged ++ [Error_failed_to_load json_file] |}
  | None =>
      {| routes_directory := routes_directory self;
         flight_routes := flight_routes self;
         log := log self ++ logged |}
  end.

(** The files the loop looks at. *)
Definition is_route_file (json_file : string) : bool :=
  endswith json_file ".json"
  && negb (startswith json_file "auto_processor_state").

Definition load_step (self : Calculator) (file : string * option json)
  : Calculator :=
  if is_route_file (fst file) then load_one self (fst file) (snd file)
  else self.

(** [RouteBasedRiskCalculator._load_all_routes].  [listing] is [None] when
    the directory does not exist, otherwise the names [os.listdir] returned,
    each with what [json.load] makes of the file. *)
Definition _load_all_routes (self : Calculator)
    (listing : option (list (string * option json))) : Calculator :=
  match listing with
  | None =>
      {| routes_directory := routes_directory self;
         flight_routes := flight_routes self;
         log := log self
                ++ [Warning_directory_not_found (routes_directory self)] |}
  | Some files => fold_left load_step files self
  end.

(** [RouteBasedRiskCalculator.__init__] before it loads. *)
Definition new_calculator (directory : string) : Calculator :=
  {| routes_directory := directory; flight_routes := []; log := [] |}.

(** Example route files. *)
Definition origin : json :=
  JDict [("x"%string, JNum 0); ("y"%string, JNum 0); ("z"%string, JNum 0)].

Definition ahead : json :=
  JDict [("x"%string, JNum 0); ("y"%string, JNum 0); ("z"%string, JNum 100)].

Definition waypoints_only : json :=
  JDict [("pathName"%string, JStr "Path_A");
         ("waypoints"%string, JList [origin; ahead]);
         ("exportTime"%string, JStr "2025-01-01 00:00:00");
         ("totalWaypoints"%string, JNum 2)].

Definition complete_route : json :=
  JDict [("pathName"%string, JStr "Path_B");
         ("waypoints"%string, JList [origin]);
         ("routePoints"%string, JList [origin; ahead]);
         ("exportTime"%string, JStr "2025-01-01 00:00:00");
         ("totalWaypoints"%string, JNum 1)].

(** *** Queries *)

(** A numpy array of three numbers, with the difference, the Euclidean norm
    ([np.linalg.norm]) and the division by a scalar. *)
Definition Vec3 : Type := (R * R * R)%type.

Definition c1 (v : Vec3) : R := fst (fst v).
Definition c2 (v : Vec3) : R := snd (fst v).
Definition c3 (v : Vec3) : R := snd v.

Definition zeros : Vec3 := (0, 0, 0).

Definition sub (u v : Vec3) : Vec3 := (c1 u - c1 v, c2 u - c2 v, c3 u - c3 v).

Definition norm (v : Vec3) : R := sqrt (c1 v ^ 2 + c2 v ^ 2 + c3 v ^ 2).

Definition div (v : Vec3) (s : R) : Vec3 := (c1 v / s, c2 v / s, c3 v / s).

(** [RoutePoint.to_array] for a point whose three coordinates are JSON
    numbers.  The loader accepts any JSON value as a coordinate; [None]
    stands for a point with another kind of coordinate, on which the
    arithmetic of the queries raises or works on an array of another shape.
    The queries are followed on numeric points. *)
Definition coordinate (value : json) : option R :=
  match value with
  | JNum r => Some r
  | _ => None
  end.

Definition to_array (p : RoutePoint) : option Vec3 :=
  match coordinate (x p), coordinate (y p), coordinate (z p) with
  | Some a, Some b, Some c => Some (a, b, c)
  | _, _, _ => None
  end.

(** [[rp.to_array() for rp in route.route_points]]. *)
Fixpoint arrays_of (points : list RoutePoint) : option (list Vec3) :=
  match points with
  | [] => Some []
  | p :: rest =>
      match to_array p, arrays_of rest with
      | Some v, Some vs => Some (v :: vs)
      | _, _ => None
      end
  end.

(** [flight_routes[key]], and [key in flight_routes] as its being [Some]. *)
Fixpoint routes_get (key : json) (flight_routes : list (json * FlightRoute))
  : option FlightRoute :=
  match flight_routes with
  | [] => None
  | (k, r) :: rest => if key_eqb k key then Some r else routes_get key rest
  end.

(** [distance < min_distance], where [min_distance] may be [float('inf')]. *)
Definition closer (distance : R) (min_distance : Risk.efloat) : bool :=
  match min_distance with
  | Risk.Inf => true
  | Risk.Fin m => if Rlt_dec distance m then true else false
  end.

(** What the queries write to the logger. *)
Inductive query_warning : Type :=
| Warning_route_not_found (route_name : string).

(** The loop of [calculate_distance_to_route]. *)
Fixpoint min_distance_from (flock_position : Vec3)
    (points : list RoutePoint) (min_distance : Risk.efloat)
  : option Risk.efloat :=
  match points with
  | [] => Some min_distance
  | route_point :: rest =>
      match to_array route_point with
      | None => None
      | Some route_pos =>
          let distance := norm (sub flock_position route_pos) in
          min_distance_from flock_position rest
            (if closer distance min_distance then Risk.Fin distance
             else min_distance)
      end
  end.

(** [RouteBasedRiskCalculator.calculate_distance_to_route]: the returned
    value ([None]: an exception) and the warnings logged. *)
Definition calculate_distance_to_route (self : Calculator)
    (route_name : string) (flock_position : Vec3)
  : option Risk.efloat * list query_warning :=
  match routes_get (JStr route_name) (flight_routes self) with
  | None => (Some Risk.Inf, [Warning_route_not_found route_name])
  | Some route =>
      (min_distance_from flock_position (route_points route) Risk.Inf, [])
  end.

(** The loop of [get_closest_point_on_route]; [best] holds [min_distance],
    [closest_point] and [closest_idx]. *)
Fixpoint closest_from (flock_position : Vec3)
    (points : list (nat * RoutePoint))
    (best : Risk.efloat * option Vec3 * Z)
  : option (Risk.efloat * option Vec3 * Z) :=
  match points with
  | [] => Some best
  | (i, route_point) :: rest =>
      match to_array route_point with
      | None => None
      | Some route_pos =>
          let distance := norm (sub flock_position route_pos) in
          closest_from flock_position rest
            (if closer distance (fst (fst best))
             then (Risk.Fin distance, Some route_pos, Z.of_nat i)
             else best)
      end
  end.

(** [RouteBasedRiskCalculator.get_closest_point_on_route]: the triple
    (distance, point, index), where the point is [None] when the loop never
    assigned it, and the warnings logged. *)
Definition get_closest_point_on_route (self : Calculator)
    (route_name : string) (flock_position : Vec3)
  : option (Risk.efloat * option Vec3 * Z) * list query_warning :=
  match routes_get (JStr route_name) (flight_routes self) with
  | None =>
      (Some (Risk.Inf, Some zeros, (-1)%Z),
       [Warning_route_not_found route_name])
  | Some route =>
      (closest_from flock_position (Py.enumerate (route_points route))
         (Risk.Inf, None, (-1)%Z), [])
  end.

(** The index loop of [calculate_route_segment_direction]; [best] holds
    [closest_idx] and [min_dist]. *)
Fixpoint closest_index_from (closest_point : Vec3)
    (points : list (nat * Vec3)) (best : nat * Risk.efloat) : nat :=
  match points with
  | [] => fst best
  | (i, point) :: rest =>
      let dist := norm (sub point closest_point) in
      closest_index_from closest_point rest
        (if closer dist (snd best) then (i, Risk.Fin dist) else best)
  end.

(** [l[i]] for an integer index: negative indices count from the end, and
    an index out of range raises [IndexError] ([None]). *)
Definition py_index {A : Type} (l : list A) (i : Z) : option A :=
  let len := Z.of_nat (length l) in
  if ((0 <=? i) && (i <? len))%Z then nth_error l (Z.to_nat i)
  else if ((- len <=? i) && (i <? 0))%Z then nth_error l (Z.to_nat (len + i))
  else None.

(** [RouteBasedRiskCalculator.calculate_route_segment_direction]. *)
Definition calculate_route_segment_direction (self : Calculator)
    (route_name : string) (closest_point : Vec3) (segment_length : Z)
  : option Vec3 :=
  match routes_get (JStr route_name) (flight_routes self) with
  | None => Some zeros
  | Some route =>
      match arrays_of (route_points route) with
      | None => None
      | Some route_points =>
          let closest_idx :=
            Z.of_nat
              (closest_index_from closest_point (Py.enumerate route_points)
                 (0%nat, Risk.Inf)) in
          let start_idx := Z.max 0 (closest_idx - segment_length / 2) in
          let end_idx :=
            Z.min (Z.of_nat (length route_points) - 1)
              (closest_idx + segment_length / 2) in
          if (start_idx =? end_idx)%Z then Some zeros
          else
            match py_index route_points end_idx,
                  py_index route_points start_idx with
            | Some last_point, Some first_point =>
                let direction := sub last_point first_point in
                let direction_norm := norm direction in
                if Rgt_dec direction_norm 0
                then Some (div direction direction_norm)
                else Some zeros
            | _, _ => None
            end
      end
  end.

(** [RouteBasedRiskCalculator.get_route_info]: the dictionary with keys
    ['path_name'], ['total_waypoints'], ['total_route_points'] and
    ['export_time'], as the tuple of its values. *)
Definition get_route_info (self : Calculator) (route_name : string)
  : option (json * json * nat * json) :=
  match routes_get (JStr route_name) (flight_routes self) with
  | None => None
  | Some route =>
      Some (path_name route, total_waypoints route,
            length (route_points route), export_time route)
  end.

(** The distance from a position to an array. *)
Definition distance_to (flock_position : Vec3) (p : Vec3) : R :=
  norm (sub flock_position p).

(** A distance that may be infinite is finite and at most [d]. *)
Definition at_most (r : Risk.efloat) (d : R) : Prop :=
  match r with
  | Risk.Fin m => m <= d
  | Risk.Inf => False
  end.

(** Example: a calculator that holds one route of two points, 100 m apart
    along the z axis. *)
Definition straight_route : FlightRoute :=
  {| path_name := JStr "Path_A";
     waypoints := [];
     route_points :=
       [{| x := JNum 0; y := JNum 0; z := JNum 0 |};
        {| x := JNum 0; y := JNum 0; z := JNum 100 |}];
     export_time := JNull;
     total_waypoints := JNum 0 |}.

Definition straight_calculator : Calculator :=
  {| routes_directory := "data/routes";
     flight_routes := [(JStr "Path_A", straight_route)];
     log := [] |}.

(** The file that holds [straight_route]. *)
Definition waypoints_and_points : json :=
  JDict [("pathName"%string, JStr "Path_A");
         ("waypoints"%string, JList []);
         ("routePoints"%string, JList [origin; ahead]);
         ("exportTime"%string, JNull);
         ("totalWaypoints"%string, JNum 0)].

End Routes.

(** ** [bds_tcp_client.py]: the wire format *)

Module Tcp.

Open Scope Z_scope.

(** The byte with value [v mod 256]. *)
Definition byte_of_Z (v : Z) : byte :=
  match Byte.of_N (Z.to_N (v mod 256)) with
  | Some b => b
  | None => x00
  end.

Definition Z_of_byte (b : byte) : Z := Z.of_N (Byte.to_N b).

(** [int.to_bytes(4, byteorder='big')]; [None] stands for the
    [OverflowError] of a value that does not fit. *)
Definition to_bytes_4_big (n : Z) : option (list byte) :=
  if (0 <=? n) && (n <? 2 ^ 32) then
    Some [byte_of_Z (Z.shiftr n 24); byte_of_Z (Z.shiftr n 16);
          byte_of_Z (Z.shiftr n 8); byte_of_Z n]
  else None.

(** [int.from_bytes(bytes, byteorder='big')], the reading a peer makes of
    the length prefix. *)
Definition from_bytes_big (bytes : list byte) : Z :=
  fold_left (fun acc b => acc * 256 + Z_of_byte b) bytes 0.

(** [str.encode('utf-8')] for one code point; [None] stands for the
    [UnicodeEncodeError] raised for a surrogate.  A Python string holds code
    points from 0 to 0x10FFFF only. *)
Definition encode_code_point (c : Z) : option (list byte) :=
  if c <? 0 then None
  else if c <? 128 then Some [byte_of_Z c]
  else if c <? 2048 then
    Some [byte_of_Z (Z.lor 192 (Z.shiftr c 6));
          byte_of_Z (Z.lor 128 (Z.land c 63))]
  else if (55296 <=? c) && (c <=? 57343) then None
  else if c <? 65536 then
    Some [byte_of_Z (Z.lor 224 (Z.shiftr c 12));
          byte_of_Z (Z.lor 128 (Z.land (Z.shiftr c 6) 63));
          byte_of_Z (Z.lor 128 (Z.land c 63))]
  else if c <? 1114112 then
    Some [byte_of_Z (Z.lor 240 (Z.shiftr c 18));
          byte_of_Z (Z.lor 128 (Z.land (Z.shiftr c 12) 63));
          byte_of_Z (Z.lor 128 (Z.land (Z.shiftr c 6) 63));
          byte_of_Z (Z.lor 128 (Z.land c 63))]
  else None.

(** [str.encode('utf-8')] for a string given by its code points. *)
Fixpoint encode_utf8 (s : list Z) : option (list byte) :=
  match s with
  | [] => Some []
  | c :: rest =>
      match encode_code_point c, encode_utf8 rest with
      | Some bytes, Some more => Some (bytes ++ more)
      | _, _ => None
      end
  end.

(** The TCP connection as the client sees it: the bytes written so far, and
    how many more bytes the connection accepts before [sendall] raises
    ([None]: it never does). *)
Record Socket : Type := mkSocket {
  written : list byte;
  budget : option nat
}.

(** [socket.sendall(data)]: the socket afterwards and whether the call
    returned ([true]) or raised ([false]). *)
Definition sendall (sock : Socket) (data : list byte) : Socket * bool :=
  match budget sock with
  | None => ({| written := written sock ++ data; budget := None |}, true)
  | Some room =>
      if (length data <=? room)%nat then
        ({| written := written sock ++ data;
            budget := Some (room - length data)%nat |}, true)
      else
        ({| written := written sock ++ firstn room data;
            budget := Some 0%nat |}, false)
  end.

(** The attributes of [BDSTCPClient] that [send_message] touches. *)
Record Client : Type := mkClient {
  connected : bool;
  socket : option Socket
}.

Section WithJson.

(** A message dictionary, and [json.dumps(message)] as the list of code
    points of the resulting string; [None] stands for the [TypeError] or
    [ValueError] of a message that cannot be serialised. *)
Variable Message : Type.
Variable json_dumps : Message -> option (list Z).

(** The handler of [send_message]: [self.connected = False; return False]. *)
Definition send_failed (sock : option Socket) : Client * bool :=
  ({| connected := false; socket := sock |}, false).

(** [BDSTCPClient.send_message]. *)
Definition send_message (self : Client) (message : Message) : Client * bool :=
  if negb (connected self) then (self, false)
  else
    match json_dumps message with
    | None => send_failed (socket self)
    | Some message_str =>
        match encode_utf8 message_str with
        | None => send_failed (socket self)
        | Some message_bytes =>
            match to_bytes_4_big (Z.of_nat (length message_bytes)) with
            | None => send_failed (socket self)
            | Some length_bytes =>
                match socket self with
                | None => send_failed None
                | Some sock =>
                    let '(sock1, ok1) := sendall sock length_bytes in
                    if ok1 then
                      let '(sock2, ok2) := sendall sock1 message_bytes in
                      if ok2 then
                        ({| connected := connected self;
                            socket := Some sock2 |}, true)
                      else send_failed (Some sock2)
                    else send_failed (Some sock1)
                end
            end
        end
    end.

End WithJson.

(** An example: the message whose serialisation is the two characters of an
    empty JSON object, sent on a healthy connection. *)
Definition dumps_empty_object (message : unit) : option (list Z) :=
  Some [123; 125].

Definition healthy_client : Client :=
  {| connected := true;
     socket := Some {| written := []; budget := None |} |}.

End Tcp.

(** ** The risk step of the pipeline ([bds_server.py])

    [RealTimePipeline.calculate_risk] with the attributes it reads and
    writes.  What it prints on the console is left out. *)

Module Pipeline.

Import Risk.
Open Scope R_scope.

(** The value of [current_risk_level]: the enumeration member
    [RiskLevel.BR_LOW] that [__init__] stores, or one of the level strings
    that [calculate_risk] stores.  [RiskLevel] is a plain [Enum], so the
    member is different from every string. *)
Inductive sent_level : Type :=
| Member_BR_LOW
| Level (level : risk_level).

Definition level_eqb (a b : risk_level) : bool :=
  match a, b with
  | BR_LOW, BR_LOW | BR_MEDIUM, BR_MEDIUM | BR_HIGH, BR_HIGH => true
  | _, _ => false
  end.

(** [stable_risk_level != self.current_risk_level]. *)
Definition differs (stable_risk_level : risk_level) (current : sent_level)
  : bool :=
  match current with
  | Member_BR_LOW => true
  | Level level => negb (level_eqb stable_risk_level level)
  end.

(** The message [{"type": "event", "event": "BR_CHANGED", "result": level}]
    given by its last value. *)
Inductive message : Type :=
| BR_CHANGED (result : risk_level).

Definition level_name (level : risk_level) : string :=
  match level with
  | BR_LOW => "BR_LOW"
  | BR_MEDIUM => "BR_MEDIUM"
  | BR_HIGH => "BR_HIGH"
  end.

(** The code points of an ASCII string, and of the same string as JSON
    text, between two quotation marks (code point 34). *)
Definition code_points (s : string) : list Z :=
  map (fun c => Z.of_nat (nat_of_ascii c)) (list_ascii_of_string s).

Definition json_text (s : string) : list Z :=
  [34%Z] ++ code_points s ++ [34%Z].

(** [json.dumps(message)] for this dictionary: the keys in insertion order,
    the separators [", "] and [": "]. *)
Definition json_dumps (m : message) : option (list Z) :=
  match m with
  | BR_CHANGED result =>
      Some (code_points "{"
            ++ json_text "type" ++ code_points ": " ++ json_text "event"
            ++ code_points ", "
            ++ json_text "event" ++ code_points ": " ++ json_text "BR_CHANGED"
            ++ code_points ", "
            ++ json_text "result" ++ code_points ": "
            ++ json_text (level_name result)
            ++ code_points "}")
  end.

(** The attributes of [RealTimePipeline] that [calculate_risk] reads and
    writes; [enable_tcp] is [config['enable_tcp']]. *)
Record State : Type := mkState {
  route_calculator : option Routes.Calculator;
  route_assignment_cache : list (Z * string);
  airplane_route_mapping : list (Z * string);
  tcp_client : option Tcp.Client;
  enable_tcp : bool;
  current_risk_level : sent_level;
  stabilizer : RiskState
}.

(** [cache[track_id]] and [cache[track_id] = route]. *)
Fixpoint cache_get (track : Z) (cache : list (Z * string)) : option string :=
  match cache with
  | [] => None
  | (k, v) :: rest => if (k =? track)%Z then Some v else cache_get track rest
  end.

Fixpoint cache_set (track : Z) (route : string) (cache : list (Z * string))
  : list (Z * string) :=
  match cache with
  | [] => [(track, route)]
  | (k, v) :: rest =>
      if (k =? track)%Z then (k, route) :: rest
      else (k, v) :: cache_set track route rest
  end.

(** [RealTimePipeline.estimate_airplane_route]: the route name and the state
    with its caches.  Nothing in the [try] block raises on a track
    dictionary, so the handler is never entered. *)
Definition estimate_airplane_route (self : State) (airplane_track : TrackDict)
  : option string * State :=
  match route_calculator self with
  | None => (None, self)
  | Some _ =>
      if (track_id airplane_track =? 0)%Z then (None, self)
      else
        match cache_get (track_id airplane_track)
                (route_assignment_cache self) with
        | Some route => (Some route, self)
        | None =>
            match Py.last_item (positions airplane_track) with
            | None => (None, self)
            | Some _ =>
                (Some "Path_A"%string,
                 {| route_calculator := route_calculator self;
                    route_assignment_cache :=
                      cache_set (track_id airplane_track) "Path_A"
                        (route_assignment_cache self);
                    airplane_route_mapping :=
                      cache_set (track_id airplane_track) "Path_A"
                        (airplane_route_mapping self);
                    tcp_client := tcp_client self;
                    enable_tcp := enable_tcp self;
                    current_risk_level := current_risk_level self;
                    stabilizer := stabilizer self |})
            end
        end
  end.

(** The loop of [calculate_risk] over the active tracks: the last airplane
    track and the last flock track. *)
Fixpoint pick_tracks (active_tracks : list TrackDict)
    (airplane_track flock_track : option TrackDict)
  : option TrackDict * option TrackDict :=
  match active_tracks with
  | [] => (airplane_track, flock_track)
  | track :: rest =>
      if String.eqb (class_name track) "Airplane"
      then pick_tracks rest (Some track) flock_track
      else if String.eqb (class_name track) "Flock"
      then pick_tracks rest airplane_track (Some track)
      else pick_tracks rest airplane_track flock_track
  end.

(** The three values of ['distance_type']: the strings for "no flock",
    "hybrid" and "straight line". *)
Inductive distance_type : Type := No_flock | Hybrid | Direct.

(** The dictionary [calculate_risk] returns.  [raw_risk] holds
    ['raw_risk_score'] and ['raw_risk_level'], which the dictionary of the
    flock-less case does not have; [None] in an optional field is Python's
    [None]. *)
Record RiskResult : Type := mkRiskResult {
  frame : Z;
  direct_distance : efloat;
  route_distance : option efloat;
  hybrid_distance : efloat;
  distance_kind : distance_type;
  assigned_route : option string;
  relative_speed : R;
  ttc : efloat;
  risk_score : R;
  risk_level : Risk.risk_level;
  raw_risk : option (R * Risk.risk_level);
  airplane_position : R * R;
  flock_position : option (R * R);
  route_direction : option Routes.Vec3
}.

(** Step 1 of [calculate_risk] (lines 572-598): the route distance, the
    assigned route and the route direction, each [None] while unassigned.  An
    exception in the block leaves what was assigned before it.  The third
    component of the triple of [get_closest_point_on_route] is the index of
    the point; it is bound to [closest_point] and passed on as the point, and
    numpy subtracts it from every coordinate. *)
Definition route_block (self : State) (airplane_track : TrackDict)
    (flock_pos : R * R)
  : option efloat * option string * option Routes.Vec3 * State :=
  match route_calculator self with
  | None => (None, None, None, self)
  | Some calculator =>
      let '(assigned_route, self1) :=
        estimate_airplane_route self airplane_track in
      match assigned_route with
      | None => (None, None, None, self1)
      | Some route_name =>
          if String.eqb route_name "" then (None, assigned_route, None, self1)
          else
            let flock_3d_pos := (fst flock_pos, 50, snd flock_pos) in
            match fst (Routes.calculate_distance_to_route calculator
                         route_name flock_3d_pos) with
            | None => (None, assigned_route, None, self1)
            | Some route_distance =>
                match fst (Routes.get_closest_point_on_route calculator
                             route_name flock_3d_pos) with
                | None => (Some route_distance, assigned_route, None, self1)
                | Some (_, _, closest_point) =>
                    (Some route_distance, assigned_route,
                     Routes.calculate_route_segment_direction calculator
                       route_name
                       (IZR closest_point, IZR closest_point,
                        IZR closest_point) 5,
                     self1)
                end
            end
      end
  end.

(** Step 3 (lines 612-619): the hybrid distance and its kind. *)
Definition hybrid (route_distance : option efloat) (direct_distance : R)
  : R * distance_type :=
  match route_distance with
  | Some (Fin d) => (0.7 * d + 0.3 * direct_distance, Hybrid)
  | _ => (direct_distance, Direct)
  end.

(** The TCP block (lines 660-676).  [send_message] returns a flag that the
    block does not look at. *)
Definition tcp_block (self : State) (stable_risk_level : Risk.risk_level)
  : State :=
  match tcp_client self with
  | None => self
  | Some client =>
      if enable_tcp self then
        if differs stable_risk_level (current_risk_level self) then
          let '(client', _) :=
            Tcp.send_message json_dumps client
              (BR_CHANGED stable_risk_level) in
          {| route_calculator := route_calculator self;
             route_assignment_cache := route_assignment_cache self;
             airplane_route_mapping := airplane_route_mapping self;
             tcp_client := Some client';
             enable_tcp := enable_tcp self;
             current_risk_level := Level stable_risk_level;
             stabilizer := stabilizer self |}
        else self
      else self
  end.

Definition set_stabilizer (self : State) (risk : RiskState) : State :=
  {| route_calculator := route_calculator self;
     route_assignment_cache := route_assignment_cache self;
     airplane_route_mapping := airplane_route_mapping self;
     tcp_client := tcp_client self;
     enable_tcp := enable_tcp self;
     current_risk_level := current_risk_level self;
     stabilizer := risk |}.

(** [RealTimePipeline.calculate_risk]: the returned dictionary ([None]:
    Python's [None]) and the state afterwards. *)
Definition calculate_risk (self : State) (active_tracks : list TrackDict)
    (frame_id : Z) : option RiskResult * State :=
  match pick_tracks active_tracks None None with
  | (None, _) => (None, self)
  | (Some airplane_track, None) =>
      (Some {| frame := frame_id;
               direct_distance := Inf;
               route_distance := Some Inf;
               hybrid_distance := Inf;
               distance_kind := No_flock;
               assigned_route := None;
               relative_speed := 0;
               ttc := Inf;
               risk_score := 0;
               risk_level := BR_LOW;
               raw_risk := None;
               airplane_position :=
                 match Py.last_item (positions airplane_track) with
                 | Some pos => pos
                 | None => (0, 0)
                 end;
               flock_position := None;
               route_direction := None |},
       self)
  | (Some airplane_track, Some flock_track) =>
      match Py.last_item (positions airplane_track),
            Py.last_item (positions flock_track) with
      | Some airplane_pos, Some flock_pos =>
          let '(route_dist, route_name, direction, self1) :=
            route_block self airplane_track flock_pos in
          let direct := calculate_3d_distance airplane_pos flock_pos in
          let speed := calculate_relative_speed airplane_track flock_track in
          let time_to_collision :=
            calculate_realtime_ttc airplane_track flock_track in
          let '(hybrid_dist, kind) :=
            hybrid route_dist direct in
          let '(raw_risk_score, raw_risk_level) :=
            calculate_dynamic_risk_level hybrid_dist speed
              time_to_collision in
          let '(risk, (stable_risk_score, stable_risk_level)) :=
            get_stable_risk_level (stabilizer self1) raw_risk_score
              raw_risk_level in
          (Some {| frame := frame_id;
                   direct_distance := Fin direct;
                   route_distance := route_dist;
                   hybrid_distance := Fin hybrid_dist;
                   distance_kind := kind;
                   assigned_route := route_name;
                   relative_speed := speed;
                   ttc := time_to_collision;
                   risk_score := stable_risk_score;
                   risk_level := stable_risk_level;
                   raw_risk := Some (raw_risk_score, raw_risk_level);
                   airplane_position := airplane_pos;
                   flock_position := Some flock_pos;
                   route_direction := direction |},
           tcp_block (set_stabilizer self1 risk) stable_risk_level)
      | _, _ => (None, self)
      end
  end.

(** [RealTimePipeline.__init__] followed by what [initialize_models] assigns
    to the route calculator and the TCP client. *)
Definition new_state (calculator : option Routes.Calculator)
    (client : option Tcp.Client) (enable : bool) : State :=
  {| route_calculator := calculator;
     route_assignment_cache := [];
     airplane_route_mapping := [];
     tcp_client := client;
     enable_tcp := enable;
     current_risk_level := Member_BR_LOW;
     stabilizer := initial_risk_state |}.

(** Example tracks: an airplane flying east at 10 m/s, and a flock standing
    300 m ahead of it. *)
Definition airplane_east : TrackDict :=
  {| track_id := 1; class_name := "Airplane";
     positions := [(0, 0)]; velocities := [(10, 0)];
     frames := [1%Z]; session_id := 1; last_update := 1 |}.

Definition flock_ahead : TrackDict :=
  {| track_id := 2; class_name := "Flock";
     positions := [(300, 0)]; velocities := [(0, 0)];
     frames := [1%Z]; session_id := 1; last_update := 1 |}.

End Pipeline.

(* ================================================================== *)
(** * Part II: properties *)
(* ================================================================== *)

(** ** Real-number helpers *)

Lemma sqrt_of_square (x y : R) :
  (0 <= y)%R -> (x = y * y)%R -> sqrt x = y.
Proof.
  intros Hy ->. now apply sqrt_square.
Qed.

Lemma sqrt_ge_of_square (x y : R) :
  (0 <= y)%R -> (y * y <= x)%R -> (y <= sqrt x)%R.
Proof.
  intros Hy Hx.
  rewrite <- (sqrt_square y Hy).
  now apply sqrt_le_1_alt.
Qed.

(** ** The risk engine ([bds_server.py]) *)

Section RiskEngine.

Import Risk.
Open Scope R_scope.

(** C1, as the claim states it, fails: from HIGH with threshold 5, four LOW
    frames followed by one MEDIUM frame do not report HIGH five times; the
    fifth frame reports MEDIUM. *)
Lemma C1_five_lower_frames_downgrade :
  map snd (stabilize reporting_high
             [(0, BR_LOW); (0, BR_LOW); (0, BR_LOW); (0, BR_LOW);
              (0, BR_MEDIUM)])
  <> [BR_HIGH; BR_HIGH; BR_HIGH; BR_HIGH; BR_HIGH].
Proof.
  cbn. intros H. discriminate H.
Qed.

(** C1, amended: the stabilizer keeps one counter for all frames whose raw
    level is strictly below the reported one, whichever lower level they carry.
    From HIGH with threshold 5, four LOW frames keep HIGH and the MEDIUM frame
    that follows is the fifth lower frame, so it is reported as MEDIUM; and a
    frame whose raw level is above the reported one is reported at once, with
    its own score, and clears the counter. *)
Theorem C1_hysteresis_single_counter :
  (forall s1 s2 s3 s4 s5 : R,
      map snd (stabilize reporting_high
                 [(s1, BR_LOW); (s2, BR_LOW); (s3, BR_LOW); (s4, BR_LOW);
                  (s5, BR_MEDIUM)])
      = [BR_HIGH; BR_HIGH; BR_HIGH; BR_HIGH; BR_MEDIUM])
  /\ (forall (self : RiskState) (score : R) (level : risk_level),
         (level_priority (last_risk_level self) < level_priority level)%Z ->
         get_stable_risk_level self score level
         = ({| last_risk_level := level;
               risk_level_downgrade_counter := 0;
               downgrade_threshold := downgrade_threshold self |},
            (score, level))).
Proof.
  split.
  - intros. reflexivity.
  - intros self score level Hup.
    unfold get_stable_risk_level.
    destruct (Z.gtb_spec (level_priority level)
                (level_priority (last_risk_level self))) as [_ | Hle].
    + reflexivity.
    + lia.
Qed.

Lemma C1_hysteresis_single_counter_witness :
  get_stable_risk_level
    {| last_risk_level := BR_LOW;
       risk_level_downgrade_counter := 3;
       downgrade_threshold := 5 |} 77 BR_HIGH
  = ({| last_risk_level := BR_HIGH;
        risk_level_downgrade_counter := 0;
        downgrade_threshold := 5 |}, (77, BR_HIGH)).
Proof.
  apply (proj2 C1_hysteresis_single_counter
           {| last_risk_level := BR_LOW;
              risk_level_downgrade_counter := 3;
              downgrade_threshold := 5 |} 77 BR_HIGH).
  simpl. lia.
Defined.

(** C4: at the failing input, a hybrid distance of exactly 50 m, the code
    returns score 120 and level MEDIUM for every relative speed and every
    TTC, where the claim (and the source comment on the floor, "50 m or
    below is HIGH") asks for HIGH: the floor is the strict test
    [distance < 50], so 50 m falls through to [distance < 100]. *)
Theorem C4_distance_50_is_medium (relative_speed : R) (ttc : efloat) :
  calculate_dynamic_risk_level 50 relative_speed ttc = (120, BR_MEDIUM)
  /\ snd (calculate_dynamic_risk_level 50 relative_speed ttc) <> BR_HIGH.
Proof.
  assert (H50 : calculate_dynamic_risk_level 50 relative_speed ttc
                = (120, BR_MEDIUM)).
  { unfold calculate_dynamic_risk_level.
    destruct (Rlt_dec 50 50) as [H | _]; [lra |].
    destruct (Rlt_dec 50 100) as [_ | H]; [reflexivity | lra]. }
  split; [exact H50 |]. rewrite H50. discriminate.
Qed.

(** Below 50 m the floor does give HIGH. *)
Lemma below_50_is_high (distance relative_speed : R) (ttc : efloat) :
  distance < 50 ->
  calculate_dynamic_risk_level distance relative_speed ttc = (180, BR_HIGH).
Proof.
  intros Hd. unfold calculate_dynamic_risk_level.
  destruct (Rlt_dec distance 50) as [_ | H]; [reflexivity | lra].
Qed.

(** The distance of the example tracks is 10 m and the flock sees the
    airplane close in at [1e-7] m/s. *)
Lemma slow_example_distance : spec_d (10, 0) (0, 0) = 10.
Proof.
  unfold spec_d. simpl. apply sqrt_of_square; lra.
Qed.

Lemma slow_example_v_close :
  spec_v_close (10, 0) (0, 0) (- 1e-7, 1) (0, 0) = 1e-7.
Proof.
  unfold spec_v_close. rewrite slow_example_distance. simpl. lra.
Qed.

Lemma slow_example_ttc :
  calculate_realtime_ttc slow_airplane still_flock = Fin 300.
Proof.
  unfold calculate_realtime_ttc. simpl.
  replace (sqrt ((10 - 0) * ((10 - 0) * 1) + (0 - 0) * ((0 - 0) * 1)))
    with 10 by (symmetry; apply sqrt_of_square; lra).
  assert (Hm : 1 <= sqrt ((- 1e-7 - 0) * ((- 1e-7 - 0) * 1)
                          + (1 - 0) * ((1 - 0) * 1))).
  { apply sqrt_ge_of_square; lra. }
  unfold epsilon.
  destruct (Rlt_dec 10 1e-6) as [H | _]; [lra |].
  destruct (Rlt_dec _ 1e-6) as [H | _]; [lra |].
  destruct (Rle_dec _ 0) as [H | _]; [lra |].
  f_equal.
  rewrite Rmin_left.
  - apply Rmax_right. lra.
  - apply Rmult_le_reg_r with (r := 1e-7); [lra |].
    field_simplify; lra.
Qed.

(** C5, as the claim states it, fails: a closing speed that is positive but
    not above epsilon gives a finite TTC, not infinity. *)
Lemma C5_small_closing_speed_is_finite :
  spec_v_close (10, 0) (0, 0) (- 1e-7, 1) (0, 0) <= epsilon
  /\ calculate_realtime_ttc slow_airplane still_flock <> Inf.
Proof.
  split.
  - rewrite slow_example_v_close. unfold epsilon. lra.
  - rewrite slow_example_ttc. discriminate.
Qed.

(** The closing speed never exceeds the magnitude of the relative velocity
    (Cauchy-Schwarz with the unit vector from flock to airplane). *)
Lemma closing_speed_le_magnitude (pa pf va vf : R * R) :
  0 < spec_d pa pf ->
  spec_v_close pa pf va vf <= spec_rel_speed va vf.
Proof.
  unfold spec_v_close, spec_rel_speed, spec_d.
  destruct pa as [ax az], pf as [fx fz], va as [vax vaz], vf as [vfx vfz].
  simpl fst; simpl snd.
  set (dx := ax - fx). set (dz := az - fz).
  set (a := vax - vfx). set (b := vaz - vfz).
  set (d := sqrt (dx ^ 2 + dz ^ 2)).
  set (m := sqrt (a ^ 2 + b ^ 2)).
  intros Hd.
  assert (Hd2 : d * d = dx ^ 2 + dz ^ 2) by (apply sqrt_sqrt; nra).
  assert (Hm2 : m * m = a ^ 2 + b ^ 2) by (apply sqrt_sqrt; nra).
  assert (Hm : 0 <= m) by apply sqrt_pos.
  set (v := - (a * (dx / d) + b * (dz / d))).
  assert (Hvd : v * d = - (a * dx + b * dz)).
  { unfold v. field. lra. }
  destruct (Rle_dec v m) as [Hle | Hgt]; [exact Hle | exfalso].
  assert (Hvm : m < v) by lra.
  assert (Hsq : (v * d) * (v * d) <= (m * m) * (d * d)).
  { rewrite Hvd, Hm2, Hd2.
    pose proof (pow2_ge_0 (a * dz - b * dx)) as Hcs. nra. }
  assert (Hlt : (m * d) * (m * d) < (v * d) * (v * d)).
  { assert (0 <= m * d) by nra. assert (m * d < v * d) by nra. nra. }
  nra.
Qed.

(** C5, amended: with epsilon = 1e-6, the TTC is infinite whenever the XZ
    distance d is below epsilon, or the magnitude of the relative velocity is
    below epsilon, or the closing speed v_close is not positive; in every
    other case it is d / v_close clamped to [0.1 s, 300 s].  In particular the
    clamped quotient is returned whenever d >= epsilon and
    v_close > epsilon. *)
Theorem C5_ttc_cases (airplane flock : TrackDict) (pa pf va vf : R * R) :
  Py.last_item (positions airplane) = Some pa ->
  Py.last_item (positions flock) = Some pf ->
  Py.last_item (velocities airplane) = Some va ->
  Py.last_item (velocities flock) = Some vf ->
  let d := spec_d pa pf in
  let m := spec_rel_speed va vf in
  let v := spec_v_close pa pf va vf in
  (d < epsilon \/ m < epsilon \/ v <= 0 ->
   calculate_realtime_ttc airplane flock = Inf)
  /\ (epsilon <= d -> epsilon <= m -> 0 < v ->
      calculate_realtime_ttc airplane flock = Fin (clamp 0.1 300 (d / v))
      /\ 0.1 <= clamp 0.1 300 (d / v) <= 300)
  /\ (epsilon <= d -> epsilon < v ->
      calculate_realtime_ttc airplane flock = Fin (clamp 0.1 300 (d / v))).
Proof.
  intros Hpa Hpf Hva Hvf d m v.
  assert (Hcode :
    calculate_realtime_ttc airplane flock
    = if Rlt_dec d epsilon then Inf
      else if Rlt_dec m epsilon then Inf
      else if Rle_dec v 0 then Inf
      else Fin (clamp 0.1 300 (d / v))).
  { unfold calculate_realtime_ttc. rewrite Hpa, Hpf, Hva, Hvf. reflexivity. }
  assert (Hfinite : epsilon <= d -> epsilon <= m -> 0 < v ->
                    calculate_realtime_ttc airplane flock
                    = Fin (clamp 0.1 300 (d / v))).
  { intros Hd Hm Hv. rewrite Hcode.
    destruct (Rlt_dec d epsilon); [lra |].
    destruct (Rlt_dec m epsilon); [lra |].
    destruct (Rle_dec v 0); [lra | reflexivity]. }
  split; [| split].
  - intros Hcase. rewrite Hcode.
    destruct (Rlt_dec d epsilon); [reflexivity |].
    destruct (Rlt_dec m epsilon); [reflexivity |].
    destruct (Rle_dec v 0); [reflexivity | lra].
  - intros Hd Hm Hv. split; [now apply Hfinite |].
    unfold clamp. split.
    + apply Rmax_l.
    + apply Rmax_lub; [lra | apply Rmin_l].
  - intros Hd Hv.
    assert (Heps : 0 < epsilon) by (unfold epsilon; lra).
    apply Hfinite; [exact Hd | | lra].
    apply Rle_trans with (r2 := v); [lra |].
    apply closing_speed_le_magnitude. fold d. lra.
Qed.

Lemma C5_ttc_cases_witness :
  let d := spec_d (10, 0) (0, 0) in
  let m := spec_rel_speed (- 1e-7, 1) (0, 0) in
  let v := spec_v_close (10, 0) (0, 0) (- 1e-7, 1) (0, 0) in
  (d < epsilon \/ m < epsilon \/ v <= 0 ->
   calculate_realtime_ttc slow_airplane still_flock = Inf)
  /\ (epsilon <= d -> epsilon <= m -> 0 < v ->
      calculate_realtime_ttc slow_airplane still_flock
      = Fin (clamp 0.1 300 (d / v))
      /\ 0.1 <= clamp 0.1 300 (d / v) <= 300)
  /\ (epsilon <= d -> epsilon < v ->
      calculate_realtime_ttc slow_airplane still_flock
      = Fin (clamp 0.1 300 (d / v))).
Proof.
  exact (C5_ttc_cases slow_airplane still_flock
           (pa := (10, 0)) (pf := (0, 0)) (va := (- 1e-7, 1)) (vf := (0, 0))
           eq_refl eq_refl eq_refl eq_refl).
Defined.

End RiskEngine.

(** ** Python built-ins *)

Lemma enumerate_length {A : Type} (l : list A) :
  length (Py.enumerate l) = length l.
Proof.
  unfold Py.enumerate. rewrite length_combine, length_seq. apply Nat.min_id.
Qed.

Lemma enumerate_In {A : Type} (l : list A) (i : nat) (a : A) :
  In (i, a) (Py.enumerate l) -> In a l.
Proof.
  unfold Py.enumerate. apply in_combine_r.
Qed.

Lemma enumerate_fst {A : Type} (l : list A) :
  map fst (Py.enumerate l) = seq 0 (length l).
Proof.
  unfold Py.enumerate. generalize 0%nat.
  induction l as [| a l IH]; intros n; [reflexivity |].
  simpl. now rewrite IH.
Qed.

Lemma enumerate_snd {A : Type} (l : list A) : map snd (Py.enumerate l) = l.
Proof.
  unfold Py.enumerate. generalize 0%nat.
  induction l as [| a l IH]; intros n; [reflexivity |].
  simpl. now rewrite IH.
Qed.

Lemma enumerate_NoDup {A : Type} (l : list A) :
  NoDup (map fst (Py.enumerate l)).
Proof.
  rewrite enumerate_fst. apply seq_NoDup.
Qed.

(** ** Flock merging in 3D ([triangulate.py]) *)

Section FlockMerge3D.

Import Tri.
Open Scope R_scope.

Variable distance_threshold : R.

Lemma merge_inner_extends (flock1 : Point) (flocks : list Point) :
  forall (js : list (nat * Point)) (used : list nat) (group : list Point),
    (forall j q, In (j, q) js -> In q flocks) ->
    exists extra : list Point,
      snd (merge_inner flock1 distance_threshold js used group)
      = group ++ extra
      /\ incl extra flocks
      /\ Forall (fun q => dist_xz flock1 q < distance_threshold) extra.
Proof.
  induction js as [| [j flock2] js IH]; intros used group Hjs; simpl.
  - exists []. rewrite app_nil_r. repeat split; [easy | constructor].
  - assert (Hjs' : forall j' q, In (j', q) js -> In q flocks).
    { intros j' q Hin. apply (Hjs j' q). now right. }
    destruct (Py.mem j used).
    + now apply IH.
    + destruct (Rlt_dec (dist_xz flock1 flock2) distance_threshold) as [Hd | _].
      * destruct (IH (j :: used) (group ++ [flock2]) Hjs')
          as (extra & Heq & Hincl & Hnear).
        exists (flock2 :: extra). rewrite Heq, <- app_assoc. simpl.
        repeat split.
        -- intros q [<- | Hq]; [apply (Hjs j); now left | now apply Hincl].
        -- now constructor.
      * now apply IH.
Qed.

Lemma merged_flock_is_flock (flock1 : Point) (group : list Point) :
  is_flock (merged_flock flock1 group) = true.
Proof. reflexivity. Qed.

Lemma merge_outer_emits (flocks : list Point) :
  Forall (fun p => is_flock p = true) flocks ->
  forall (todo : list (nat * Point)) (used : list nat) (merged : list Point),
    (forall i p, In (i, p) todo -> In p flocks) ->
    Forall (emitted_from distance_threshold flocks) merged ->
    Forall (emitted_from distance_threshold flocks)
      (merge_outer flocks distance_threshold todo used merged)
    /\ (length (merge_outer flocks distance_threshold todo used merged)
        <= length merged + length todo)%nat.
Proof.
  intros Hflocks.
  induction todo as [| [i flock1] todo IH]; intros used merged Htodo Hmerged;
    simpl.
  - split; [exact Hmerged | lia].
  - assert (Htodo' : forall i' p, In (i', p) todo -> In p flocks).
    { intros i' p Hin. apply (Htodo i' p). now right. }
    assert (Hf1 : In flock1 flocks) by (apply (Htodo i); now left).
    assert (Hf1' : is_flock flock1 = true).
    { rewrite Forall_forall in Hflocks. now apply Hflocks. }
    destruct (Py.mem i used).
    + destruct (IH used merged Htodo' Hmerged) as [Hall Hlen].
      split; [exact Hall | lia].
    + destruct (merge_inner_extends flock1 flocks (Py.enumerate flocks)
                  (i :: used) [flock1]
                  (fun j q H => enumerate_In flocks j q H))
        as (extra & Heq & Hincl & Hnear).
      destruct (merge_inner flock1 distance_threshold (Py.enumerate flocks)
                  (i :: used) [flock1]) as [used' group].
      simpl in Heq. subst group.
      destruct (Nat.ltb_spec 1 (length (flock1 :: extra))) as [Hlong | Hshort].
      * destruct (IH used'
                    (merged ++ [merged_flock flock1 (flock1 :: extra)])
                    Htodo') as [Hall Hlen].
        { apply Forall_app. split; [exact Hmerged |].
          constructor; [| constructor].
          split; [apply merged_flock_is_flock |].
          right. exists (flock1 :: extra).
          repeat split; try reflexivity.
          - exact Hlong.
          - intros q [<- | Hq]; [exact Hf1 | now apply Hincl].
          - exact Hnear. }
        split; [exact Hall |].
        rewrite length_app in Hlen. simpl in Hlen. lia.
      * destruct (IH used' (merged ++ [flock1]) Htodo') as [Hall Hlen].
        { apply Forall_app. split; [exact Hmerged |].
          constructor; [| constructor].
          split; [exact Hf1' | now left]. }
        split; [exact Hall |].
        rewrite length_app in Hlen. simpl in Hlen. lia.
Qed.

Lemma filter_not_flock_of_flocks (l : list Point) :
  Forall (fun p => is_flock p = true) l -> filter not_flock l = [].
Proof.
  induction 1 as [| p l Hp _ IH]; simpl; [reflexivity |].
  unfold not_flock at 1. now rewrite Hp.
Qed.

Lemma filter_is_flock_of_others (l : list Point) :
  filter is_flock (filter not_flock l) = [].
Proof.
  induction l as [| p l IH]; simpl; [reflexivity |].
  unfold not_flock at 1.
  destruct (is_flock p) eqn:Hp; simpl; [exact IH |].
  now rewrite Hp.
Qed.

Lemma filter_idempotent {A : Type} (f : A -> bool) (l : list A) :
  filter f (filter f l) = filter f l.
Proof.
  induction l as [| a l IH]; simpl; [reflexivity |].
  destruct (f a) eqn:Ha; simpl; [rewrite Ha; now f_equal | exact IH].
Qed.

(** C10: for every input list, the 3D flock merge returns the points that are
    not flocks unchanged (same points, same order), never returns more flocks
    than it was given, and every flock it returns is an input flock or carries
    the coordinate-wise mean position of its merge group -- at least two input
    flocks, each within the threshold of the group's first member. *)
Theorem C10_merge_nearby_flocks_3d (points : list Point) :
  let out := merge_nearby_flocks_3d points distance_threshold in
  filter not_flock out = filter not_flock points
  /\ (length (filter is_flock out) <= length (filter is_flock points))%nat
  /\ Forall (fun p =>
               is_flock p = true ->
               emitted_from distance_threshold (filter is_flock points) p) out.
Proof.
  unfold merge_nearby_flocks_3d.
  assert (Hsame :
    Forall (fun p => is_flock p = true ->
                     emitted_from distance_threshold (filter is_flock points) p) points).
  { apply Forall_forall. intros p Hin Hp. split; [exact Hp |].
    left. apply filter_In. now split. }
  destruct points as [| p0 points']; [repeat split; [lia | constructor] |].
  set (points := p0 :: points') in *.
  set (flocks := filter is_flock points) in *.
  destruct (Nat.leb_spec (length flocks) 1) as [_ | Hmany].
  { repeat split; [apply le_n | exact Hsame]. }
  assert (Hflocks : Forall (fun p => is_flock p = true) flocks).
  { apply Forall_forall. intros p Hin. now apply filter_In in Hin. }
  destruct (@merge_outer_emits flocks Hflocks (Py.enumerate flocks) [] []
              (fun i p H => enumerate_In flocks i p H) (Forall_nil _))
    as [Hall Hlen].
  set (merged := merge_outer flocks distance_threshold
                   (Py.enumerate flocks) [] []) in *.
  assert (Hmerged : Forall (fun p => is_flock p = true) merged).
  { eapply Forall_impl; [| exact Hall]. now intros p [Hp _]. }
  cbv zeta. repeat split.
  - rewrite filter_app, (filter_not_flock_of_flocks Hmerged).
    apply filter_idempotent.
  - rewrite filter_app, filter_is_flock_of_others, app_nil_r.
    rewrite enumerate_length in Hlen. simpl in Hlen.
    etransitivity; [apply filter_length_le | exact Hlen].
  - apply Forall_app. split.
    + eapply Forall_impl; [| exact Hall]. now intros p Hp _.
    + apply Forall_forall. intros p Hin Hp.
      apply filter_In in Hin. destruct Hin as [_ Hnot].
      unfold not_flock in Hnot. rewrite Hp in Hnot. discriminate.
Qed.

End FlockMerge3D.

(** ** Cross-camera matching ([triangulate.py]) *)

Section Matching.

Import Tri.
Open Scope R_scope.

Lemma last_item_nonempty {A : Type} (l : list A) (a : A) :
  exists b, Py.last_item (a :: l) = Some b.
Proof.
  revert a. induction l as [| c l IH]; intros a.
  - now exists a.
  - destruct (IH c) as [b Hb]. exists b. exact Hb.
Qed.

Lemma last_item_cons {A : Type} (a : A) (l : list A) :
  Py.last_item (a :: l)
  = match Py.last_item l with Some b => Some b | None => Some a end.
Proof.
  destruct l as [| c l]; [reflexivity |].
  destruct (last_item_nonempty l c) as [b Hb].
  change (Py.last_item (a :: c :: l)) with (Py.last_item (c :: l)).
  now rewrite Hb.
Qed.

Lemma last_item_app {A : Type} (l : list A) (a : A) :
  Py.last_item (l ++ [a]) = Some a.
Proof.
  induction l as [| b l IH]; [reflexivity |].
  simpl app. rewrite last_item_cons, IH. reflexivity.
Qed.

(** *** Insertion-ordered dictionaries *)

Lemma dict_get_set_same {V : Type} (k : string) (v : V) d :
  dict_get k (dict_set k v d) = Some v.
Proof.
  induction d as [| [k' v'] d IH]; simpl.
  - now rewrite String.eqb_refl.
  - destruct (String.eqb k' k) eqn:E; simpl; rewrite E; [reflexivity | exact IH].
Qed.

Lemma dict_get_set_other {V : Type} (k k0 : string) (v : V) d :
  k <> k0 -> dict_get k0 (dict_set k v d) = dict_get k0 d.
Proof.
  intros Hneq. induction d as [| [k' v'] d IH]; simpl.
  - destruct (String.eqb_spec k k0); [contradiction | reflexivity].
  - destruct (String.eqb_spec k' k) as [-> | Hk]; simpl.
    + destruct (String.eqb_spec k k0); [contradiction | reflexivity].
    + destruct (String.eqb k' k0); [reflexivity | exact IH].
Qed.

Lemma dict_set_keys {V : Type} (k k0 : string) (v : V) d :
  In k0 (map fst (dict_set k v d)) -> k0 = k \/ In k0 (map fst d).
Proof.
  induction d as [| [k' v'] d IH]; simpl.
  - intros [<- | []]. now left.
  - destruct (String.eqb_spec k' k) as [-> | Hk]; simpl.
    + intros [<- | H]; [now left | right; now right].
    + intros [<- | H]; [right; now left |].
      destruct (IH H) as [-> | H']; [now left | right; now right].
Qed.

Lemma dict_set_NoDup {V : Type} (k : string) (v : V) d :
  NoDup (map fst d) -> NoDup (map fst (dict_set k v d)).
Proof.
  induction d as [| [k' v'] d IH]; simpl; intros Hnd.
  - constructor; [easy | constructor].
  - inversion Hnd as [| ? ? Hnotin Hnd']; subst.
    destruct (String.eqb_spec k' k) as [-> | Hk]; simpl.
    + now constructor.
    + constructor; [| now apply IH].
      intros Hin. apply dict_set_keys in Hin. destruct Hin as [-> | Hin].
      * now apply Hk.
      * now apply Hnotin.
Qed.

Lemma dict_get_absent {V : Type} (k : string) (d : list (string * V)) :
  ~ In k (map fst d) -> dict_get k d = None.
Proof.
  induction d as [| [k' v'] d IH]; simpl; intros Hnotin; [reflexivity |].
  destruct (String.eqb_spec k' k) as [-> | Hk].
  - exfalso. apply Hnotin. now left.
  - apply IH. intros Hin. apply Hnotin. now right.
Qed.

(** *** [match_objects_yolo]: the dictionary keeps the last detection *)

Lemma split_fold_others (results : YoloResults) (c : string) :
  c <> "Flock"%string ->
  forall (items : list (Box * nat * R)) acc,
    dict_get c (snd (fold_left (split_step results) items acc))
    = match Py.last_item (map entry_of (filter (of_class results c) items)) with
      | Some e => Some e
      | None => dict_get c (snd acc)
      end.
Proof.
  intros Hc. induction items as [| [[b k] cf] items IH]; intros acc;
    [reflexivity |].
  simpl fold_left. rewrite IH. simpl filter.
  replace (of_class results c (b, k, cf))
    with (String.eqb (names results k) c) by reflexivity.
  destruct (String.eqb_spec (names results k) "Flock") as [Hflock | Hother].
  - destruct (String.eqb_spec (names results k) c) as [Hkc | _].
    + exfalso. apply Hc. now rewrite <- Hkc.
    + reflexivity.
  - destruct (String.eqb_spec (names results k) c) as [Hkc | Hkc].
    + simpl map. rewrite last_item_cons.
      destruct (Py.last_item (map entry_of (filter (of_class results c) items)));
        [reflexivity |].
      simpl snd. rewrite Hkc. now rewrite dict_get_set_same.
    + destruct (Py.last_item (map entry_of (filter (of_class results c) items)));
        [reflexivity |].
      simpl snd. now rewrite dict_get_set_other.
Qed.

Lemma split_fold_NoDup (results : YoloResults) :
  forall (items : list (Box * nat * R)) acc,
    NoDup (map fst (snd acc)) ->
    NoDup (map fst (snd (fold_left (split_step results) items acc))).
Proof.
  induction items as [| [[b k] cf] items IH]; intros acc Hnd; [exact Hnd |].
  simpl fold_left. apply IH. unfold split_step.
  destruct (String.eqb (names results k) "Flock"); simpl; [exact Hnd |].
  now apply dict_set_NoDup.
Qed.

Lemma others_get (results : YoloResults) (c : string) :
  c <> "Flock"%string ->
  dict_get c (snd (split_flocks results)) = last_of_class c results.
Proof.
  intros Hc. unfold split_flocks, last_of_class.
  rewrite (split_fold_others results Hc). simpl.
  fold (of_class results c).
  change (fun item : Box * nat * R => (fst (fst item), snd item)) with entry_of.
  now destruct (Py.last_item _).
Qed.

Lemma common_classes_filter (c : string) (others2 : list (string * (Box * R))) :
  forall others1 : list (string * (Box * R)),
    NoDup (map fst others1) ->
    filter (class_is c)
      (flat_map (fun kv =>
                   match dict_get (fst kv) others2 with
                   | Some e2 => [yolo_match (fst kv) (snd kv) e2]
                   | None => []
                   end) others1)
    = match dict_get c others1, dict_get c others2 with
      | Some e1, Some e2 => [yolo_match c e1 e2]
      | _, _ => []
      end.
Proof.
  induction others1 as [| [k e1] others1 IH]; intros Hnd; [reflexivity |].
  inversion Hnd as [| ? ? Hnotin Hnd']; subst.
  simpl flat_map. rewrite filter_app, (IH Hnd'). simpl dict_get.
  destruct (String.eqb_spec k c) as [-> | Hk].
  - rewrite (dict_get_absent c others1 Hnotin).
    destruct (dict_get c others2) as [e2 |]; simpl; [| reflexivity].
    unfold class_is. simpl. now rewrite String.eqb_refl.
  - destruct (dict_get k others2) as [e2 |]; simpl; [| reflexivity].
    unfold class_is. simpl.
    destruct (String.eqb_spec k c); [contradiction | reflexivity].
Qed.

Lemma flock_match_class (c : string) (f1 f2 : Box * R) :
  c <> "Flock"%string -> class_is c (yolo_match "Flock" f1 f2) = false.
Proof.
  intros Hc. unfold class_is, yolo_match, ym_class.
  destruct (String.eqb_spec "Flock" c) as [E | _]; [| reflexivity].
  exfalso. apply Hc. now rewrite <- E.
Qed.

Lemma flock_row_filter (c : string) (f1 : Box * R) (m2 : list (Box * R)) :
  c <> "Flock"%string ->
  filter (class_is c) (map (fun f2 => yolo_match "Flock" f1 f2) m2) = [].
Proof.
  intros Hc. induction m2 as [| f2 m2 IH]; [reflexivity |].
  cbn [map filter]. now rewrite (flock_match_class f1 f2 Hc).
Qed.

Lemma flock_matches_filter (c : string) (m1 m2 : list (Box * R)) :
  c <> "Flock"%string ->
  filter (class_is c)
    (flat_map (fun f1 => map (fun f2 => yolo_match "Flock" f1 f2) m2) m1) = [].
Proof.
  intros Hc. induction m1 as [| f1 m1 IH]; [reflexivity |].
  cbn [flat_map]. now rewrite filter_app, IH, app_nil_r, flock_row_filter.
Qed.

Lemma match_objects_yolo_class (results1 results2 : YoloResults) (c : string) :
  c <> "Flock"%string ->
  filter (class_is c) (match_objects_yolo results1 results2)
  = match last_of_class c results1, last_of_class c results2 with
    | Some e1, Some e2 => [yolo_match c e1 e2]
    | _, _ => []
    end.
Proof.
  intros Hc. unfold match_objects_yolo.
  rewrite <- (others_get results1 Hc), <- (others_get results2 Hc).
  pose proof (split_fold_NoDup results1 (zip_boxes results1) ([], [])
                (NoDup_nil _)) as Hnd.
  fold (split_flocks results1) in Hnd.
  destruct (split_flocks results1) as [flocks1 others1].
  destruct (split_flocks results2) as [flocks2 others2].
  simpl in *.
  rewrite filter_app, (flock_matches_filter _ _ Hc).
  now apply common_classes_filter.
Qed.

(** *** [match_objects_simple]: the k-th meets the k-th *)

Lemma mem_cons (j i : nat) (used : list nat) :
  Py.mem j (i :: used) = (j =? i)%nat || Py.mem j used.
Proof. reflexivity. Qed.

Lemma available_nil (c : string) (used : list nat) : available c used [] = [].
Proof. reflexivity. Qed.

Lemma available_cons (c : string) (used : list nat) (j : nat) (d : Detection)
    (ids : list (nat * Detection)) :
  available c used ((j, d) :: ids)
  = if Py.mem j used then available c used ids
    else if has_class c d then d :: available c used ids
    else available c used ids.
Proof.
  unfold available. cbn [filter]. unfold unused at 1. cbn [fst].
  destruct (Py.mem j used); cbn [negb]; [reflexivity |].
  cbn [map filter snd]. reflexivity.
Qed.

Lemma available_fresh_index (c : string) (i : nat) (used : list nat) :
  forall ids : list (nat * Detection),
    ~ In i (map fst ids) ->
    available c (i :: used) ids = available c used ids.
Proof.
  induction ids as [| [j d] ids IH]; intros Hnotin; [reflexivity |].
  cbn [map fst] in Hnotin.
  rewrite !available_cons, mem_cons.
  assert (Hji : (j =? i)%nat = false).
  { apply Nat.eqb_neq. intros ->. apply Hnotin. now left. }
  rewrite Hji, IH; [reflexivity |].
  intros Hin. apply Hnotin. now right.
Qed.

Lemma first_unused_none (cls_name : string) (used : list nat) :
  forall ids : list (nat * Detection),
    first_unused_same_class cls_name ids used = None ->
    available cls_name used ids = [].
Proof.
  induction ids as [| [j d] ids IH]; intros Hnone; [reflexivity |].
  cbn [first_unused_same_class] in Hnone. rewrite available_cons.
  destruct (Py.mem j used); [now apply IH |].
  destruct (String.eqb_spec cls_name (det_class d)) as [_ | Hneq];
    [discriminate |].
  unfold has_class.
  destruct (String.eqb_spec (det_class d) cls_name) as [E | _];
    [now symmetry in E | now apply IH].
Qed.

Lemma first_unused_found (cls_name : string) (used : list nat) (i : nat)
    (d2 : Detection) :
  forall ids : list (nat * Detection),
    NoDup (map fst ids) ->
    first_unused_same_class cls_name ids used = Some (i, d2) ->
    In i (map fst ids)
    /\ det_class d2 = cls_name
    /\ available cls_name used ids = d2 :: available cls_name (i :: used) ids
    /\ (forall c, c <> cls_name ->
                  available c (i :: used) ids = available c used ids).
Proof.
  induction ids as [| [j d] ids IH]; intros Hnd Hfound; [discriminate |].
  cbn [map fst] in Hnd.
  inversion Hnd as [| ? ? Hnotin Hnd']; subst.
  cbn [first_unused_same_class] in Hfound.
  destruct (Py.mem j used) eqn:Hused.
  - destruct (IH Hnd' Hfound) as (Hin & Hcls & Hcons & Hother).
    repeat split; [now right | exact Hcls | |].
    + now rewrite !available_cons, mem_cons, Hused, orb_true_r.
    + intros c Hc.
      rewrite !available_cons, mem_cons, Hused, orb_true_r. now apply Hother.
  - destruct (String.eqb_spec cls_name (det_class d)) as [Hsame | Hdiff].
    + injection Hfound as <- <-.
      repeat split; [now left | now symmetry | |].
      * rewrite !available_cons, mem_cons, Hused, Nat.eqb_refl. cbn [orb].
        rewrite (@available_fresh_index cls_name j used ids Hnotin).
        unfold has_class.
        destruct (String.eqb_spec (det_class d) cls_name) as [_ | E];
          [reflexivity | now symmetry in Hsame].
      * intros c Hc.
        rewrite !available_cons, mem_cons, Hused, Nat.eqb_refl. cbn [orb].
        rewrite (@available_fresh_index c j used ids Hnotin).
        unfold has_class.
        destruct (String.eqb_spec (det_class d) c) as [E | _];
          [| reflexivity].
        exfalso. apply Hc. now rewrite <- E.
    + destruct (IH Hnd' Hfound) as (Hin & Hcls & Hcons & Hother).
      assert (Hji : (j =? i)%nat = false).
      { apply Nat.eqb_neq. intros ->. now apply Hnotin. }
      repeat split; [now right | exact Hcls | |].
      * rewrite !available_cons, mem_cons, Hused, Hji. cbn [orb].
        unfold has_class.
        destruct (String.eqb_spec (det_class d) cls_name) as [E | _];
          [now symmetry in E | exact Hcons].
      * intros c Hc.
        rewrite !available_cons, mem_cons, Hused, Hji. cbn [orb].
        now rewrite (Hother c Hc).
Qed.

Lemma combine_nil_r {A B : Type} (l : list A) : combine l (@nil B) = [].
Proof. now destruct l. Qed.

Lemma match_objects_simple_loop_pairs (c : string)
    (detections2 : list Detection) :
  forall (detections1 : list Detection) (used : list nat),
    map match_pair
      (filter (match_of_class c)
         (match_objects_simple_loop detections1 detections2 used))
    = combine (filter (has_class c) detections1)
        (available c used (Py.enumerate detections2)).
Proof.
  pose proof (enumerate_NoDup detections2) as Hnd.
  induction detections1 as [| d1 rest IH]; intros used; [reflexivity |].
  cbn [match_objects_simple_loop filter].
  unfold has_class at 1.
  destruct (first_unused_same_class (det_class d1)
              (Py.enumerate detections2) used) as [[i d2] |] eqn:Hfirst.
  - destruct (@first_unused_found (det_class d1) used i d2
                  (Py.enumerate detections2) Hnd Hfirst)
      as (_ & Hcls & Hcons & Hother).
    cbn [filter]. unfold match_of_class at 1. cbn [m_class].
    destruct (String.eqb_spec (det_class d1) c) as [<- | Hneq].
    + cbn [map]. rewrite IH, Hcons. reflexivity.
    + rewrite IH. f_equal. apply Hother. congruence.
  - destruct (String.eqb_spec (det_class d1) c) as [<- | Hneq].
    + rewrite IH, (@first_unused_none (det_class d1) used
                     (Py.enumerate detections2) Hfirst).
      now rewrite !combine_nil_r.
    + apply IH.
Qed.

Lemma available_initially (c : string) (detections2 : list Detection) :
  available c [] (Py.enumerate detections2) = filter (has_class c) detections2.
Proof.
  unfold available.
  replace (filter (unused []) (Py.enumerate detections2))
    with (Py.enumerate detections2).
  - now rewrite enumerate_snd.
  - symmetry. apply forallb_filter_id. now apply forallb_forall.
Qed.

Lemma match_objects_simple_equal_classes (detections2 : list Detection) :
  forall (detections1 : list Detection) (used : list nat) (m : Match),
    In m (match_objects_simple_loop detections1 detections2 used) ->
    In (det1 m) detections1
    /\ In (det2 m) detections2
    /\ m_class m = det_class (det1 m)
    /\ det_class (det1 m) = det_class (det2 m).
Proof.
  pose proof (enumerate_NoDup detections2) as Hnd.
  induction detections1 as [| d1 rest IH]; intros used m Hin; [easy |].
  cbn [match_objects_simple_loop] in Hin.
  destruct (first_unused_same_class (det_class d1)
              (Py.enumerate detections2) used) as [[i d2] |] eqn:Hfirst.
  - destruct Hin as [<- | Hin].
    + destruct (@first_unused_found (det_class d1) used i d2
                  (Py.enumerate detections2) Hnd Hfirst) as (_ & Hcls & Hcons & _).
      cbn. repeat split; [now left | | now symmetry].
      assert (Hd2 : In d2 (available (det_class d1) used
                             (Py.enumerate detections2))).
      { rewrite Hcons. now left. }
      unfold available in Hd2. apply filter_In in Hd2. destruct Hd2 as [Hd2 _].
      apply in_map_iff in Hd2. destruct Hd2 as ([j d] & <- & Hjd).
      apply filter_In in Hjd. destruct Hjd as [Hjd _].
      now apply enumerate_In in Hjd.
    + destruct (IH _ _ Hin) as (H1 & H2 & H3 & H4).
      repeat split; [now right | exact H2 | exact H3 | exact H4].
  - destruct (IH _ _ Hin) as (H1 & H2 & H3 & H4).
    repeat split; [now right | exact H2 | exact H3 | exact H4].
Qed.

(** C6, as the claim states it, fails: with two airplanes in camera 1, the
    batch matcher pairs the second one (centre (200, 200)), not the first
    (centre (100, 100)); and the realtime matcher, given two airplanes in each
    camera, takes both detections of each camera. *)
Lemma C6_not_the_first_detection :
  map pt1 (match_objects_yolo two_planes_yolo one_plane_yolo) = [(200, 200)]
  /\ map pt1 (match_objects_yolo two_planes_yolo one_plane_yolo)
     <> [(100, 100)]
  /\ map match_pair
       (match_objects_simple
          [plane_at "A" (100, 100); plane_at "A" (200, 200)]
          [plane_at "B" (150, 150); plane_at "B" (250, 250)])
     = [(plane_at "A" (100, 100), plane_at "B" (150, 150));
        (plane_at "A" (200, 200), plane_at "B" (250, 250))].
Proof.
  split; [reflexivity | split; [| reflexivity]].
  change (map pt1 (match_objects_yolo two_planes_yolo one_plane_yolo))
    with [((200, 200) : R * R)].
  intros H. injection H as H _. lra.
Qed.

(** C6, amended.  In the batch matcher ([match_objects_yolo]) every class
    other than Flock contributes at most one match: it exists exactly when
    both cameras detected the class, and it is built from the last detection
    of that class in each camera.  In the realtime matcher
    ([match_objects_simple]) the matches of a class, Flock included, pair the
    k-th detection of the class in camera 1 with the k-th detection of the
    class in camera 2, so a camera may contribute several detections and
    surplus ones stay unmatched; every matched pair has equal classes. *)
Theorem C6_matching_by_class :
  (forall (results1 results2 : YoloResults) (c : string),
      c <> "Flock"%string ->
      filter (class_is c) (match_objects_yolo results1 results2)
      = match last_of_class c results1, last_of_class c results2 with
        | Some e1, Some e2 => [yolo_match c e1 e2]
        | _, _ => []
        end)
  /\ (forall (detections1 detections2 : list Detection) (c : string),
         map match_pair
           (filter (match_of_class c)
              (match_objects_simple detections1 detections2))
         = combine (filter (has_class c) detections1)
             (filter (has_class c) detections2))
  /\ (forall (detections1 detections2 : list Detection) (m : Match),
         In m (match_objects_simple detections1 detections2) ->
         m_class m = det_class (det1 m)
         /\ det_class (det1 m) = det_class (det2 m)).
Proof.
  split; [| split].
  - intros results1 results2 c Hc. now apply match_objects_yolo_class.
  - intros detections1 detections2 c. unfold match_objects_simple.
    rewrite match_objects_simple_loop_pairs. f_equal.
    apply available_initially.
  - intros detections1 detections2 m Hin.
    apply (@match_objects_simple_equal_classes detections2 detections1 [] m)
      in Hin.
    tauto.
Qed.

Lemma C6_matching_by_class_witness :
  filter (class_is "Airplane")
    (match_objects_yolo two_planes_yolo one_plane_yolo)
  = [yolo_match "Airplane" ((200, 200, 20, 10), 0.8) ((150, 150, 20, 10), 0.7)].
Proof.
  refine (proj1 C6_matching_by_class two_planes_yolo one_plane_yolo
            "Airplane"%string _).
  intros H. discriminate H.
Defined.

End Matching.

(** ** The session tracker ([byte_track.py]) *)

Section SessionTracking.

Import Track.
Open Scope R_scope.

Variable m : Z.

Lemma start_new_session_ok (self : SessionTracker) (start : Z) :
  tracker_ok m self ->
  tracker_ok m (_start_new_session self start)
  /\ in_session (_start_new_session self start) = true.
Proof.
  intros (Hm & _ & Hhist). repeat split; simpl; try assumption.
  discriminate.
Qed.

Lemma end_current_session_ok (self : SessionTracker) :
  tracker_ok m self ->
  exists self', _end_current_session self = Some self' /\ tracker_ok m self'.
Proof.
  intros (Hm & Hwf & Hhist). unfold _end_current_session.
  destruct (in_session self) eqn:Hin; simpl.
  - destruct (current_session_data self) as [data |] eqn:Hdata;
      [| now destruct (Hwf eq_refl)].
    destruct (Z.ltb_spec (cur_last_frame data - cur_start_frame data + 1)
                (min_session_length self)) as [Hshort | Hlong].
    + eexists. split; [reflexivity |].
      repeat split; simpl; [assumption | discriminate | assumption].
    + eexists. split; [reflexivity |].
      repeat split; simpl; [assumption | discriminate |].
      apply Forall_app. split; [assumption |].
      constructor; [| constructor].
      unfold long_enough, get_session_length. simpl. lia.
  - exists self. split; [reflexivity |].
    repeat split; try assumption. now rewrite Hin.
Qed.

Lemma track_jump_ok (self : SessionTracker) (frame_number : Z) (pos : R * R) :
  tracker_ok m self -> tracker_ok m (track_jump self frame_number pos).
Proof.
  intros Hok. unfold track_jump.
  destruct (last_airplane_position self) as [last |]; [| exact Hok].
  destruct (Rgt_dec _ _); [destruct (jump_start_frame self) |]; exact Hok.
Qed.

Lemma manage_session_ok (self : SessionTracker) (frame_number : Z)
    (sustained : bool) :
  tracker_ok m self ->
  exists self', manage_session self frame_number sustained = Some self'
                /\ tracker_ok m self'.
Proof.
  intros Hok. unfold manage_session.
  destruct (in_session self) eqn:Hin; simpl.
  - destruct sustained.
    + destruct (end_current_session_ok Hok) as (self' & -> & Hok').
      eexists. split; [reflexivity |]. now apply start_new_session_ok.
    + now exists self.
  - eexists. split; [reflexivity |]. now apply start_new_session_ok.
Qed.

Lemma record_frame_ok (self : SessionTracker) (frame_number : Z)
    (airplane : Tri.Point) (flocks : list Tri.Point) :
  tracker_ok m self ->
  exists self', record_frame self frame_number airplane flocks = Some self'
                /\ tracker_ok m self'.
Proof.
  intros (Hm & Hwf & Hhist). unfold record_frame.
  destruct (in_session self) eqn:Hin.
  - destruct (current_session_data self) as [data |] eqn:Hdata;
      [| now destruct (Hwf eq_refl)].
    match goal with
    | |- context [let '(_, _) := ?e in _] => destruct e as [fp fv]
    end.
    eexists. split; [reflexivity |].
    repeat split; simpl; [assumption | discriminate | assumption].
  - exists self. split; [reflexivity |].
    repeat split; try assumption. now rewrite Hin.
Qed.

Lemma update_ok (self : SessionTracker) (frame_number : Z)
    (detections : list Tri.Point) :
  tracker_ok m self ->
  exists self', update self frame_number detections = Some self'
                /\ tracker_ok m self'.
Proof.
  intros Hok. unfold update.
  destruct (filter is_airplane detections) as [| airplane others].
  - assert (Hend : exists self1,
               (if in_session self then _end_current_session self
                else Some self) = Some self1 /\ tracker_ok m self1).
    { destruct (in_session self); [now apply end_current_session_ok |].
      now exists self. }
    destruct Hend as (self1 & -> & Hok1).
    eexists. split; [reflexivity | exact Hok1].
  - pose proof (track_jump_ok frame_number
                  (Tri.x airplane, Tri.z airplane) Hok) as Hok1.
    destruct (manage_session_ok frame_number
                (jump_frames_count
                   (track_jump self frame_number
                      (Tri.x airplane, Tri.z airplane))
                 >=? jump_duration_threshold
                       (track_jump self frame_number
                          (Tri.x airplane, Tri.z airplane)))%Z Hok1)
      as (self2 & Hmanage & Hok2).
    cbv zeta. rewrite Hmanage.
    destruct (record_frame_ok frame_number airplane
                (filter is_flock detections) Hok2) as (self3 & -> & Hok3).
    eexists. split; [reflexivity | exact Hok3].
Qed.

Lemma run_ok (frames : list (Z * list Tri.Point)) :
  forall self : SessionTracker,
    tracker_ok m self ->
    exists self', run self frames = Some self' /\ tracker_ok m self'.
Proof.
  induction frames as [| [frame_number detections] frames IH]; intros self Hok.
  - now exists self.
  - simpl. destruct (update_ok frame_number detections Hok)
      as (self1 & -> & Hok1).
    now apply IH.
Qed.

Lemma init_ok (threshold : R) (J : Z) : tracker_ok m (init threshold J m).
Proof.
  repeat split; simpl; [discriminate | constructor].
Qed.

End SessionTracking.

(** ** What the tracker records and exposes *)

Section TrackerFacts.

Import Track.
Open Scope R_scope.

(** C3: at the failing input the code stores velocities per frame, not per
    second.  Two consecutive frames move the airplane by 3 m and the flock by
    6 m: [update] stores 3 and 6, where the claim's formula
    (delta position) / ((f2 - f1) / 30) gives 90 and 180 -- the values the
    sibling [_recalculate_velocities] computes from the same positions. *)
Theorem C3_update_stores_per_frame_velocity :
  match run (init 50 5 50) two_frames with
  | Some tracker =>
      match current_session_data tracker with
      | Some data =>
          cur_airplane_positions data = [(1%Z, 0, 0); (2%Z, 3, 0)]
          /\ cur_flock_positions data = [(1%Z, 0, 0); (2%Z, 6, 0)]
          /\ cur_airplane_velocities data = [(2%Z, 3, 0)]
          /\ cur_flock_velocities data = [(2%Z, 6, 0)]
      | None => False
      end
  | None => False
  end
  /\ _recalculate_velocities [(1%Z, 0, 0); (2%Z, 3, 0)] = [(2%Z, 90, 0)]
  /\ _recalculate_velocities [(1%Z, 0, 0); (2%Z, 6, 0)] = [(2%Z, 180, 0)]
  /\ (3 - 0) / (IZR (2 - 1) / 30) = 90
  /\ (6 - 0) / (IZR (2 - 1) / 30) = 180.
Proof.
  assert (Hd : sqrt ((3 - 0) * ((3 - 0) * 1) + (0 - 0) * ((0 - 0) * 1)) = 3)
    by (apply sqrt_of_square; lra).
  split; [| split; [| split]].
  - cbn. rewrite Hd.
    destruct (Rgt_dec 3 50) as [H | _]; [lra |].
    cbn. repeat split; repeat f_equal; lra.
  - cbn. destruct (Rgt_dec _ 0) as [_ | H]; [| lra].
    cbn. repeat f_equal; lra.
  - cbn. destruct (Rgt_dec _ 0) as [_ | H]; [| lra].
    cbn. repeat f_equal; lra.
  - simpl. lra.
Qed.

(** C7, as the claim states it, fails: with [min_session_length] = 50, the
    session opened by the first airplane frame is handed to the risk engine as
    an active track although its length is 1. *)
Lemma C7_short_session_is_exposed :
  match run (init 50 5 50) [(1%Z, [point_at "Airplane" 0 0])] with
  | Some tracker =>
      Risk.current_session_length tracker = Some 1%Z
      /\ (1 < min_session_length tracker)%Z
      /\ map Risk.class_name (Risk.get_active_tracks_from_sessions tracker)
         = ["Airplane"%string]
  | None => False
  end.
Proof.
  cbn. repeat split.
Qed.

(** C7, amended: every session in the completed-session history has length
    (end_frame - start_frame + 1) >= min_session_length, whatever frames the
    tracker is fed and also after [finalize]; a session shorter than
    min_session_length is discarded at close.  The current session is
    projected to the active tracks without any length test: the tracks depend
    only on which position lists are non-empty. *)
Theorem C7_history_sessions_long_enough :
  (forall (threshold : R) (J m : Z) (frames : list (Z * list Tri.Point)),
      exists tracker,
        run (init threshold J m) frames = Some tracker
        /\ Forall (long_enough m) (sessions tracker)
        /\ exists final,
             finalize tracker = Some final
             /\ Forall (long_enough m) (sessions final))
  /\ (forall (self : SessionTracker) (data : SessionData),
         in_session self = true ->
         current_session_data self = Some data ->
         (cur_last_frame data - cur_start_frame data + 1
          < min_session_length self)%Z ->
         exists self',
           _end_current_session self = Some self'
           /\ sessions self' = sessions self
           /\ in_session self' = false)
  /\ (forall (self : SessionTracker) (data : SessionData),
         in_session self = true ->
         current_session_data self = Some data ->
         map Risk.class_name (Risk.get_active_tracks_from_sessions self)
         = (match cur_airplane_positions data with
            | [] => []
            | _ :: _ => ["Airplane"%string]
            end)
           ++ (match cur_flock_positions data with
               | [] => []
               | _ :: _ => ["Flock"%string]
               end)).
Proof.
  split; [| split].
  - intros threshold J m frames.
    destruct (run_ok frames (init_ok m threshold J)) as (tracker & Hrun & Hok).
    exists tracker. split; [exact Hrun |].
    split; [apply Hok |].
    unfold finalize. destruct (in_session tracker).
    + destruct (end_current_session_ok Hok) as (final & Hfinal & Hok').
      exists final. split; [exact Hfinal | apply Hok'].
    + exists tracker. split; [reflexivity | apply Hok].
  - intros self data Hin Hdata Hshort.
    unfold _end_current_session. rewrite Hin, Hdata. simpl.
    destruct (Z.ltb_spec (cur_last_frame data - cur_start_frame data + 1)
                (min_session_length self)) as [_ | Hlong]; [| lia].
    eexists. repeat split.
  - intros self data Hin Hdata.
    unfold Risk.get_active_tracks_from_sessions. rewrite Hin, Hdata.
    now destruct (cur_airplane_positions data), (cur_flock_positions data).
Qed.

Lemma C7_history_sessions_long_enough_witness :
  exists self',
    _end_current_session
      (set_session (_start_new_session (init 50 5 50) 1) [] 1 true
         (Some {| cur_start_frame := 1; cur_last_frame := 7;
                  cur_airplane_positions := [(1%Z, 0, 0)];
                  cur_flock_positions := [];
                  cur_airplane_velocities := [];
                  cur_flock_velocities := [] |}))
    = Some self'
    /\ sessions self' = []
    /\ in_session self' = false.
Proof.
  refine (proj1 (proj2 C7_history_sessions_long_enough)
            (set_session (_start_new_session (init 50 5 50) 1) [] 1 true
               (Some {| cur_start_frame := 1; cur_last_frame := 7;
                        cur_airplane_positions := [(1%Z, 0, 0)];
                        cur_flock_positions := [];
                        cur_airplane_velocities := [];
                        cur_flock_velocities := [] |}))
            _ eq_refl eq_refl _).
  simpl. lia.
Defined.

End TrackerFacts.

(** ** Triangulation of a frame ([triangulate.py]) *)

Section Triangulation.

Import Tri.
Open Scope R_scope.

(** Every solution of the DLT system of the example rig is a multiple of
    (5, 0, 12000, 1), and its last coordinate is not zero. *)
Lemma far_plane_solutions (X : Hom) :
  dlt_solution camera_A camera_B (320.25, 320) (319.75, 320) X ->
  exists w : R, w <> 0 /\ X = (5 * w, 0, 12000 * w, w).
Proof.
  destruct X as [[[hx hy] hz] hw]. intros [Hnz Hsys].
  unfold dlt_system, camera_A, camera_B in Hsys. simpl in Hsys.
  inversion Hsys as [| ? ? H1 Hsys1]; subst.
  inversion Hsys1 as [| ? ? H2 Hsys2]; subst.
  inversion Hsys2 as [| ? ? H3 _]; subst.
  unfold dot4 in H1, H2, H3.
  assert (Hx : hx = 5 * hw) by lra.
  assert (Hy : hy = 0) by lra.
  assert (Hz : hz = 12000 * hw) by lra.
  exists hw. split.
  - intros Hw. apply Hnz. rewrite Hx, Hy, Hz, Hw.
    repeat f_equal; lra.
  - now rewrite Hx, Hy, Hz.
Qed.

Lemma exact_far_plane_is_solution :
  dlt_solution camera_A camera_B (320.25, 320) (319.75, 320)
    (5, 0, 12000, 1).
Proof.
  split.
  - intros H. apply (f_equal snd) in H. simpl in H. lra.
  - unfold dlt_system, camera_A, camera_B. simpl.
    repeat constructor; unfold dot4; lra.
Qed.

(** *** The batch path keeps the bound *)

Lemma abs_sum_le (bound : R) (l : list R) :
  Forall (fun a => Rabs a <= bound) l ->
  Rabs (Py.sum l) <= bound * INR (length l).
Proof.
  induction 1 as [| a l Ha _ IH].
  - simpl. rewrite Rabs_R0. lra.
  - change (Py.sum (a :: l)) with (a + Py.sum l).
    change (length (a :: l)) with (S (length l)). rewrite S_INR.
    pose proof (Rabs_triang a (Py.sum l)). lra.
Qed.

Lemma mean_bounded (bound : R) (l : list R) :
  l <> [] ->
  Forall (fun a => Rabs a <= bound) l ->
  Rabs (Py.mean l) <= bound.
Proof.
  intros Hne Hall. unfold Py.mean.
  assert (Hn : 0 < INR (length l)).
  { apply lt_0_INR. destruct l; [contradiction | simpl; lia]. }
  unfold Rdiv. rewrite Rabs_mult, (Rabs_right (/ INR (length l))).
  - apply Rmult_le_reg_r with (r := INR (length l)); [exact Hn |].
    rewrite Rmult_assoc, Rinv_l, Rmult_1_r; [| lra].
    now apply abs_sum_le.
  - apply Rle_ge. left. now apply Rinv_0_lt_compat.
Qed.

Lemma is_outlier_false (px py pz : R) :
  is_outlier (px, py, pz) = false -> within_bounds px py pz.
Proof.
  unfold is_outlier, Rgtb, within_bounds. intros H.
  destruct (Rgt_dec (Rabs px) max_coord); [discriminate |].
  destruct (Rgt_dec (Rabs py) max_coord); [discriminate |].
  destruct (Rgt_dec (Rabs pz) max_coord); [discriminate |].
  repeat split; lra.
Qed.

Section BatchPath.

Variable triangulatePoints :
  Mat34 -> Mat34 -> R * R -> R * R -> option Hom.

Lemma triangulate_yolo_matches_bounded (frame : option Z)
    (cam1_idx cam2_idx num_valid num_cameras : nat) (Ps : list Mat34) :
  forall (matches : list YoloMatch) (pts : list PairPoint),
    triangulate_yolo_matches triangulatePoints frame cam1_idx cam2_idx
      num_valid num_cameras Ps matches = Some pts ->
    Forall pair_point_bounded pts.
Proof.
  induction matches as [| m rest IH]; intros pts Hrun;
    cbn [triangulate_yolo_matches] in Hrun.
  - injection Hrun as <-. constructor.
  - destruct (nth_error Ps cam1_idx) as [P1 |]; [| discriminate].
    destruct (nth_error Ps cam2_idx) as [P2 |]; [| discriminate].
    destruct (triangulate_point triangulatePoints (pt1 m) (pt2 m) P1 P2)
      as [[[px py] pz] |]; [| now apply IH].
    destruct (is_outlier (px, py, pz)) eqn:Hout; [now apply IH |].
    destruct frame as [f |]; [| discriminate].
    destruct (triangulate_yolo_matches triangulatePoints (Some f) cam1_idx
                cam2_idx num_valid num_cameras Ps rest) as [pts' |];
      [| discriminate].
    injection Hrun as <-. constructor; [| now apply IH].
    now apply is_outlier_false.
Qed.

Lemma triangulate_yolo_pairs_bounded (frame : option Z)
    (num_valid num_cameras : nat) (Ps : list Mat34) :
  forall (pairs : list ((nat * YoloResults) * (nat * YoloResults)))
         (pts : list PairPoint),
    triangulate_yolo_pairs triangulatePoints frame num_valid num_cameras Ps
      pairs = Some pts ->
    Forall pair_point_bounded pts.
Proof.
  induction pairs as [| [[i1 r1] [i2 r2]] rest IH]; intros pts Hrun;
    cbn [triangulate_yolo_pairs] in Hrun.
  - injection Hrun as <-. constructor.
  - destruct (triangulate_yolo_matches triangulatePoints frame i1 i2
                num_valid num_cameras Ps (match_objects_yolo r1 r2))
      as [pts1 |] eqn:H1; [| discriminate].
    destruct (triangulate_yolo_pairs triangulatePoints frame num_valid
                num_cameras Ps rest) as [pts2 |]; [| discriminate].
    injection Hrun as <-. apply Forall_app. split.
    + now apply triangulate_yolo_matches_bounded in H1.
    + now apply IH.
Qed.

End BatchPath.

Lemma group_append_bounded (key : Z * string) (point : PairPoint) :
  pair_point_bounded point ->
  forall groups,
    Forall group_bounded groups ->
    Forall group_bounded (group_append key point groups).
Proof.
  intros Hp. induction groups as [| [k members] groups IH]; intros Hall; simpl.
  - constructor; [| constructor].
    unfold group_bounded. simpl. constructor; [exact Hp | constructor].
  - inversion Hall as [| ? ? Hg Hrest]; subst.
    destruct (key_eqb k key).
    + constructor; [| exact Hrest].
      unfold group_bounded in *. simpl in *. apply Forall_app.
      split; [exact Hg | constructor; [exact Hp | constructor]].
    + constructor; [exact Hg | now apply IH].
Qed.

Lemma frame_class_groups_bounded (pts : list PairPoint) :
  Forall pair_point_bounded pts ->
  Forall group_bounded (frame_class_groups pts).
Proof.
  unfold frame_class_groups.
  assert (Hgen : forall acc,
             Forall pair_point_bounded pts ->
             Forall group_bounded acc ->
             Forall group_bounded
               (fold_left (fun acc point =>
                             group_append (pp_frame point, pp_class point)
                               point acc) pts acc)).
  { induction pts as [| p pts IH]; intros acc Hpts Hacc; [exact Hacc |].
    inversion Hpts as [| ? ? Hp Hrest]; subst. simpl.
    apply IH; [exact Hrest |]. now apply group_append_bounded. }
  intros Hpts. apply Hgen; [exact Hpts | constructor].
Qed.

Lemma merge_group_bounded (num_cameras : nat) (points : list PairPoint) :
  Forall pair_point_bounded points ->
  Forall merged_point_bounded (merge_group num_cameras points).
Proof.
  intros Hall. destruct points as [| first rest]; [constructor |].
  unfold merge_group. constructor; [| constructor].
  unfold merged_point_bounded, within_bounds. cbn [mp_x mp_y mp_z].
  rewrite Forall_forall in Hall.
  repeat split;
    (apply mean_bounded;
     [ discriminate
     | apply Forall_forall; intros a Ha; apply in_map_iff in Ha;
       destruct Ha as (p & <- & Hp);
       destruct (Hall p Hp) as (Hx & Hy & Hz); assumption ]).
Qed.

(** The batch path does keep the bound of the specification: every point
    [process_frame_multicam] returns has |x|, |y|, |z| <= 10000. *)
Lemma process_frame_multicam_bounded
    (triangulatePoints : Mat34 -> Mat34 -> R * R -> R * R -> option Hom)
    (frame : option Z) (detections : list (option YoloResults))
    (Ps : list Mat34) (out : list MergedPoint) :
  process_frame_multicam triangulatePoints frame detections Ps = Some out ->
  Forall merged_point_bounded out.
Proof.
  unfold process_frame_multicam. intros Hrun.
  destruct (length detections <? 2)%nat;
    [injection Hrun as <-; constructor |].
  destruct (length (valid_cameras detections) <? 2)%nat;
    [injection Hrun as <-; constructor |].
  destruct (triangulate_yolo_pairs triangulatePoints frame
              (length (valid_cameras detections)) (length detections) Ps
              (index_pairs (valid_cameras detections)))
    as [pts |] eqn:Hpts; [| discriminate].
  injection Hrun as <-.
  apply triangulate_yolo_pairs_bounded in Hpts.
  apply frame_class_groups_bounded in Hpts.
  induction Hpts as [| group groups Hg _ IH]; [constructor |].
  simpl. apply Forall_app. split; [| exact IH].
  now apply merge_group_bounded.
Qed.

(** The batch path returns whenever the frame number can be read from the
    first image name and there is a projection matrix for every camera. *)
Lemma enumerate_index_lt {A : Type} (l : list A) (i : nat) (a : A) :
  In (i, a) (Py.enumerate l) -> (i < length l)%nat.
Proof.
  unfold Py.enumerate. intros Hin. apply in_combine_l in Hin.
  apply in_seq in Hin. lia.
Qed.

Lemma valid_cameras_index_lt (detections : list (option YoloResults))
    (i : nat) (results : YoloResults) :
  In (i, results) (valid_cameras detections) -> (i < length detections)%nat.
Proof.
  unfold valid_cameras. intros Hin. apply in_flat_map in Hin.
  destruct Hin as ([j d] & Hj & Hin). simpl in Hin.
  destruct d as [r |]; [| contradiction].
  destruct Hin as [Heq | []]. injection Heq as <- <-.
  now apply enumerate_index_lt in Hj.
Qed.

Lemma index_pairs_In {A : Type} (l : list A) (a b : A) :
  In (a, b) (index_pairs l) -> In a l /\ In b l.
Proof.
  induction l as [| c l IH]; simpl; [easy |].
  intros Hin. apply in_app_or in Hin. destruct Hin as [Hin | Hin].
  - apply in_map_iff in Hin. destruct Hin as (b' & Heq & Hb).
    injection Heq as <- <-. split; [now left | now right].
  - destruct (IH Hin) as [Ha Hb]. split; now right.
Qed.

Lemma triangulate_yolo_matches_returns
    (triangulatePoints : Mat34 -> Mat34 -> R * R -> R * R -> option Hom)
    (f : Z) (cam1_idx cam2_idx num_valid num_cameras : nat)
    (Ps : list Mat34) :
  (cam1_idx < length Ps)%nat -> (cam2_idx < length Ps)%nat ->
  forall matches : list YoloMatch,
    exists pts,
      triangulate_yolo_matches triangulatePoints (Some f) cam1_idx cam2_idx
        num_valid num_cameras Ps matches = Some pts.
Proof.
  intros H1 H2.
  destruct (nth_error Ps cam1_idx) as [P1 |] eqn:E1;
    [| apply nth_error_None in E1; lia].
  destruct (nth_error Ps cam2_idx) as [P2 |] eqn:E2;
    [| apply nth_error_None in E2; lia].
  induction matches as [| m rest [pts IH]]; [now exists [] |].
  cbn [triangulate_yolo_matches]. rewrite E1, E2, IH.
  destruct (triangulate_point triangulatePoints (pt1 m) (pt2 m) P1 P2)
    as [[[px py] pz] |]; [| now exists pts].
  destruct (is_outlier (px, py, pz)); [now exists pts |].
  eexists. reflexivity.
Qed.

Lemma process_frame_multicam_returns
    (triangulatePoints : Mat34 -> Mat34 -> R * R -> R * R -> option Hom)
    (f : Z) (detections : list (option YoloResults)) (Ps : list Mat34) :
  (length detections <= length Ps)%nat ->
  exists out,
    process_frame_multicam triangulatePoints (Some f) detections Ps
    = Some out.
Proof.
  intros Hlen. unfold process_frame_multicam.
  destruct (length detections <? 2)%nat; [now eexists |].
  destruct (length (valid_cameras detections) <? 2)%nat; [now eexists |].
  assert (Hpairs : forall pairs,
             (forall a b, In (a, b) pairs ->
                          In a (valid_cameras detections)
                          /\ In b (valid_cameras detections)) ->
             exists pts,
               triangulate_yolo_pairs triangulatePoints (Some f)
                 (length (valid_cameras detections)) (length detections) Ps
                 pairs = Some pts).
  { induction pairs as [| [[i1 r1] [i2 r2]] rest IH]; intros Hin;
      [now exists [] |].
    cbn [triangulate_yolo_pairs].
    destruct (Hin (i1, r1) (i2, r2) (or_introl eq_refl)) as [Ha Hb].
    apply valid_cameras_index_lt in Ha, Hb.
    destruct (@triangulate_yolo_matches_returns triangulatePoints f i1 i2
                (length (valid_cameras detections)) (length detections) Ps
                ltac:(lia) ltac:(lia) (match_objects_yolo r1 r2))
      as [pts1 ->].
    destruct IH as [pts2 ->].
    { intros a b Hab. apply Hin. now right. }
    now eexists. }
  destruct (Hpairs (index_pairs (valid_cameras detections))) as [pts ->].
  { intros a b. apply index_pairs_In. }
  now eexists.
Qed.

(** C2: the realtime path at the failing input.  Two cameras see an airplane
    whose rays meet 12 km away.  Whatever solution of the DLT system the
    library returns, [triangulate_objects_realtime] emits that point, with
    |z| = 12000 > 10000: the realtime path has no coordinate filter. *)
Theorem C2_realtime_emits_far_point
    (triangulatePoints : Mat34 -> Mat34 -> R * R -> R * R -> option Hom)
    (X : Hom) :
  triangulatePoints camera_A camera_B (320.25, 320) (319.75, 320) = Some X ->
  dlt_solution camera_A camera_B (320.25, 320) (319.75, 320) X ->
  exists p : Point,
    triangulate_objects_realtime triangulatePoints far_plane_detections
      [camera_A; camera_B] ["A"; "B"]%string 1 100 = Some [p]
    /\ class p = "Airplane"%string
    /\ x p = 5 /\ y p = 0 /\ z p = 12000
    /\ ~ Rabs (z p) <= 10000.
Proof.
  intros Hlib Hsol.
  destruct (far_plane_solutions Hsol) as (w & Hw & ->).
  unfold triangulate_objects_realtime, far_plane_detections. cbn.
  unfold triangulate_point. rewrite Hlib.
  destruct (Req_dec_T w 0) as [E | _]; [contradiction |].
  cbn. eexists. split; [reflexivity |]. cbn.
  repeat split; try (field; exact Hw).
  replace (12000 * w / w) with 12000 by (field; exact Hw).
  rewrite Rabs_right; lra.
Qed.

Lemma C2_realtime_emits_far_point_witness :
  exists p : Point,
    triangulate_objects_realtime exact_far_plane far_plane_detections
      [camera_A; camera_B] ["A"; "B"]%string 1 100 = Some [p]
    /\ class p = "Airplane"%string
    /\ x p = 5 /\ y p = 0 /\ z p = 12000
    /\ ~ Rabs (z p) <= 10000.
Proof.
  apply (C2_realtime_emits_far_point exact_far_plane (X := (5, 0, 12000, 1))).
  - reflexivity.
  - exact exact_far_plane_is_solution.
Defined.

End Triangulation.

(** ** Route loading ([route_based_risk_calculator.py]) *)

Section RouteLoading.

Import Routes.

(** C8, as the claim states it, fails: a route file with [pathName] and a
    [waypoints] list but no [routePoints] key does not load; the loader logs
    an error and returns no route. *)
Lemma C8_waypoints_only_file_is_rejected :
  _load_route_from_json "data/routes/Path_A.json" (Some waypoints_only)
  = (None, [Error_loading_route "data/routes/Path_A.json"]).
Proof. reflexivity. Qed.

Lemma parse_route_needs_route_points (entries : list (string * json)) :
  lookup "routePoints" entries = None ->
  parse_route (JDict entries) = None.
Proof.
  intros Hmissing. unfold parse_route.
  destruct (getitem (JDict entries) "waypoints") as [wps |]; [| reflexivity].
  destruct (iterate wps) as [wp_items |]; [| reflexivity].
  destruct (route_points_of wp_items); [| reflexivity].
  simpl. now rewrite Hmissing.
Qed.

(** The loaded routes do not depend on what has been logged. *)
Lemma load_step_routes (a b : Calculator) (file : string * option json) :
  routes_directory a = routes_directory b ->
  flight_routes a = flight_routes b ->
  routes_directory (load_step a file) = routes_directory (load_step b file)
  /\ flight_routes (load_step a file) = flight_routes (load_step b file).
Proof.
  intros Hdir Hroutes. unfold load_step.
  destruct (is_route_file (fst file)); [| now split].
  unfold load_one. rewrite Hdir.
  destruct (_load_route_from_json
              (path_join (routes_directory b) (fst file)) (snd file))
    as [[r |] logged]; [| now split].
  destruct (hashable (path_name r)); simpl; [| now split].
  now rewrite Hroutes.
Qed.

Lemma load_fold_routes (files : list (string * option json)) :
  forall a b : Calculator,
    routes_directory a = routes_directory b ->
    flight_routes a = flight_routes b ->
    flight_routes (fold_left load_step files a)
    = flight_routes (fold_left load_step files b).
Proof.
  induction files as [| file files IH]; intros a b Hdir Hroutes;
    [exact Hroutes |].
  simpl. destruct (@load_step_routes a b file Hdir Hroutes)
    as [Hdir' Hroutes'].
  now apply IH.
Qed.

Lemma load_fold_log_grows (files : list (string * option json)) :
  forall (self : Calculator) (record : log_record),
    In record (log self) -> In record (log (fold_left load_step files self)).
Proof.
  induction files as [| file files IH]; intros self record Hin; [exact Hin |].
  simpl. apply IH. unfold load_step.
  destruct (is_route_file (fst file)); [| exact Hin].
  unfold load_one.
  destruct (_load_route_from_json _ _) as [[r |] logged].
  - destruct (hashable (path_name r)); simpl; apply in_or_app; now left.
  - simpl. apply in_or_app. now left.
Qed.

(** C8, amended.  A route file without a [routePoints] key is not loaded:
    the loader logs an error and returns no route (there is no fallback to
    [waypoints]).  A file that has [pathName], [exportTime],
    [totalWaypoints] and well-formed [waypoints] and [routePoints] lists
    loads, and the route's polyline [route_points] is taken from
    [routePoints].  A file that fails to load is logged and skipped: the
    routes loaded from a directory are those loaded without that file. *)
Theorem C8_route_loading :
  (forall (json_path : string) (entries : list (string * json)),
      lookup "routePoints" entries = None ->
      _load_route_from_json json_path (Some (JDict entries))
      = (None, [Error_loading_route json_path]))
  /\ (forall (json_path : string) (entries : list (string * json))
             (wps rps : json) (wp_items rp_items : list json)
             (way route : list RoutePoint) (name time total : json),
         lookup "waypoints" entries = Some wps ->
         iterate wps = Some wp_items ->
         route_points_of wp_items = Some way ->
         lookup "routePoints" entries = Some rps ->
         iterate rps = Some rp_items ->
         route_points_of rp_items = Some route ->
         lookup "pathName" entries = Some name ->
         lookup "exportTime" entries = Some time ->
         lookup "totalWaypoints" entries = Some total ->
         _load_route_from_json json_path (Some (JDict entries))
         = (Some {| path_name := name;
                    waypoints := way;
                    route_points := route;
                    export_time := time;
                    total_waypoints := total |}, []))
  /\ (forall (self : Calculator) (before after : list (string * option json))
             (json_file : string) (contents : option json),
         is_route_file json_file = true ->
         fst (_load_route_from_json
                (path_join (routes_directory self) json_file) contents)
         = None ->
         let loaded :=
           _load_all_routes self
             (Some (before ++ (json_file, contents) :: after)) in
         flight_routes loaded
         = flight_routes (_load_all_routes self (Some (before ++ after)))
         /\ In (Error_loading_route
                  (path_join (routes_directory self) json_file))
              (log loaded)).
Proof.
  split; [| split].
  - intros json_path entries Hmissing. unfold _load_route_from_json.
    now rewrite parse_route_needs_route_points.
  - intros json_path entries wps rps wp_items rp_items way route name time
      total Hw Hwi Hwp Hr Hri Hrp Hn Ht Htot.
    unfold _load_route_from_json, parse_route. simpl getitem.
    now rewrite Hw, Hwi, Hwp, Hr, Hri, Hrp, Hn, Ht, Htot.
  - intros self before after json_file contents Hfile Hfail loaded.
    subst loaded. unfold _load_all_routes.
    rewrite !fold_left_app. cbn [fold_left].
    set (mid := fold_left load_step before self).
    assert (Hdir : routes_directory mid = routes_directory self).
    { subst mid. clear. revert self.
      induction before as [| file before IH]; intros self; [reflexivity |].
      simpl. rewrite IH. unfold load_step.
      destruct (is_route_file (fst file)); [| reflexivity].
      unfold load_one. destruct (_load_route_from_json _ _) as [[r |] logged];
        [destruct (hashable (path_name r)) |]; reflexivity. }
    assert (Hstep : load_step mid (json_file, contents)
                    = {| routes_directory := routes_directory mid;
                         flight_routes := flight_routes mid;
                         log := log mid
                                ++ [Error_loading_route
                                      (path_join (routes_directory self)
                                         json_file)] |}).
    { unfold load_step. cbn [fst snd]. rewrite Hfile. unfold load_one.
      rewrite Hdir. unfold _load_route_from_json in *.
      destruct contents as [data |]; [| reflexivity].
      destruct (parse_route data); [discriminate | reflexivity]. }
    rewrite Hstep. split.
    + now apply load_fold_routes.
    + apply load_fold_log_grows. simpl. apply in_or_app. right. now left.
Qed.

Lemma C8_route_loading_witness :
  _load_route_from_json "data/routes/Path_A.json" (Some waypoints_only)
  = (None, [Error_loading_route "data/routes/Path_A.json"]).
Proof.
  apply (proj1 C8_route_loading "data/routes/Path_A.json"%string
           [("pathName"%string, JStr "Path_A");
            ("waypoints"%string, JList [origin; ahead]);
            ("exportTime"%string, JStr "2025-01-01 00:00:00");
            ("totalWaypoints"%string, JNum 2)]).
  reflexivity.
Defined.

(** A complete file loads, and its polyline is the [routePoints] list. *)
Lemma complete_route_loads :
  option_map (fun r => length (route_points r))
    (fst (_load_route_from_json "data/routes/Path_B.json"
            (Some complete_route)))
  = Some 2%nat.
Proof. reflexivity. Qed.

End RouteLoading.

(** ** Wire framing ([bds_tcp_client.py]) *)

Section WireFraming.

Import Tcp.
Open Scope Z_scope.

Lemma Z_of_byte_of_Z (v : Z) : Z_of_byte (byte_of_Z v) = v mod 256.
Proof.
  unfold Z_of_byte, byte_of_Z.
  assert (Hrange : 0 <= v mod 256 < 256) by (apply Z.mod_pos_bound; lia).
  destruct (Byte.of_N (Z.to_N (v mod 256))) as [b |] eqn:Hb.
  - apply Byte.to_of_N in Hb. rewrite Hb. apply Z2N.id. lia.
  - apply Byte.of_N_None_iff in Hb. lia.
Qed.

(** The four bytes of the prefix are the big-endian digits of the length. *)
Lemma from_to_bytes_4_big (n : Z) (bytes : list byte) :
  to_bytes_4_big n = Some bytes ->
  length bytes = 4%nat /\ from_bytes_big bytes = n /\ 0 <= n < 2 ^ 32.
Proof.
  unfold to_bytes_4_big.
  destruct (Z.leb_spec 0 n) as [Hlo |]; [| discriminate].
  destruct (Z.ltb_spec n (2 ^ 32)) as [Hhi |]; [| discriminate].
  simpl andb. intros H. injection H as <-.
  split; [reflexivity |]. split; [| lia].
  unfold from_bytes_big. cbn [fold_left].
  rewrite !Z_of_byte_of_Z, !Z.shiftr_div_pow2 by lia.
  change (2 ^ 24) with 16777216. change (2 ^ 16) with 65536.
  change (2 ^ 8) with 256. change (2 ^ 32) with 4294967296 in Hhi.
  Z.div_mod_to_equations. lia.
Qed.

Section WithJson.

Variable Message : Type.
Variable json_dumps : Message -> option (list Z).

(** C9: for every message sent while the client is connected -- every call
    of [send_message] that returns [True] -- the bytes written to the socket
    are four bytes that read, big-endian, as an unsigned 32-bit integer L,
    immediately followed by exactly L bytes, the UTF-8 encoding of the
    message's JSON serialisation. *)
Theorem C9_wire_framing (self self' : Client) (message : Message) :
  connected self = true ->
  send_message json_dumps self message = (self', true) ->
  exists (sock sock' : Socket) (message_str : list Z)
         (length_bytes message_bytes : list byte),
    socket self = Some sock
    /\ socket self' = Some sock'
    /\ json_dumps message = Some message_str
    /\ encode_utf8 message_str = Some message_bytes
    /\ written sock' = written sock ++ length_bytes ++ message_bytes
    /\ length length_bytes = 4%nat
    /\ from_bytes_big length_bytes = Z.of_nat (length message_bytes)
    /\ 0 <= from_bytes_big length_bytes < 2 ^ 32.
Proof.
  intros Hconn Hsend. unfold send_message in Hsend.
  rewrite Hconn in Hsend. simpl negb in Hsend. cbv iota in Hsend.
  destruct (json_dumps message) as [message_str |] eqn:Hdumps;
    [| discriminate].
  destruct (encode_utf8 message_str) as [message_bytes |] eqn:Henc;
    [| discriminate].
  destruct (to_bytes_4_big (Z.of_nat (length message_bytes)))
    as [length_bytes |] eqn:Hlen; [| discriminate].
  destruct (socket self) as [sock |] eqn:Hsock; [| discriminate].
  destruct (sendall sock length_bytes) as [sock1 ok1] eqn:H1.
  destruct ok1; [| discriminate].
  destruct (sendall sock1 message_bytes) as [sock2 ok2] eqn:H2.
  destruct ok2; [| discriminate].
  injection Hsend as <-.
  assert (Hall : forall s data s',
             sendall s data = (s', true) -> written s' = written s ++ data).
  { intros s data s'. unfold sendall.
    destruct (budget s) as [room |].
    - destruct (length data <=? room)%nat; [| discriminate].
      intros H. now injection H as <-.
    - intros H. now injection H as <-. }
  apply Hall in H1, H2.
  destruct (from_to_bytes_4_big _ Hlen) as (Hfour & Hvalue & Hrange).
  exists sock, sock2, message_str, length_bytes, message_bytes.
  repeat split; try reflexivity; try assumption; try lia.
  now rewrite H2, H1, <- app_assoc.
Qed.

(** The send does succeed on a connection that accepts the bytes, for a
    message that serialises to fewer than 2^32 bytes. *)
Lemma send_message_succeeds (self : Client) (message : Message)
    (sock : Socket) (message_str : list Z) (message_bytes : list byte) :
  connected self = true ->
  socket self = Some sock ->
  budget sock = None ->
  json_dumps message = Some message_str ->
  encode_utf8 message_str = Some message_bytes ->
  Z.of_nat (length message_bytes) < 2 ^ 32 ->
  exists self', send_message json_dumps self message = (self', true).
Proof.
  intros Hconn Hsock Hbudget Hdumps Henc Hsmall.
  unfold send_message, to_bytes_4_big, sendall.
  rewrite Hconn, Hdumps, Henc, Hsock. simpl negb. cbv iota.
  destruct (Z.leb_spec 0 (Z.of_nat (length message_bytes))); [| lia].
  destruct (Z.ltb_spec (Z.of_nat (length message_bytes)) (2 ^ 32)); [| lia].
  simpl andb. cbv iota. rewrite Hbudget. simpl. now eexists.
Qed.

(** Whatever the outcome, [sendall] has written a prefix of its data. *)
Lemma sendall_prefix (sock sock' : Socket) (data : list byte) (ok : bool) :
  sendall sock data = (sock', ok) ->
  exists k : nat,
    written sock' = written sock ++ firstn k data
    /\ (ok = true -> firstn k data = data)
    /\ (ok = false -> (k < length data)%nat).
Proof.
  unfold sendall. destruct (budget sock) as [room |].
  - destruct (Nat.leb_spec (length data) room) as [Hfit | Hover];
      intros H; injection H as <- <-.
    + exists (length data). rewrite firstn_all. now repeat split.
    + exists room. repeat split; [discriminate | intros _; exact Hover].
  - intros H. injection H as <- <-.
    exists (length data). rewrite firstn_all. now repeat split.
Qed.

(** A call made while connected, whether it succeeds or not, leaves on the
    socket either nothing new or a prefix of the frame. *)
Lemma send_message_writes_prefix (self self' : Client) (message : Message)
    (sock : Socket) (ok : bool) :
  connected self = true ->
  socket self = Some sock ->
  send_message json_dumps self message = (self', ok) ->
  exists sock' : Socket,
    socket self' = Some sock'
    /\ (written sock' = written sock
        \/ exists (message_str : list Z)
                  (length_bytes message_bytes : list byte) (k : nat),
             json_dumps message = Some message_str
             /\ encode_utf8 message_str = Some message_bytes
             /\ to_bytes_4_big (Z.of_nat (length message_bytes))
                = Some length_bytes
             /\ written sock'
                = written sock ++ firstn k (length_bytes ++ message_bytes)).
Proof.
  intros Hconn Hsock Hsend. unfold send_message, send_failed in Hsend.
  rewrite Hconn, Hsock in Hsend. simpl negb in Hsend. cbv iota in Hsend.
  destruct (json_dumps message) as [message_str |] eqn:Hdumps;
    [| injection Hsend as <- <-; exists sock; split; [reflexivity | now left]].
  destruct (encode_utf8 message_str) as [message_bytes |] eqn:Henc;
    [| injection Hsend as <- <-; exists sock; split; [reflexivity | now left]].
  destruct (to_bytes_4_big (Z.of_nat (length message_bytes)))
    as [length_bytes |] eqn:Hlen;
    [| injection Hsend as <- <-; exists sock; split; [reflexivity | now left]].
  destruct (sendall sock length_bytes) as [sock1 ok1] eqn:H1.
  destruct (sendall_prefix _ _ H1) as (k1 & Hw1 & Hfull1 & Hshort1).
  destruct ok1.
  - destruct (sendall sock1 message_bytes) as [sock2 ok2] eqn:H2.
    destruct (sendall_prefix _ _ H2) as (k2 & Hw2 & _ & _).
    exists sock2. split.
    + destruct ok2; now injection Hsend as <- <-.
    + right. exists message_str, length_bytes, message_bytes,
        (length length_bytes + k2)%nat.
      repeat split; try assumption.
      rewrite Hw2, Hw1, (Hfull1 eq_refl), <- app_assoc. f_equal.
      now rewrite firstn_app_2.
  - exists sock1. split; [now injection Hsend as <- <- |].
    right. exists message_str, length_bytes, message_bytes, k1.
    repeat split; try assumption.
    rewrite Hw1. f_equal. rewrite firstn_app.
    replace (k1 - length length_bytes)%nat with 0%nat
      by (specialize (Hshort1 eq_refl); lia).
    now rewrite firstn_O, app_nil_r.
Qed.

(** A send that fails marks the client disconnected. *)
Lemma send_message_failure (self self' : Client) (message : Message) :
  connected self = true ->
  send_message json_dumps self message = (self', false) ->
  connected self' = false.
Proof.
  intros Hconn Hsend. unfold send_message in Hsend.
  rewrite Hconn in Hsend. simpl negb in Hsend. cbv iota in Hsend.
  unfold send_failed in Hsend.
  repeat match type of Hsend with
         | context [match ?e with _ => _ end] => destruct e
         end;
    try discriminate; now injection Hsend as <-.
Qed.

End WithJson.

Lemma C9_wire_framing_witness :
  exists (sock sock' : Socket) (message_str : list Z)
         (length_bytes message_bytes : list byte),
    socket healthy_client = Some sock
    /\ socket
         {| connected := true;
            socket :=
              Some {| written := [x00; x00; x00; x02; x7b; x7d];
                      budget := None |} |} = Some sock'
    /\ dumps_empty_object tt = Some message_str
    /\ encode_utf8 message_str = Some message_bytes
    /\ written sock' = written sock ++ length_bytes ++ message_bytes
    /\ length length_bytes = 4%nat
    /\ from_bytes_big length_bytes = Z.of_nat (length message_bytes)
    /\ 0 <= from_bytes_big length_bytes < 2 ^ 32.
Proof.
  apply (@C9_wire_framing unit dumps_empty_object healthy_client
           {| connected := true;
              socket :=
                Some {| written := [x00; x00; x00; x02; x7b; x7d];
                        budget := None |} |} tt).
  - reflexivity.
  - vm_compute. reflexivity.
Defined.

End WireFraming.

(* ================================================================== *)
(** * Part III: further properties of the code *)
(* ================================================================== *)

(** ** The stabilizer ([get_stable_risk_level]) *)

Section Stabilizer.

Import Risk.
Open Scope R_scope.

(** X1: whatever its state, the stabilizer never reports a level below the
    raw level of the frame; the level it returns is the level it remembers,
    and the threshold is left alone. *)
Theorem X1_stabilizer_never_under_reports (self : RiskState) (score : R)
    (level : risk_level) :
  let result := get_stable_risk_level self score level in
  (level_priority level <= level_priority (snd (snd result)))%Z
  /\ last_risk_level (fst result) = snd (snd result)
  /\ downgrade_threshold (fst result) = downgrade_threshold self.
Proof.
  unfold get_stable_risk_level. cbv zeta.
  destruct (Z.gtb_spec (level_priority level)
              (level_priority (last_risk_level self))) as [Hup | Hnot].
  - simpl. repeat split. lia.
  - destruct (Z.ltb_spec (level_priority level)
                (level_priority (last_risk_level self))) as [Hdown | Hsame].
    + destruct (risk_level_downgrade_counter self + 1
                >=? downgrade_threshold self)%Z; simpl; repeat split; lia.
    + simpl. repeat split; [lia |].
      destruct level, (last_risk_level self); simpl in *;
        try reflexivity; lia.
Qed.

(** X2: a downgrade cannot be reported early.  From a state whose counter is
    [c >= 0], over any frames with [c + (number of frames) < threshold], every
    reported level is at least the level reported at the start. *)
Theorem X2_no_downgrade_before_threshold
    (frames : list (R * risk_level)) :
  forall self : RiskState,
    (0 <= risk_level_downgrade_counter self)%Z ->
    (risk_level_downgrade_counter self + Z.of_nat (length frames)
     < downgrade_threshold self)%Z ->
    Forall (fun out =>
              (level_priority (last_risk_level self)
               <= level_priority (snd out))%Z)
      (stabilize self frames).
Proof.
  induction frames as [| [s l] frames IH]; intros self Hc Hlen;
    [constructor |].
  cbn [stabilize].
  destruct (get_stable_risk_level self s l) as [self' out] eqn:Hstep.
  assert (Hkey :
    (level_priority (last_risk_level self) <= level_priority (snd out))%Z
    /\ (level_priority (last_risk_level self)
        <= level_priority (last_risk_level self'))%Z
    /\ (0 <= risk_level_downgrade_counter self')%Z
    /\ (risk_level_downgrade_counter self'
        <= risk_level_downgrade_counter self + 1)%Z
    /\ downgrade_threshold self' = downgrade_threshold self).
  { unfold get_stable_risk_level in Hstep. cbv zeta in Hstep.
    change (length ((s, l) :: frames)) with (S (length frames)) in Hlen.
    destruct (Z.gtb_spec (level_priority l)
                (level_priority (last_risk_level self))) as [Hup | Hnot].
    - injection Hstep as <- <-. simpl. repeat split; lia.
    - destruct (Z.ltb_spec (level_priority l)
                  (level_priority (last_risk_level self))) as [Hdown | Hsame].
      + destruct (Z.geb_spec (risk_level_downgrade_counter self + 1)
                    (downgrade_threshold self)) as [Hfull | Hwait]; [lia |].
        injection Hstep as <- <-. simpl. repeat split; lia.
      + injection Hstep as <- <-. simpl. repeat split; lia. }
  destruct Hkey as (Hout & Hlast & Hc' & Hstepc & Hthr).
  constructor; [exact Hout |].
  eapply Forall_impl; [| apply IH].
  - intros o Ho. simpl in Ho. lia.
  - exact Hc'.
  - change (length ((s, l) :: frames)) with (S (length frames)) in Hlen.
    rewrite Hthr. lia.
Qed.

Lemma X2_no_downgrade_before_threshold_witness :
  Forall (fun out =>
            (level_priority (last_risk_level reporting_high)
             <= level_priority (snd out))%Z)
    (stabilize reporting_high
       [(0, BR_LOW); (0, BR_MEDIUM); (0, BR_LOW); (0, BR_LOW)]).
Proof.
  apply (@X2_no_downgrade_before_threshold
           [(0, BR_LOW); (0, BR_MEDIUM); (0, BR_LOW); (0, BR_LOW)]
           reporting_high); simpl; lia.
Defined.

(** X3: the downgrade is reported exactly when the counter fills.  From a
    state with counter [c >= 0], a run of frames that are all strictly below
    the reported level and that brings the counter to the threshold reports
    the old level on every frame but the last, and on the last frame the raw
    level and score of that frame. *)
Theorem X3_downgrade_at_threshold (earlier : list (R * risk_level)) :
  forall (self : RiskState) (score : R) (level : risk_level),
    (0 <= risk_level_downgrade_counter self)%Z ->
    (risk_level_downgrade_counter self + Z.of_nat (length earlier) + 1
     = downgrade_threshold self)%Z ->
    Forall (below_reported self) (earlier ++ [(score, level)]) ->
    map snd (stabilize self (earlier ++ [(score, level)]))
    = repeat (last_risk_level self) (length earlier) ++ [level]
    /\ Py.last_item (stabilize self (earlier ++ [(score, level)]))
       = Some (score, level).
Proof.
  induction earlier as [| [s l] earlier IH]; intros self score level Hc Hfill
    Hlow.
  - simpl in *. inversion Hlow as [| ? ? Hl _]; subst.
    unfold below_reported in Hl. simpl in Hl.
    unfold get_stable_risk_level. cbv zeta.
    destruct (Z.gtb_spec (level_priority level)
                (level_priority (last_risk_level self))); [lia |].
    destruct (Z.ltb_spec (level_priority level)
                (level_priority (last_risk_level self))); [| lia].
    destruct (Z.geb_spec (risk_level_downgrade_counter self + 1)
                (downgrade_threshold self)); [| lia].
    split; reflexivity.
  - change (length ((s, l) :: earlier)) with (S (length earlier)) in Hfill.
    simpl app in *. inversion Hlow as [| ? ? Hl Hrest]; subst.
    unfold below_reported in Hl. simpl in Hl.
    cbn [stabilize].
    destruct (get_stable_risk_level self s l) as [self' out] eqn:Hstep.
    unfold get_stable_risk_level in Hstep. cbv zeta in Hstep.
    destruct (Z.gtb_spec (level_priority l)
                (level_priority (last_risk_level self))); [lia |].
    destruct (Z.ltb_spec (level_priority l)
                (level_priority (last_risk_level self))); [| lia].
    destruct (Z.geb_spec (risk_level_downgrade_counter self + 1)
                (downgrade_threshold self)); [lia |].
    injection Hstep as <- <-.
    match goal with
    | |- context [stabilize ?st _] => set (self' := st)
    end.
    destruct (IH self' score level) as [Hmap Hlast].
    + simpl. lia.
    + simpl. lia.
    + exact Hrest.
    + split.
      * cbn [map snd repeat app]. rewrite Hmap.
        destruct (last_risk_level self); reflexivity.
      * rewrite last_item_cons, Hlast. reflexivity.
Qed.

Lemma X3_downgrade_at_threshold_witness :
  map snd (stabilize reporting_high
             ([(0, BR_LOW); (0, BR_MEDIUM); (0, BR_LOW); (0, BR_LOW)]
              ++ [(7, BR_LOW)]))
  = repeat BR_HIGH 4 ++ [BR_LOW]
  /\ Py.last_item
       (stabilize reporting_high
          ([(0, BR_LOW); (0, BR_MEDIUM); (0, BR_LOW); (0, BR_LOW)]
           ++ [(7, BR_LOW)]))
     = Some (7, BR_LOW).
Proof.
  apply (@X3_downgrade_at_threshold
           [(0, BR_LOW); (0, BR_MEDIUM); (0, BR_LOW); (0, BR_LOW)]
           reporting_high 7 BR_LOW).
  - simpl. lia.
  - simpl. lia.
  - repeat constructor.
Defined.

End Stabilizer.

(** ** The level computation and its inputs ([bds_server.py]) *)

Section LevelComputation.

Import Risk.
Open Scope R_scope.

Ltac split_deciders :=
  repeat match goal with
         | |- context [Rlt_dec ?a ?b] => destruct (Rlt_dec a b)
         | |- context [Rle_dec ?a ?b] => destruct (Rle_dec a b)
         | |- context [Rge_dec ?a ?b] => destruct (Rge_dec a b)
         end.

(** X4: score and level agree.  For every distance, relative speed and TTC
    the score lies in [0, 180]; a HIGH level comes with a score of at least
    80, a MEDIUM level with at least 60, a LOW level with less than 60. *)
Theorem X4_score_and_level_agree (distance relative_speed : R)
    (ttc : efloat) :
  let result := calculate_dynamic_risk_level distance relative_speed ttc in
  0 <= fst result <= 180
  /\ (snd result = BR_HIGH -> 80 <= fst result)
  /\ (snd result = BR_MEDIUM -> 60 <= fst result)
  /\ (snd result = BR_LOW -> fst result < 60).
Proof.
  unfold calculate_dynamic_risk_level. cbv zeta.
  destruct (Rlt_dec distance 50);
    [simpl; repeat split; intros; try discriminate; lra |].
  destruct (Rlt_dec distance 100);
    [simpl; repeat split; intros; try discriminate; lra |].
  destruct ttc as [t |].
  - destruct (Rlt_dec t 5);
      [simpl; repeat split; intros; try discriminate; lra |].
    destruct (Rlt_dec t 12);
      [simpl; repeat split; intros; try discriminate; lra |].
    unfold Rmax, Rmin. split_deciders; simpl;
      repeat split; intros; try discriminate; lra.
  - unfold Rmax, Rmin. split_deciders; simpl;
      repeat split; intros; try discriminate; lra.
Qed.

(** X5: the TTC floors are consulted only at 100 m and beyond.  Between 50 m
    and 100 m the result is score 120 and level MEDIUM even when the TTC is
    below 5 s, while from 100 m on a TTC below 5 s gives score 180 and level
    HIGH: with the same speed and TTC, the nearer object gets the lower
    level. *)
Theorem X5_ttc_floor_behind_distance_floor
    (near far relative_speed t : R) :
  50 <= near < 100 ->
  100 <= far ->
  t < 5 ->
  calculate_dynamic_risk_level near relative_speed (Fin t)
  = (120, BR_MEDIUM)
  /\ calculate_dynamic_risk_level far relative_speed (Fin t)
     = (180, BR_HIGH).
Proof.
  intros Hnear Hfar Ht. unfold calculate_dynamic_risk_level.
  split.
  - destruct (Rlt_dec near 50); [lra |].
    destruct (Rlt_dec near 100); [reflexivity | lra].
  - destruct (Rlt_dec far 50); [lra |].
    destruct (Rlt_dec far 100); [lra |].
    destruct (Rlt_dec t 5); [reflexivity | lra].
Qed.

Lemma X5_ttc_floor_behind_distance_floor_witness :
  calculate_dynamic_risk_level 60 0 (Fin 1) = (120, BR_MEDIUM)
  /\ calculate_dynamic_risk_level 100 0 (Fin 1) = (180, BR_HIGH).
Proof.
  apply (@X5_ttc_floor_behind_distance_floor 60 100 0 1); lra.
Defined.

(** X6: a larger relative speed never lowers the result.  For a fixed
    distance and TTC, score and level are monotone in the relative speed. *)
Theorem X6_monotone_in_relative_speed (distance slow fast : R)
    (ttc : efloat) :
  slow <= fast ->
  fst (calculate_dynamic_risk_level distance slow ttc)
  <= fst (calculate_dynamic_risk_level distance fast ttc)
  /\ (level_priority (snd (calculate_dynamic_risk_level distance slow ttc))
      <= level_priority
           (snd (calculate_dynamic_risk_level distance fast ttc)))%Z.
Proof.
  intros Hle. unfold calculate_dynamic_risk_level. cbv zeta.
  destruct (Rlt_dec distance 50); [simpl; split; [lra | lia] |].
  destruct (Rlt_dec distance 100); [simpl; split; [lra | lia] |].
  assert (Hscored : forall ds ts : R,
    let score v :=
      (ds * 0.4
       + (if Rle_dec v 0 then 0
          else if Rle_dec v 10 then v * 3
          else if Rle_dec v 30 then 30 + (v - 10) * 2.5
          else Rmin 100 (80 + (v - 30) * 1)) * 0.3
       + ts * 0.3) * 2 in
    let level v :=
      if Rge_dec (score v) 80 then BR_HIGH
      else if Rge_dec (score v) 60 then BR_MEDIUM else BR_LOW in
    score slow <= score fast
    /\ (level_priority (level slow) <= level_priority (level fast))%Z).
  { intros ds ts score level.
    assert (Hs : score slow <= score fast).
    { unfold score, Rmin. split_deciders; lra. }
    split; [exact Hs |].
    unfold level.
    destruct (Rge_dec (score slow) 80), (Rge_dec (score fast) 80),
      (Rge_dec (score slow) 60), (Rge_dec (score fast) 60);
      simpl; try lia; lra. }
  destruct ttc as [t |].
  - destruct (Rlt_dec t 5); [simpl; split; [lra | lia] |].
    destruct (Rlt_dec t 12); [simpl; split; [lra | lia] |].
    apply Hscored.
  - apply Hscored.
Qed.

Lemma X6_monotone_in_relative_speed_witness :
  fst (calculate_dynamic_risk_level 150 5 Inf)
  <= fst (calculate_dynamic_risk_level 150 20 Inf)
  /\ (level_priority (snd (calculate_dynamic_risk_level 150 5 Inf))
      <= level_priority (snd (calculate_dynamic_risk_level 150 20 Inf)))%Z.
Proof.
  apply (@X6_monotone_in_relative_speed 150 5 20 Inf). lra.
Defined.

(** X7: the direct distance is never below 50 m, so on its own it never
    reaches the HIGH floor ([distance < 50]); whenever the horizontal
    separation is under sqrt(7500) m it lies in [50, 100) and the level
    computation answers score 120, level MEDIUM, whatever the speed and TTC. *)
Theorem X7_direct_distance_floor (airplane_pos flock_pos : R * R) :
  50 <= calculate_3d_distance airplane_pos flock_pos
  /\ ((fst airplane_pos - fst flock_pos) ^ 2
      + (snd airplane_pos - snd flock_pos) ^ 2 < 7500 ->
      forall (relative_speed : R) (ttc : efloat),
        calculate_dynamic_risk_level
          (calculate_3d_distance airplane_pos flock_pos) relative_speed ttc
        = (120, BR_MEDIUM)).
Proof.
  unfold calculate_3d_distance. cbv zeta.
  set (h2 := (fst airplane_pos - fst flock_pos) ^ 2
             + (snd airplane_pos - snd flock_pos) ^ 2).
  assert (Hh2 : 0 <= h2)
    by (unfold h2; apply Rplus_le_le_0_compat; apply pow2_ge_0).
  assert (Hsq : sqrt h2 ^ 2 = h2).
  { simpl. rewrite Rmult_1_r. now apply sqrt_sqrt. }
  rewrite Hsq.
  assert (Hlow : 50 <= sqrt (h2 + 50 ^ 2)).
  { apply sqrt_ge_of_square; lra. }
  split; [exact Hlow |].
  intros Hnear relative_speed ttc.
  assert (Hhigh : sqrt (h2 + 50 ^ 2) < 100).
  { replace 100 with (sqrt (100 * 100)) by (apply sqrt_square; lra).
    apply sqrt_lt_1_alt. lra. }
  unfold calculate_dynamic_risk_level.
  destruct (Rlt_dec (sqrt (h2 + 50 ^ 2)) 50); [lra |].
  destruct (Rlt_dec (sqrt (h2 + 50 ^ 2)) 100); [reflexivity | lra].
Qed.

Lemma X7_direct_distance_floor_witness :
  calculate_dynamic_risk_level (calculate_3d_distance (3, 4) (0, 0)) 0 Inf
  = (120, BR_MEDIUM).
Proof.
  apply (proj2 (X7_direct_distance_floor (3, 4) (0, 0))).
  simpl. lra.
Defined.

(** X8: the relative speed is minus the closing speed of the TTC
    computation.  Whenever the TTC is finite the relative speed is negative,
    and whenever the relative speed is positive the TTC is infinite: the
    speed term and the TTC term of the score are never both positive for the
    same pair of tracks. *)
Theorem X8_relative_speed_against_ttc (airplane flock : TrackDict) :
  (calculate_realtime_ttc airplane flock <> Inf ->
   calculate_relative_speed airplane flock < 0)
  /\ (0 < calculate_relative_speed airplane flock ->
      calculate_realtime_ttc airplane flock = Inf).
Proof.
  assert (Hmain : calculate_realtime_ttc airplane flock <> Inf ->
                  calculate_relative_speed airplane flock < 0).
  { unfold calculate_realtime_ttc, calculate_relative_speed.
    destruct (Py.last_item (positions airplane)) as [pa |]; [| easy].
    destruct (Py.last_item (positions flock)) as [pf |]; [| easy].
    destruct (Py.last_item (velocities airplane)) as [va |]; [| easy].
    destruct (Py.last_item (velocities flock)) as [vf |]; [| easy].
    cbv zeta.
    destruct (Rlt_dec _ epsilon); [easy |].
    destruct (Rlt_dec _ epsilon); [easy |].
    destruct (Rle_dec _ 0) as [| Hclosing]; [easy |].
    intros _. lra. }
  split; [exact Hmain |].
  intros Hpos.
  destruct (calculate_realtime_ttc airplane flock) as [t |] eqn:Httc;
    [| reflexivity].
  assert (Hneg : calculate_relative_speed airplane flock < 0).
  { apply Hmain. discriminate. }
  lra.
Qed.

Lemma X8_relative_speed_against_ttc_witness :
  calculate_relative_speed slow_airplane still_flock < 0.
Proof.
  apply (proj1 (X8_relative_speed_against_ttc slow_airplane still_flock)).
  rewrite slow_example_ttc. discriminate.
Defined.

End LevelComputation.

(** ** Cleaning a session ([byte_track.py]) *)

Section SessionCleaning.

Import Track.
Open Scope R_scope.

Lemma recalculate_from_increasing (rest : list Sample) :
  forall prev : Sample,
    frames_increase_from prev rest ->
    recalculate_from prev rest
    = map velocity_between (combine (prev :: rest) rest).
Proof.
  induction rest as [| curr rest IH]; intros prev Hinc; [reflexivity |].
  destruct Hinc as [Hlt Hrest].
  cbn [recalculate_from]. rewrite (IH curr Hrest).
  assert (Hdt : IZR (sample_frame curr - sample_frame prev) / 30 > 0).
  { assert (0 < IZR (sample_frame curr - sample_frame prev))
      by (apply IZR_lt; lia).
    lra. }
  destruct (Rgt_dec (IZR (sample_frame curr - sample_frame prev) / 30) 0);
    [reflexivity | contradiction].
Qed.

(** X9: when the frames of the positions increase strictly,
    [_recalculate_velocities] returns one sample for every pair of
    consecutive positions, in order: the later frame with the position
    difference divided by (frame difference / 30); so it returns one sample
    fewer than there are positions. *)
Theorem X9_recalculated_velocities (positions : list Track.Sample) :
  frames_increase positions ->
  _recalculate_velocities positions
  = map velocity_between (combine positions (tl positions))
  /\ length (_recalculate_velocities positions)
     = (length positions - 1)%nat.
Proof.
  intros Hinc.
  assert (Heq : _recalculate_velocities positions
                = map velocity_between (combine positions (tl positions))).
  { destruct positions as [| first rest]; [reflexivity |].
    now apply recalculate_from_increasing. }
  split; [exact Heq |].
  rewrite Heq, length_map, length_combine.
  destruct positions as [| first rest]; cbn [length tl]; lia.
Qed.

Lemma X9_recalculated_velocities_witness :
  _recalculate_velocities [(1%Z, 0, 0); (2%Z, 3, 0); (4%Z, 3, 6)]
  = map velocity_between
      (combine [(1%Z, 0, 0); (2%Z, 3, 0); (4%Z, 3, 6)]
         (tl [(1%Z, 0, 0); (2%Z, 3, 0); (4%Z, 3, 6)]))
  /\ length (_recalculate_velocities [(1%Z, 0, 0); (2%Z, 3, 0); (4%Z, 3, 6)])
     = (length [(1%Z, 0, 0); (2%Z, 3, 0); (4%Z, 3, 6)] - 1)%nat.
Proof.
  apply (@X9_recalculated_velocities [(1%Z, 0, 0); (2%Z, 3, 0); (4%Z, 3, 6)]).
  simpl. unfold sample_frame. simpl. lia.
Defined.

Lemma subsequence_refl {A : Type} (l : list A) : subsequence l l.
Proof. induction l; constructor; assumption. Qed.

Lemma subsequence_map {A B : Type} (f : A -> B) (l1 l2 : list A) :
  subsequence l1 l2 -> subsequence (map f l1) (map f l2).
Proof. induction 1; simpl; constructor; assumption. Qed.

Lemma remove_outliers_from_spec (threshold : R) (rest : list Sample) :
  forall prev curr : Sample,
    subsequence (remove_outliers_from threshold prev curr rest) (curr :: rest)
    /\ Py.last_item (remove_outliers_from threshold prev curr rest)
       = Py.last_item (curr :: rest).
Proof.
  induction rest as [| next rest IH]; intros prev curr.
  - split; [apply subsequence_refl | reflexivity].
  - destruct (IH curr next) as [Hsub Hlast].
    destruct (last_item_nonempty rest next) as [b Hb].
    cbn [remove_outliers_from].
    change (Py.last_item (curr :: next :: rest))
      with (Py.last_item (next :: rest)).
    destruct (within_speed threshold prev curr next); simpl app.
    + split; [now constructor |].
      rewrite (last_item_cons curr
                 (remove_outliers_from threshold curr next rest)).
      now rewrite Hlast, Hb.
    + split; [now constructor | exact Hlast].
Qed.

Lemma remove_outliers_spec (positions : list Track.Sample)
    (threshold : R) :
  let cleaned := _remove_position_outliers positions threshold in
  subsequence cleaned positions
  /\ hd_error cleaned = hd_error positions
  /\ Py.last_item cleaned = Py.last_item positions
  /\ ((length positions < 3)%nat -> cleaned = positions).
Proof.
  unfold _remove_position_outliers.
  destruct positions as [| first [| second [| third rest]]];
    try (repeat split; apply subsequence_refl).
  destruct (remove_outliers_from_spec threshold (third :: rest) first second)
    as [Hsub Hlast].
  cbv zeta. repeat split.
  - now constructor.
  - destruct (last_item_nonempty (third :: rest) second) as [b Hb].
    change (Py.last_item (first :: second :: third :: rest))
      with (Py.last_item (second :: third :: rest)).
    rewrite (last_item_cons first
               (remove_outliers_from threshold first second (third :: rest))).
    now rewrite Hlast, Hb.
  - simpl. lia.
Qed.

(** X10: [_remove_position_outliers] only drops points: its result is a
    subsequence of the input that begins with the same point and ends with
    the same point, and a list of fewer than three points is returned as it
    is. *)
Theorem X10_outlier_removal_keeps_ends (positions : list Track.Sample)
    (threshold : R) :
  let cleaned := _remove_position_outliers positions threshold in
  subsequence cleaned positions
  /\ hd_error cleaned = hd_error positions
  /\ Py.last_item cleaned = Py.last_item positions
  /\ ((length positions < 3)%nat -> cleaned = positions).
Proof. exact (remove_outliers_spec positions threshold). Qed.

Lemma sum_between (lo hi : R) (l : list R) :
  Forall (fun a => lo <= a <= hi) l ->
  lo * INR (length l) <= Py.sum l <= hi * INR (length l).
Proof.
  induction 1 as [| a l Ha _ IH].
  - simpl. lra.
  - change (Py.sum (a :: l)) with (a + Py.sum l).
    change (length (a :: l)) with (S (length l)). rewrite S_INR. lra.
Qed.

Lemma mean_between (lo hi : R) (l : list R) :
  l <> [] ->
  Forall (fun a => lo <= a <= hi) l ->
  lo <= Py.mean l <= hi.
Proof.
  intros Hne Hall. unfold Py.mean.
  assert (Hn : 0 < INR (length l)).
  { apply lt_0_INR. destruct l; [contradiction | simpl; lia]. }
  destruct (sum_between Hall) as [Hlo Hhi].
  split.
  - apply Rmult_le_reg_r with (r := INR (length l)); [exact Hn |].
    unfold Rdiv. rewrite Rmult_assoc, Rinv_l, Rmult_1_r; lra.
  - apply Rmult_le_reg_r with (r := INR (length l)); [exact Hn |].
    unfold Rdiv. rewrite Rmult_assoc, Rinv_l, Rmult_1_r; lra.
Qed.

Lemma firstn_incl {A : Type} (n : nat) :
  forall l : list A, incl (firstn n l) l.
Proof.
  induction n as [| n IH]; intros [| a l] b Hb; simpl in *; try easy.
  destruct Hb as [-> | Hb]; [now left | right; now apply IH].
Qed.

Lemma skipn_incl {A : Type} (n : nat) :
  forall l : list A, incl (skipn n l) l.
Proof.
  induction n as [| n IH]; intros [| a l] b Hb; simpl in *; try easy.
  right. now apply IH.
Qed.

Lemma slice_window (positions : list Sample) (i half : nat) :
  (i < length positions)%nat ->
  let window :=
    slice positions (i - half)
      (Nat.min (length positions) (i + half + 1)) in
  window <> [] /\ incl window positions.
Proof.
  intros Hi window. subst window. unfold slice. split.
  - intros Hempty. apply (f_equal (@length Sample)) in Hempty.
    rewrite length_firstn, length_skipn in Hempty. simpl in Hempty. lia.
  - intros p Hp. apply firstn_incl in Hp. now apply skipn_incl in Hp.
Qed.

Lemma smooth_frames (positions : list Sample) (window_size : nat) :
  map sample_frame (_smooth_positions positions window_size)
  = map sample_frame positions.
Proof.
  unfold _smooth_positions.
  destruct (length positions <? window_size)%nat; [reflexivity |].
  cbv zeta. rewrite map_map.
  transitivity (map sample_frame (map snd (Py.enumerate positions))).
  - rewrite map_map. apply map_ext. intros [i p]. reflexivity.
  - now rewrite enumerate_snd.
Qed.

Lemma smooth_between (coord : Sample -> R) (lo hi : R)
    (positions : list Sample) (window_size : nat) :
  (coord = sample_a \/ coord = sample_b) ->
  Forall (fun p => lo <= coord p <= hi) positions ->
  Forall (fun p => lo <= coord p <= hi)
    (_smooth_positions positions window_size).
Proof.
  intros Hcoord Hall. unfold _smooth_positions.
  destruct (length positions <? window_size)%nat; [exact Hall |].
  cbv zeta. apply Forall_forall. intros q Hq.
  apply in_map_iff in Hq. destruct Hq as ([i p] & <- & Hip).
  apply enumerate_index_lt in Hip.
  destruct (@slice_window positions i (window_size / 2) Hip) as [Hne Hincl].
  cbn [fst snd].
  assert (Hwin : forall c : Sample -> R,
             Forall (fun p => lo <= c p <= hi) positions ->
             lo <= Py.mean
                     (map c (slice positions (i - window_size / 2)
                               (Nat.min (length positions)
                                  (i + window_size / 2 + 1)))) <= hi).
  { intros c Hc. apply mean_between.
    - intros Hmap. apply map_eq_nil in Hmap. contradiction.
    - apply Forall_forall. intros a Ha. apply in_map_iff in Ha.
      destruct Ha as (p' & <- & Hp'). rewrite Forall_forall in Hc.
      apply Hc. now apply Hincl. }
  destruct Hcoord as [-> | ->].
  - unfold sample_a at 1 3. cbn [fst snd]. now apply Hwin.
  - unfold sample_b at 1 3. cbn [fst snd]. now apply Hwin.
Qed.

(** X11: [_smooth_positions] keeps every frame number in place, and the
    smoothed coordinates stay within any interval that holds the input
    coordinates. *)
Theorem X11_smoothing_keeps_frames_and_range
    (positions : list Track.Sample) (window_size : nat) (lo hi : R) :
  map sample_frame (_smooth_positions positions window_size)
  = map sample_frame positions
  /\ (Forall (fun p => lo <= sample_a p <= hi) positions ->
      Forall (fun p => lo <= sample_a p <= hi)
        (_smooth_positions positions window_size))
  /\ (Forall (fun p => lo <= sample_b p <= hi) positions ->
      Forall (fun p => lo <= sample_b p <= hi)
        (_smooth_positions positions window_size)).
Proof.
  split; [apply smooth_frames |].
  split; apply smooth_between; auto.
Qed.

Lemma hd_error_map {A B : Type} (f : A -> B) (l : list A) :
  hd_error (map f l) = option_map f (hd_error l).
Proof. now destruct l. Qed.

Lemma last_item_map {A B : Type} (f : A -> B) (l : list A) :
  Py.last_item (map f l) = option_map f (Py.last_item l).
Proof.
  induction l as [| a l IH]; [reflexivity |].
  simpl map. rewrite !last_item_cons, IH.
  now destruct (Py.last_item l).
Qed.

Lemma cleaned_frames (positions : list Sample) (threshold : R)
    (window : nat) :
  let frames l := map sample_frame l in
  let cleaned :=
    _smooth_positions (_remove_position_outliers positions threshold)
      window in
  subsequence (frames cleaned) (frames positions)
  /\ hd_error (frames cleaned) = hd_error (frames positions)
  /\ Py.last_item (frames cleaned) = Py.last_item (frames positions).
Proof.
  cbv zeta. rewrite smooth_frames.
  destruct (remove_outliers_spec positions threshold)
    as (Hsub & Hhd & Hlast & _).
  repeat split.
  - now apply subsequence_map.
  - now rewrite !hd_error_map, Hhd.
  - now rewrite !last_item_map, Hlast.
Qed.

(** X12: [clean_data] keeps the identity and the span of a session: the
    identifier, the start and end frames and the session length are those of
    the input, and for the airplane and for the flock the frames of the
    cleaned positions are a subsequence of the frames of the input positions
    with the same first and last frame. *)
Theorem X12_clean_data_keeps_span (self : Track.Session)
    (position_jump_threshold : R) (smoothing_window : nat) :
  let cleaned := clean_data self position_jump_threshold smoothing_window in
  session_id cleaned = session_id self
  /\ start_frame cleaned = start_frame self
  /\ end_frame cleaned = end_frame self
  /\ get_session_length cleaned = get_session_length self
  /\ forall positions : Session -> list Sample,
       positions = airplane_positions \/ positions = flock_positions ->
       subsequence (frames_of (positions cleaned)) (frames_of (positions self))
       /\ hd_error (frames_of (positions cleaned))
          = hd_error (frames_of (positions self))
       /\ Py.last_item (frames_of (positions cleaned))
          = Py.last_item (frames_of (positions self)).
Proof.
  cbv zeta. do 4 (split; [reflexivity |]).
  intros positions [-> | ->]; unfold clean_data, frames_of; simpl;
    apply cleaned_frames.
Qed.

End SessionCleaning.

(** ** The tracker as a state machine ([byte_track.py]) *)

Section TrackerStateMachine.

Import Track.
Open Scope R_scope.

Lemma manage_session_opens (m : Z) (self : SessionTracker)
    (frame_number : Z) (sustained : bool) :
  tracker_ok m self ->
  exists self',
    manage_session self frame_number sustained = Some self'
    /\ tracker_ok m self'
    /\ in_session self' = true
    /\ last_airplane_position self' = last_airplane_position self
    /\ last_frame_number self' = last_frame_number self.
Proof.
  intros Hok. unfold manage_session.
  destruct (in_session self) eqn:Hin; simpl.
  - destruct sustained.
    + destruct (end_current_session_ok Hok) as (self1 & Hend & Hok1).
      rewrite Hend. eexists. split; [reflexivity |].
      split; [now apply start_new_session_ok |].
      split; [reflexivity |].
      unfold _end_current_session in Hend. rewrite Hin in Hend. simpl in Hend.
      destruct (current_session_data self); [| discriminate].
      destruct (_ <? _)%Z; injection Hend as <-; now split.
    + exists self. split; [reflexivity |]. split; [exact Hok |].
      split; [exact Hin |]. now split.
  - eexists. split; [reflexivity |].
    split; [now apply start_new_session_ok |]. now repeat split.
Qed.

Lemma record_frame_appends (m : Z) (self : SessionTracker)
    (frame_number : Z) (airplane : Tri.Point) (flocks : list Tri.Point) :
  tracker_ok m self ->
  in_session self = true ->
  exists self' data0 data,
    record_frame self frame_number airplane flocks = Some self'
    /\ in_session self' = true
    /\ current_session_data self = Some data0
    /\ current_session_data self' = Some data
    /\ cur_start_frame data = cur_start_frame data0
    /\ cur_last_frame data = frame_number
    /\ cur_airplane_positions data
       = cur_airplane_positions data0
         ++ [(frame_number, Tri.x airplane, Tri.z airplane)]
    /\ sessions self' = sessions self
    /\ current_session_id self' = current_session_id self
    /\ jump_frames_count self' = jump_frames_count self
    /\ jump_start_frame self' = jump_start_frame self.
Proof.
  intros (Hm & Hwf & Hhist) Hin. unfold record_frame. rewrite Hin.
  destruct (current_session_data self) as [data |] eqn:Hdata;
    [| now destruct (Hwf Hin)].
  match goal with
  | |- context [let '(_, _) := ?e in _] => destruct e as [fp fv]
  end.
  eexists. exists data. eexists. split; [reflexivity |].
  simpl. repeat split; assumption.
Qed.

(** X13: one frame decides whether a session is open.  After [update] on a
    frame with an airplane a session is open, its last frame is this frame,
    its last airplane position is the first airplane of the frame, and the
    tracker remembers that position and frame; after [update] on a frame
    without an airplane no session is open and the jump counter is cleared,
    while the remembered airplane position stays. *)
Theorem X13_session_open_iff_airplane (m : Z) (self : SessionTracker)
    (frame_number : Z) (detections : list Tri.Point) :
  tracker_ok m self ->
  exists self',
    update self frame_number detections = Some self'
    /\ match filter is_airplane detections with
       | airplane :: _ =>
           in_session self' = true
           /\ last_airplane_position self'
              = Some (Tri.x airplane, Tri.z airplane)
           /\ last_frame_number self' = Some frame_number
           /\ exists data,
                current_session_data self' = Some data
                /\ cur_last_frame data = frame_number
                /\ Py.last_item (cur_airplane_positions data)
                   = Some (frame_number, Tri.x airplane, Tri.z airplane)
       | [] =>
           in_session self' = false
           /\ jump_frames_count self' = 0%Z
           /\ jump_start_frame self' = None
           /\ last_airplane_position self' = last_airplane_position self
       end.
Proof.
  intros Hok. unfold update.
  destruct (filter is_airplane detections) as [| airplane others].
  - destruct (in_session self) eqn:Hin.
    + pose proof Hok as (Hm & Hwf & Hhist).
      unfold _end_current_session. rewrite Hin. simpl.
      destruct (current_session_data self) as [data |];
        [| now destruct (Hwf Hin)].
      destruct (_ <? _)%Z; eexists; (split; [reflexivity |]);
        now repeat split.
    + exists (set_jump self None 0%Z). split; [reflexivity |].
      now repeat split.
  - cbv zeta.
    pose proof (track_jump_ok frame_number
                  (Tri.x airplane, Tri.z airplane) Hok) as Hok1.
    destruct (@manage_session_opens m
                (track_jump self frame_number
                   (Tri.x airplane, Tri.z airplane))
                frame_number
                (jump_frames_count
                   (track_jump self frame_number
                      (Tri.x airplane, Tri.z airplane))
                 >=? jump_duration_threshold
                       (track_jump self frame_number
                          (Tri.x airplane, Tri.z airplane)))%Z Hok1)
      as (self2 & -> & Hok2 & Hin2 & _).
    destruct (@record_frame_appends m self2 frame_number airplane
                (filter is_flock detections) Hok2 Hin2)
      as (self3 & data0 & data & -> & Hin3 & _ & Hdata & _ & Hlast & Hpos & _).
    eexists. split; [reflexivity |].
    simpl. repeat split; try assumption.
    exists data. repeat split; try assumption.
    rewrite Hpos. apply last_item_app.
Qed.

Lemma X13_session_open_iff_airplane_witness :
  exists self',
    update (init 50 5 50) 1 [point_at "Airplane" 0 0] = Some self'
    /\ match filter is_airplane [point_at "Airplane" 0 0] with
       | airplane :: _ =>
           in_session self' = true
           /\ last_airplane_position self'
              = Some (Tri.x airplane, Tri.z airplane)
           /\ last_frame_number self' = Some 1%Z
           /\ exists data,
                current_session_data self' = Some data
                /\ cur_last_frame data = 1%Z
                /\ Py.last_item (cur_airplane_positions data)
                   = Some (1%Z, Tri.x airplane, Tri.z airplane)
       | [] =>
           in_session self' = false
           /\ jump_frames_count self' = 0%Z
           /\ jump_start_frame self' = None
           /\ last_airplane_position self'
              = last_airplane_position (init 50 5 50)
       end.
Proof.
  apply (@X13_session_open_iff_airplane 50 (init 50 5 50) 1
           [point_at "Airplane" 0 0]).
  repeat split; simpl; [discriminate | constructor].
Defined.

(** *** What one frame leaves alone *)

Lemma track_jump_fields (self : SessionTracker) (frame_number : Z)
    (pos : R * R) :
  let self1 := track_jump self frame_number pos in
  sessions self1 = sessions self
  /\ current_session_id self1 = current_session_id self
  /\ in_session self1 = in_session self
  /\ current_session_data self1 = current_session_data self
  /\ jump_duration_threshold self1 = jump_duration_threshold self
  /\ min_session_length self1 = min_session_length self.
Proof.
  unfold track_jump.
  destruct (last_airplane_position self) as [last |]; [| now repeat split].
  destruct (Rgt_dec _ _); [destruct (jump_start_frame self) |];
    now repeat split.
Qed.

Lemma record_frame_fields (self self' : SessionTracker) (frame_number : Z)
    (airplane : Tri.Point) (flocks : list Tri.Point) :
  record_frame self frame_number airplane flocks = Some self' ->
  sessions self' = sessions self
  /\ current_session_id self' = current_session_id self
  /\ in_session self' = in_session self.
Proof.
  unfold record_frame. destruct (in_session self) eqn:Hin.
  - destruct (current_session_data self) as [data |]; [| discriminate].
    match goal with
    | |- context [let '(_, _) := ?e in _] => destruct e as [fp fv]
    end.
    intros H. injection H as <-. simpl. now repeat split.
  - intros H. injection H as <-. now repeat split.
Qed.

(** *** Session identifiers *)

Lemma sorted_snoc (l : list Z) (a : Z) :
  StronglySorted Z.lt l ->
  Forall (fun b => (b < a)%Z) l ->
  StronglySorted Z.lt (l ++ [a]).
Proof.
  induction 1 as [| b l Hsorted IH Hb]; intros Hall; simpl.
  - constructor; constructor.
  - inversion Hall as [| ? ? Hba Hall']; subst.
    constructor; [now apply IH |].
    apply Forall_app. split; [exact Hb |]. now constructor.
Qed.

Lemma ids_ok_same (self self' : SessionTracker) :
  sessions self' = sessions self ->
  current_session_id self' = current_session_id self ->
  in_session self' = in_session self ->
  ids_ok self -> ids_ok self'.
Proof.
  unfold ids_ok. intros -> -> ->. exact (fun H => H).
Qed.

Lemma start_new_session_ids (self : SessionTracker) (start : Z) :
  ids_ok self -> ids_ok (_start_new_session self start).
Proof.
  intros (Hsorted & Hle & _ & Hpos). repeat split; simpl.
  - exact Hsorted.
  - eapply Forall_impl; [| exact Hle]. simpl. intros s Hs. lia.
  - lia.
  - eapply Forall_impl; [| exact Hle]. simpl. intros s Hs. lia.
  - lia.
Qed.

Lemma end_current_session_ids (self self' : SessionTracker) :
  _end_current_session self = Some self' ->
  ids_ok self -> ids_ok self'.
Proof.
  unfold _end_current_session. intros Hend (Hsorted & Hle & Hlt & Hpos).
  destruct (in_session self) eqn:Hin; simpl in Hend.
  - destruct (current_session_data self) as [data |]; [| discriminate].
    destruct (Hlt eq_refl) as [Hone Hbelow].
    destruct (_ <? _)%Z; injection Hend as <-.
    + repeat split; simpl; try assumption; discriminate.
    + repeat split; simpl; try assumption; try discriminate.
      * rewrite map_app. simpl. apply sorted_snoc; [exact Hsorted |].
        apply Forall_forall. intros b Hb. apply in_map_iff in Hb.
        destruct Hb as (s & <- & Hs). rewrite Forall_forall in Hbelow.
        now apply Hbelow.
      * apply Forall_app. split; [exact Hle |].
        constructor; [| constructor]. simpl. lia.
  - injection Hend as <-. repeat split; try assumption; congruence.
Qed.

Lemma manage_session_ids (self self' : SessionTracker) (frame_number : Z)
    (sustained : bool) :
  manage_session self frame_number sustained = Some self' ->
  ids_ok self -> ids_ok self'.
Proof.
  unfold manage_session. intros Hmanage Hids.
  destruct (negb (in_session self)).
  - injection Hmanage as <-. now apply start_new_session_ids.
  - destruct sustained.
    + destruct (_end_current_session self) as [self1 |] eqn:Hend;
        [| discriminate].
      injection Hmanage as <-. apply start_new_session_ids.
      exact (@end_current_session_ids self self1 Hend Hids).
    + now injection Hmanage as <-.
Qed.

Lemma update_ids (self self' : SessionTracker) (frame_number : Z)
    (detections : list Tri.Point) :
  update self frame_number detections = Some self' ->
  ids_ok self -> ids_ok self'.
Proof.
  unfold update. intros Hupdate Hids.
  destruct (filter is_airplane detections) as [| airplane others].
  - destruct (in_session self).
    + destruct (_end_current_session self) as [self1 |] eqn:Hend;
        [| discriminate].
      injection Hupdate as <-.
      apply (@ids_ok_same self1); try reflexivity.
      exact (@end_current_session_ids self self1 Hend Hids).
    + injection Hupdate as <-. exact Hids.
  - cbv zeta in Hupdate.
    destruct (manage_session _ _ _) as [self2 |] eqn:Hmanage;
      [| discriminate].
    destruct (record_frame _ _ _ _) as [self3 |] eqn:Hrecord;
      [| discriminate].
    injection Hupdate as <-.
    destruct (@record_frame_fields _ _ _ _ _ Hrecord) as (Hs & Hid & Hin).
    apply (@ids_ok_same self2); try assumption.
    apply (@manage_session_ids _ _ _ _ Hmanage).
    destruct (track_jump_fields self frame_number
                (Tri.x airplane, Tri.z airplane))
      as (Hs1 & Hid1 & Hin1 & _).
    now apply (@ids_ok_same self).
Qed.

Lemma run_ids (frames : list (Z * list Tri.Point)) :
  forall self self' : SessionTracker,
    run self frames = Some self' -> ids_ok self -> ids_ok self'.
Proof.
  induction frames as [| [frame_number detections] frames IH];
    intros self self' Hrun Hids; simpl in Hrun.
  - now injection Hrun as <-.
  - destruct (update self frame_number detections) as [self1 |] eqn:Hupdate;
      [| discriminate].
    apply (IH self1 self' Hrun).
    exact (@update_ids self self1 frame_number detections Hupdate Hids).
Qed.

Lemma finalize_ok (m : Z) (self : SessionTracker) :
  tracker_ok m self ->
  exists final, finalize self = Some final /\ tracker_ok m final.
Proof.
  intros Hok. unfold finalize.
  destruct (in_session self); [now apply end_current_session_ok |].
  now exists self.
Qed.

Lemma finalize_ids (self final : SessionTracker) :
  finalize self = Some final -> ids_ok self -> ids_ok final.
Proof.
  unfold finalize. destruct (in_session self).
  - apply end_current_session_ids.
  - intros H. now injection H as <-.
Qed.

(** X14: session identifiers.  A tracker that starts from [__init__] and is
    fed any sequence of frames, then finalized, never stops with an error,
    and the sessions of its history carry strictly increasing identifiers
    that lie between 1 and the tracker's counter: no identifier is used
    twice. *)
Theorem X14_session_ids_increase (threshold : R) (J m : Z)
    (frames : list (Z * list Tri.Point)) :
  exists self' final,
    run (init threshold J m) frames = Some self'
    /\ finalize self' = Some final
    /\ StronglySorted Z.lt (map session_id (sessions final))
    /\ NoDup (map session_id (sessions final))
    /\ Forall (fun s => (1 <= session_id s <= current_session_id final)%Z)
         (sessions final).
Proof.
  destruct (@run_ok m frames (init threshold J m) (init_ok m threshold J))
    as (self' & Hrun & Hok).
  destruct (finalize_ok Hok) as (final & Hfinal & _).
  exists self', final. split; [exact Hrun |]. split; [exact Hfinal |].
  assert (Hinit : ids_ok (init threshold J m)).
  { repeat split; simpl; try constructor; try discriminate. }
  destruct (@finalize_ids self' final Hfinal
              (@run_ids frames (init threshold J m) self' Hrun Hinit))
    as (Hsorted & Hle & _).
  repeat split; try assumption.
  clear - Hsorted. induction Hsorted as [| a l _ IH Ha]; constructor.
  - intros Hin. rewrite Forall_forall in Ha. specialize (Ha a Hin). lia.
  - exact IH.
Qed.

(** *** Sessions span their samples *)

Lemma hd_error_app {A : Type} (l l' : list A) (a : A) :
  hd_error l = Some a -> hd_error (l ++ l') = Some a.
Proof. destruct l; [discriminate | trivial]. Qed.

Lemma subsequence_snoc_keep {A : Type} (l1 l2 : list A) (a : A) :
  subsequence l1 l2 -> subsequence (l1 ++ [a]) (l2 ++ [a]).
Proof.
  induction 1; simpl; constructor; try assumption. constructor.
Qed.

Lemma subsequence_snoc_drop {A : Type} (l1 l2 : list A) (a : A) :
  subsequence l1 l2 -> subsequence l1 (l2 ++ [a]).
Proof.
  induction 1; simpl; constructor; try assumption. constructor.
Qed.

Lemma end_current_session_spans (self self' : SessionTracker) :
  _end_current_session self = Some self' ->
  spans_ok self -> spans_ok self'.
Proof.
  unfold _end_current_session. intros Hend (Hhist & Hopen).
  destruct (in_session self) eqn:Hin; simpl in Hend.
  - destruct (Hopen eq_refl) as (data & Hdata & Hspans).
    rewrite Hdata in Hend.
    destruct (_ <? _)%Z; injection Hend as <-; split; simpl;
      try assumption; try discriminate.
    apply Forall_app. split; [exact Hhist |].
    constructor; [exact Hspans | constructor].
  - injection Hend as <-. split; [exact Hhist |].
    rewrite Hin. discriminate.
Qed.

Lemma manage_session_spans (self self' : SessionTracker) (frame_number : Z)
    (sustained : bool) :
  manage_session self frame_number sustained = Some self' ->
  spans_ok self ->
  Forall session_spans (sessions self')
  /\ in_session self' = true
  /\ exists data,
       current_session_data self' = Some data
       /\ (fresh_data frame_number data \/ data_spans data).
Proof.
  unfold manage_session. intros Hmanage Hspans.
  destruct (in_session self) eqn:Hin; simpl in Hmanage.
  - destruct sustained.
    + destruct (_end_current_session self) as [self1 |] eqn:Hend;
        [| discriminate].
      injection Hmanage as <-.
      destruct (@end_current_session_spans self self1 Hend Hspans)
        as [Hhist _].
      split; [exact Hhist |]. split; [reflexivity |].
      eexists. split; [reflexivity |]. left. now repeat split.
    + injection Hmanage as <-. destruct Hspans as [Hhist Hopen].
      split; [exact Hhist |]. split; [exact Hin |].
      destruct (Hopen Hin) as (data & Hdata & Hd).
      exists data. split; [exact Hdata | now right].
  - injection Hmanage as <-. destruct Hspans as [Hhist _].
    split; [exact Hhist |]. split; [reflexivity |].
    eexists. split; [reflexivity |]. left. now repeat split.
Qed.

Lemma appended_spans (data : SessionData) (frame_number : Z)
    (a : Sample) (flocks' av fv : list Sample) :
  fresh_data frame_number data \/ data_spans data ->
  sample_frame a = frame_number ->
  (flocks' = cur_flock_positions data
   \/ exists b, sample_frame b = frame_number
                /\ flocks' = cur_flock_positions data ++ [b]) ->
  data_spans {| cur_start_frame := cur_start_frame data;
                cur_last_frame := frame_number;
                cur_airplane_positions := cur_airplane_positions data ++ [a];
                cur_flock_positions := flocks';
                cur_airplane_velocities := av;
                cur_flock_velocities := fv |}.
Proof.
  intros Hdata Ha Hflocks. unfold data_spans, frames_of. simpl.
  rewrite map_app. simpl. rewrite Ha.
  assert (Hsub : subsequence (map sample_frame (cur_flock_positions data))
                   (map sample_frame (cur_airplane_positions data))).
  { destruct Hdata as [(_ & -> & ->) | (_ & _ & Hsub)];
      [constructor | exact Hsub]. }
  repeat split.
  - destruct Hdata as [(Hstart & -> & _) | (Hhd & _)].
    + simpl. now rewrite Hstart.
    + now apply hd_error_app.
  - apply last_item_app.
  - destruct Hflocks as [-> | (b & Hb & ->)].
    + now apply subsequence_snoc_drop.
    + rewrite map_app. simpl. rewrite Hb. now apply subsequence_snoc_keep.
Qed.

Lemma record_frame_spans (self self' : SessionTracker) (frame_number : Z)
    (airplane : Tri.Point) (flocks : list Tri.Point) (data : SessionData) :
  Forall session_spans (sessions self) ->
  in_session self = true ->
  current_session_data self = Some data ->
  fresh_data frame_number data \/ data_spans data ->
  record_frame self frame_number airplane flocks = Some self' ->
  spans_ok self'.
Proof.
  intros Hhist Hin Hdata Hd. unfold record_frame. rewrite Hin, Hdata.
  assert (Hflocks :
    forall positions' : list Sample,
      positions'
      = fst (match flocks with
             | flock :: _ =>
                 let positions' :=
                   cur_flock_positions data
                   ++ [(frame_number, Tri.x flock, Tri.z flock)] in
                 match Py.last_item (cur_flock_positions data) with
                 | Some prev_flock =>
                     let dt := (frame_number - sample_frame prev_flock)%Z in
                     if (dt >? 0)%Z then
                       let vx :=
                         (Tri.x flock - sample_a prev_flock) / IZR dt in
                       let vz :=
                         (Tri.z flock - sample_b prev_flock) / IZR dt in
                       (positions',
                        cur_flock_velocities data
                        ++ [(frame_number, vx, vz)])
                     else (positions', cur_flock_velocities data)
                 | None => (positions', cur_flock_velocities data)
                 end
             | [] => (cur_flock_positions data, cur_flock_velocities data)
             end) ->
      positions' = cur_flock_positions data
      \/ exists b, sample_frame b = frame_number
                   /\ positions' = cur_flock_positions data ++ [b]).
  { intros positions' ->. destruct flocks as [| flock rest]; [now left |].
    right. exists (frame_number, Tri.x flock, Tri.z flock).
    split; [reflexivity |]. cbv zeta.
    destruct (Py.last_item (cur_flock_positions data)); [| reflexivity].
    now destruct (_ >? 0)%Z. }
  match goal with
  | |- context [let '(_, _) := ?e in _] =>
      destruct e as [fp fv]; specialize (Hflocks fp eq_refl)
  end.
  intros H. injection H as <-. split; simpl; [exact Hhist |].
  intros _. eexists. split; [reflexivity |].
  now apply appended_spans.
Qed.

Lemma update_spans (self self' : SessionTracker) (frame_number : Z)
    (detections : list Tri.Point) :
  update self frame_number detections = Some self' ->
  spans_ok self -> spans_ok self'.
Proof.
  unfold update. intros Hupdate Hspans.
  destruct (filter is_airplane detections) as [| airplane others].
  - destruct (in_session self).
    + destruct (_end_current_session self) as [self1 |] eqn:Hend;
        [| discriminate].
      injection Hupdate as <-.
      exact (@end_current_session_spans self self1 Hend Hspans).
    + injection Hupdate as <-. exact Hspans.
  - cbv zeta in Hupdate.
    destruct (manage_session _ _ _) as [self2 |] eqn:Hmanage;
      [| discriminate].
    destruct (record_frame _ _ _ _) as [self3 |] eqn:Hrecord;
      [| discriminate].
    injection Hupdate as <-.
    assert (Hspans1 : spans_ok (track_jump self frame_number
                                  (Tri.x airplane, Tri.z airplane))).
    { destruct (track_jump_fields self frame_number
                  (Tri.x airplane, Tri.z airplane))
        as (Hs1 & _ & Hin1 & Hd1 & _).
      unfold spans_ok. now rewrite Hs1, Hin1, Hd1. }
    destruct (@manage_session_spans _ self2 frame_number _ Hmanage Hspans1)
      as (Hhist & Hin & data & Hdata & Hd).
    exact (@record_frame_spans self2 self3 frame_number airplane _ data
             Hhist Hin Hdata Hd Hrecord).
Qed.

Lemma run_spans (frames : list (Z * list Tri.Point)) :
  forall self self' : SessionTracker,
    run self frames = Some self' -> spans_ok self -> spans_ok self'.
Proof.
  induction frames as [| [frame_number detections] frames IH];
    intros self self' Hrun Hspans; simpl in Hrun.
  - now injection Hrun as <-.
  - destruct (update self frame_number detections) as [self1 |] eqn:Hupdate;
      [| discriminate].
    apply (IH self1 self' Hrun).
    exact (@update_spans self self1 frame_number detections Hupdate Hspans).
Qed.

(** X15: what a recorded session holds.  After any sequence of frames fed to
    a fresh tracker and a final [finalize], every session of the history has
    at least one airplane sample; its first airplane sample is at
    [start_frame] and its last at [end_frame]; and the frames of its flock
    samples are a subsequence of the frames of its airplane samples, so there
    are never more flock samples than airplane samples. *)
Theorem X15_recorded_sessions_span_their_samples (threshold : R) (J m : Z)
    (frames : list (Z * list Tri.Point)) :
  exists self' final,
    run (init threshold J m) frames = Some self'
    /\ finalize self' = Some final
    /\ Forall
         (fun s =>
            airplane_positions s <> []
            /\ hd_error (map sample_frame (airplane_positions s))
               = Some (start_frame s)
            /\ Py.last_item (map sample_frame (airplane_positions s))
               = Some (end_frame s)
            /\ subsequence (map sample_frame (flock_positions s))
                 (map sample_frame (airplane_positions s))
            /\ (length (flock_positions s)
                <= length (airplane_positions s))%nat)
         (sessions final).
Proof.
  destruct (@run_ok m frames (init threshold J m) (init_ok m threshold J))
    as (self' & Hrun & Hok).
  destruct (finalize_ok Hok) as (final & Hfinal & _).
  exists self', final. split; [exact Hrun |]. split; [exact Hfinal |].
  assert (Hinit : spans_ok (init threshold J m)).
  { split; simpl; [constructor | discriminate]. }
  pose proof (@run_spans frames (init threshold J m) self' Hrun Hinit)
    as Hspans.
  assert (Hfin : spans_ok final).
  { unfold finalize in Hfinal. destruct (in_session self').
    - exact (@end_current_session_spans self' final Hfinal Hspans).
    - now injection Hfinal as <-. }
  destruct Hfin as [Hhist _].
  eapply Forall_impl; [| exact Hhist].
  intros s (Hhd & Hlast & Hsub). unfold frames_of in *.
  repeat split; try assumption.
  - intros Hempty. rewrite Hempty in Hhd. discriminate.
  - assert (Hlen : forall l1 l2 : list Z,
               subsequence l1 l2 -> (length l1 <= length l2)%nat).
    { induction 1; simpl; lia. }
    apply Hlen in Hsub. now rewrite !length_map in Hsub.
Qed.

(** *** Jumps *)

Lemma update_continues (m : Z) (self : SessionTracker) (frame_number : Z)
    (detections others : list Tri.Point) (airplane : Tri.Point) :
  tracker_ok m self ->
  in_session self = true ->
  filter is_airplane detections = airplane :: others ->
  (jump_frames_count
     (track_jump self frame_number (Tri.x airplane, Tri.z airplane))
   < jump_duration_threshold self)%Z ->
  exists self' data data',
    update self frame_number detections = Some self'
    /\ current_session_data self = Some data
    /\ current_session_data self' = Some data'
    /\ sessions self' = sessions self
    /\ current_session_id self' = current_session_id self
    /\ cur_start_frame data' = cur_start_frame data
    /\ cur_airplane_positions data'
       = cur_airplane_positions data
         ++ [(frame_number, Tri.x airplane, Tri.z airplane)]
    /\ jump_frames_count self'
       = jump_frames_count
           (track_jump self frame_number (Tri.x airplane, Tri.z airplane))
    /\ last_airplane_position self' = Some (Tri.x airplane, Tri.z airplane).
Proof.
  intros Hok Hin Hfilter Hcount. unfold update. rewrite Hfilter. cbv zeta.
  pose proof (track_jump_ok frame_number
                (Tri.x airplane, Tri.z airplane) Hok) as Hok1.
  destruct (track_jump_fields self frame_number
              (Tri.x airplane, Tri.z airplane))
    as (Hs1 & Hid1 & Hin1 & Hd1 & HJ1 & _).
  cbv zeta in Hs1, Hid1, Hin1, Hd1, HJ1.
  set (self1 := track_jump self frame_number
                  (Tri.x airplane, Tri.z airplane)) in *.
  assert (Hno : (jump_frames_count self1 >=? jump_duration_threshold self1)%Z
                = false).
  { rewrite HJ1, Z.geb_leb. apply Z.leb_gt. exact Hcount. }
  rewrite Hno. unfold manage_session. rewrite Hin1, Hin. simpl.
  destruct (@record_frame_appends m self1 frame_number airplane
              (filter is_flock detections) Hok1)
    as (self3 & data0 & data & -> & _ & Hdata0 & Hdata & Hstart & _ & Hpos
        & Hs3 & Hid3 & Hcount3 & _).
  { now rewrite Hin1. }
  exists (set_last self3 (Some (Tri.x airplane, Tri.z airplane))
            (Some frame_number)), data0, data.
  simpl. rewrite Hs3, Hid3, Hcount3, Hs1, Hid1, <- Hd1.
  now repeat split.
Qed.

(** X16: a frame within the jump threshold extends the open session.  When a
    session is open, the jump duration threshold is positive and the first
    airplane of the frame is no farther than [position_jump_threshold] from
    the previous airplane position, [update] keeps the session identifier,
    the history and the start frame, appends the airplane sample to the open
    session, and clears the jump counter. *)
Theorem X16_frame_within_threshold_extends (m : Z) (self : SessionTracker)
    (frame_number : Z) (detections others : list Tri.Point)
    (airplane : Tri.Point) (last : R * R) :
  tracker_ok m self ->
  in_session self = true ->
  (0 < jump_duration_threshold self)%Z ->
  filter is_airplane detections = airplane :: others ->
  last_airplane_position self = Some last ->
  sqrt ((Tri.x airplane - fst last) ^ 2 + (Tri.z airplane - snd last) ^ 2)
  <= position_jump_threshold self ->
  exists self' data data',
    update self frame_number detections = Some self'
    /\ current_session_data self = Some data
    /\ current_session_data self' = Some data'
    /\ sessions self' = sessions self
    /\ current_session_id self' = current_session_id self
    /\ cur_start_frame data' = cur_start_frame data
    /\ cur_airplane_positions data'
       = cur_airplane_positions data
         ++ [(frame_number, Tri.x airplane, Tri.z airplane)]
    /\ jump_frames_count self' = 0%Z
    /\ last_airplane_position self' = Some (Tri.x airplane, Tri.z airplane).
Proof.
  intros Hok Hin HJ Hfilter Hlast Hnear.
  assert (Hjump : jump_frames_count
                    (track_jump self frame_number
                       (Tri.x airplane, Tri.z airplane)) = 0%Z).
  { unfold track_jump. rewrite Hlast. cbv zeta. cbn [fst snd].
    destruct (Rgt_dec _ _) as [Hfar |]; [lra | reflexivity]. }
  destruct (@update_continues m self frame_number detections others airplane
              Hok Hin Hfilter)
    as (self' & data & data' & Hupdate & Hd & Hd' & Hs & Hid & Hstart & Hpos
        & Hcount & Hlastpos).
  { rewrite Hjump. exact HJ. }
  exists self', data, data'. rewrite Hjump in Hcount. now repeat split.
Qed.

(** X17: one jump never splits a session.  When a session is open, no jump
    is being counted and the jump duration threshold is above 1, [update]
    extends the open session wherever the airplane of the frame is: even a
    position beyond [position_jump_threshold] only sets the counter to 1.
    Since the next frame is compared with this one, an airplane that jumps
    once and stays is tracked in one session. *)
Theorem X17_single_jump_keeps_session (m : Z) (self : SessionTracker)
    (frame_number : Z) (detections others : list Tri.Point)
    (airplane : Tri.Point) :
  tracker_ok m self ->
  in_session self = true ->
  (1 < jump_duration_threshold self)%Z ->
  jump_start_frame self = None ->
  jump_frames_count self = 0%Z ->
  filter is_airplane detections = airplane :: others ->
  exists self' data data',
    update self frame_number detections = Some self'
    /\ current_session_data self = Some data
    /\ current_session_data self' = Some data'
    /\ sessions self' = sessions self
    /\ current_session_id self' = current_session_id self
    /\ cur_start_frame data' = cur_start_frame data
    /\ cur_airplane_positions data'
       = cur_airplane_positions data
         ++ [(frame_number, Tri.x airplane, Tri.z airplane)]
    /\ (0 <= jump_frames_count self' <= 1)%Z
    /\ last_airplane_position self' = Some (Tri.x airplane, Tri.z airplane).
Proof.
  intros Hok Hin HJ Hstart Hzero Hfilter.
  assert (Hjump : (0 <= jump_frames_count
                          (track_jump self frame_number
                             (Tri.x airplane, Tri.z airplane)) <= 1)%Z).
  { unfold track_jump.
    destruct (last_airplane_position self) as [last |]; [| lia].
    cbv zeta. destruct (Rgt_dec _ _); [rewrite Hstart |]; simpl; lia. }
  destruct (@update_continues m self frame_number detections others airplane
              Hok Hin Hfilter)
    as (self' & data & data' & Hupdate & Hd & Hd' & Hs & Hid & Hst & Hpos
        & Hcount & Hlastpos).
  { lia. }
  exists self', data, data'. rewrite <- Hcount in Hjump.
  repeat split; try assumption; lia.
Qed.


(** X18: a sustained jump closes the session and opens the next one.  When a
    session is open, a jump is being counted, this frame is again farther
    than [position_jump_threshold] from the previous airplane position and
    brings the counter up to [jump_duration_threshold], [update] files the
    open session in the history if it is long enough (and drops it
    otherwise), opens a session with the next identifier that starts at this
    frame with this airplane sample alone, and clears the jump counter.  The
    new session starts with one velocity sample, measured from the last
    position before the jump. *)
Theorem X18_sustained_jump_starts_new_session (m : Z)
    (self : SessionTracker) (frame_number : Z)
    (detections others : list Tri.Point) (airplane : Tri.Point)
    (last : R * R) (start last_frame : Z) (data : SessionData) :
  tracker_ok m self ->
  in_session self = true ->
  current_session_data self = Some data ->
  filter is_airplane detections = airplane :: others ->
  last_airplane_position self = Some last ->
  last_frame_number self = Some last_frame ->
  (last_frame < frame_number)%Z ->
  position_jump_threshold self
  < sqrt ((Tri.x airplane - fst last) ^ 2 + (Tri.z airplane - snd last) ^ 2) ->
  jump_start_frame self = Some start ->
  (jump_duration_threshold self <= jump_frames_count self + 1)%Z ->
  exists self' data',
    update self frame_number detections = Some self'
    /\ current_session_id self' = (current_session_id self + 1)%Z
    /\ current_session_data self' = Some data'
    /\ cur_start_frame data' = frame_number
    /\ cur_airplane_positions data'
       = [(frame_number, Tri.x airplane, Tri.z airplane)]
    /\ cur_airplane_velocities data'
       = [(frame_number,
           (Tri.x airplane - fst last) / IZR (frame_number - last_frame),
           (Tri.z airplane - snd last) / IZR (frame_number - last_frame))]
    /\ jump_frames_count self' = 0%Z
    /\ jump_start_frame self' = None
    /\ sessions self'
       = if (cur_last_frame data - cur_start_frame data + 1
             <? min_session_length self)%Z
         then sessions self
         else sessions self
              ++ [{| session_id := current_session_id self;
                     start_frame := cur_start_frame data;
                     end_frame := cur_last_frame data;
                     airplane_positions := cur_airplane_positions data;
                     flock_positions := cur_flock_positions data;
                     airplane_velocities := cur_airplane_velocities data;
                     flock_velocities := cur_flock_velocities data |}].
Proof.
  intros Hok Hin Hdata Hfilter Hlast Hlf Hlt Hfar Hstart HJ.
  unfold update. rewrite Hfilter. cbv zeta.
  assert (Hjump : track_jump self frame_number
                    (Tri.x airplane, Tri.z airplane)
                  = set_jump self (Some start) (jump_frames_count self + 1)).
  { unfold track_jump. rewrite Hlast. cbv zeta. cbn [fst snd].
    destruct (Rgt_dec _ _) as [| Hn]; [| lra]. now rewrite Hstart. }
  rewrite Hjump.
  assert (Hsus : (jump_frames_count
                    (set_jump self (Some start) (jump_frames_count self + 1))
                  >=? jump_duration_threshold
                        (set_jump self (Some start)
                           (jump_frames_count self + 1)))%Z = true).
  { simpl. rewrite Z.geb_leb. apply Z.leb_le. lia. }
  rewrite Hsus. unfold manage_session, _end_current_session.
  cbn [set_jump in_session current_session_data min_session_length
       sessions current_session_id].
  rewrite Hin, Hdata. cbn [negb].
  assert (Hgt : (frame_number >? last_frame)%Z = true).
  { apply Z.gtb_lt. lia. }
  destruct (_ <? _)%Z; unfold record_frame, _start_new_session;
    cbn [set_jump set_session in_session current_session_data
         last_airplane_position last_frame_number sessions
         current_session_id cur_airplane_positions cur_airplane_velocities
         cur_start_frame app];
    rewrite Hlast, Hlf, Hgt;
    match goal with
    | |- context [let '(_, _) := ?e in _] => destruct e as [fp fv]
    end;
    eexists; eexists; (split; [reflexivity |]); simpl; now repeat split.
Qed.

Lemma tracking_ok : tracker_ok 50 tracking.
Proof. repeat split; simpl; [discriminate | constructor]. Qed.

Lemma X16_frame_within_threshold_extends_witness :
  exists self',
    update tracking 2 [point_at "Airplane" 3 4] = Some self'
    /\ current_session_id self' = current_session_id tracking
    /\ jump_frames_count self' = 0%Z.
Proof.
  destruct (@X16_frame_within_threshold_extends 50 tracking 2
              [point_at "Airplane" 3 4] [] (point_at "Airplane" 3 4) (0, 0))
    as (self' & data & data' & Hupdate & _ & _ & _ & Hid & _ & _ & Hcount & _).
  - exact tracking_ok.
  - reflexivity.
  - simpl. lia.
  - reflexivity.
  - reflexivity.
  - simpl. apply Rle_trans with (sqrt (50 * 50)).
    + apply sqrt_le_1_alt. lra.
    + rewrite sqrt_square; lra.
  - exists self'. repeat split; assumption.
Defined.

Lemma X17_single_jump_keeps_session_witness :
  exists self',
    update tracking 2 [point_at "Airplane" 300 400] = Some self'
    /\ current_session_id self' = current_session_id tracking
    /\ (0 <= jump_frames_count self' <= 1)%Z.
Proof.
  destruct (@X17_single_jump_keeps_session 50 tracking 2
              [point_at "Airplane" 300 400] [] (point_at "Airplane" 300 400))
    as (self' & data & data' & Hupdate & _ & _ & _ & Hid & _ & _ & Hcount & _).
  - exact tracking_ok.
  - reflexivity.
  - simpl. lia.
  - reflexivity.
  - reflexivity.
  - reflexivity.
  - exists self'. repeat split; try assumption; lia.
Defined.

Lemma X18_sustained_jump_starts_new_session_witness :
  exists self',
    update jumping 6 [point_at "Airplane" 300 400] = Some self'
    /\ current_session_id self' = (current_session_id jumping + 1)%Z
    /\ sessions self' = [].
Proof.
  destruct (@X18_sustained_jump_starts_new_session 50 jumping 6
              [point_at "Airplane" 300 400] [] (point_at "Airplane" 300 400)
              (0, 0) 2 1
              {| cur_start_frame := 1;
                 cur_last_frame := 1;
                 cur_airplane_positions := [(1%Z, 0, 0)];
                 cur_flock_positions := [];
                 cur_airplane_velocities := [];
                 cur_flock_velocities := [] |})
    as (self' & data' & Hupdate & Hid & _ & _ & _ & _ & _ & _ & Hsessions).
  - exact tracking_ok.
  - reflexivity.
  - reflexivity.
  - reflexivity.
  - reflexivity.
  - reflexivity.
  - lia.
  - simpl. apply Rlt_le_trans with (sqrt (51 * 51)).
    + rewrite sqrt_square; lra.
    + apply sqrt_le_1_alt. lra.
  - reflexivity.
  - simpl. lia.
  - exists self'. repeat split; assumption.
Defined.

End TrackerStateMachine.

(** ** Queries on the loaded routes ([route_based_risk_calculator.py]) *)

Section RouteQueries.

Import Routes.
Import Risk.
Open Scope R_scope.

Lemma closer_false (d : R) (best : efloat) :
  closer d best = false -> at_most best d.
Proof.
  destruct best as [m |]; simpl; [| discriminate].
  destruct (Rlt_dec d m); [discriminate | intros _; lra].
Qed.

Lemma closer_true (d : R) (m : R) : closer d (Fin m) = true -> d < m.
Proof. simpl. now destruct (Rlt_dec d m). Qed.

Lemma closer_trans (d e : R) (best : efloat) :
  d < e -> closer e best = true -> closer d best = true.
Proof.
  destruct best as [m |]; [| reflexivity].
  intros Hlt He. apply closer_true in He. simpl.
  destruct (Rlt_dec d m); [reflexivity | lra].
Qed.

Lemma arrays_of_cons (p : RoutePoint) (rest : list RoutePoint)
    (arrays : list Vec3) :
  arrays_of (p :: rest) = Some arrays ->
  exists v vs,
    to_array p = Some v /\ arrays_of rest = Some vs /\ arrays = v :: vs.
Proof.
  simpl. destruct (to_array p) as [v |]; [| discriminate].
  destruct (arrays_of rest) as [vs |]; [| discriminate].
  intros H. injection H as <-. now exists v, vs.
Qed.

Lemma arrays_of_length (points : list RoutePoint) :
  forall arrays, arrays_of points = Some arrays ->
                 length arrays = length points.
Proof.
  induction points as [| p rest IH]; intros arrays H.
  - injection H as <-. reflexivity.
  - destruct (arrays_of_cons _ _ H) as (v & vs & _ & Hvs & ->).
    simpl. now rewrite (IH vs Hvs).
Qed.

(** The two loops keep the same minimum. *)
Lemma closest_from_distance (pos : Vec3) (points : list RoutePoint) :
  forall (k : nat) (best : efloat * option Vec3 * Z),
    option_map (fun t => fst (fst t))
      (closest_from pos (combine (seq k (length points)) points) best)
    = min_distance_from pos points (fst (fst best)).
Proof.
  induction points as [| p rest IH]; intros k best; [reflexivity |].
  simpl. destruct (to_array p) as [v |]; [| reflexivity].
  rewrite IH. f_equal.
  now destruct (closer _ _).
Qed.

(** The invariant of the loop of [get_closest_point_on_route]. *)
Lemma closest_from_spec (pos : Vec3) (points : list RoutePoint) :
  forall (arrays : list Vec3) (k : nat) (best : efloat * option Vec3 * Z),
    arrays_of points = Some arrays ->
    exists result,
      closest_from pos (combine (seq k (length points)) points) best
      = Some result
      /\ ((result = best
           /\ forall q, In q arrays -> at_most (fst (fst best))
                                         (distance_to pos q))
          \/ exists (j : nat) (p : Vec3),
               result = (Fin (distance_to pos p), Some p, Z.of_nat (k + j))
               /\ nth_error arrays j = Some p
               /\ (forall j' q, (j' < j)%nat -> nth_error arrays j' = Some q ->
                                distance_to pos p < distance_to pos q)
               /\ (forall q, In q arrays ->
                             distance_to pos p <= distance_to pos q)
               /\ closer (distance_to pos p) (fst (fst best)) = true).
Proof.
  induction points as [| a rest IH]; intros arrays k best Harrays.
  - injection Harrays as <-. exists best. split; [reflexivity |].
    left. split; [reflexivity | intros q []].
  - destruct (arrays_of_cons _ _ Harrays) as (v & vs & Hv & Hvs & ->).
    cbn [length seq combine closest_from]. rewrite Hv. cbv zeta.
    fold (distance_to pos v).
    set (best' := if closer (distance_to pos v) (fst (fst best))
                  then (Fin (distance_to pos v), Some v, Z.of_nat k)
                  else best).
    destruct (IH vs (S k) best' Hvs) as (result & Hresult & Hcases).
    exists result. split; [exact Hresult |].
    destruct (closer (distance_to pos v) (fst (fst best))) eqn:Hcloser.
    + (* this point improves on [best] *)
      destruct Hcases as [[-> Hrest] | (j & p & -> & Hnth & Hfirst & Hall & Hc)].
      * right. exists 0%nat, v. subst best'. simpl in Hrest.
        rewrite Nat.add_0_r. repeat split; try reflexivity.
        -- intros j' q Hj'. lia.
        -- intros q [<- | Hq]; [lra | now apply Hrest].
        -- exact Hcloser.
      * right. exists (S j), p. subst best'. simpl in Hc.
        apply closer_true in Hc.
        replace (k + S j)%nat with (S k + j)%nat by lia.
        repeat split; try assumption.
        -- intros [| j'] q Hj' Hq.
           ++ injection Hq as <-. exact Hc.
           ++ apply (Hfirst j' q); [lia | exact Hq].
        -- intros q [<- | Hq]; [lra | now apply Hall].
        -- now apply (closer_trans _ Hc).
    + (* this point does not improve on [best] *)
      apply closer_false in Hcloser.
      destruct Hcases as [[-> Hrest] | (j & p & -> & Hnth & Hfirst & Hall & Hc)].
      * left. subst best'. split; [reflexivity |].
        intros q [<- | Hq]; [exact Hcloser | now apply Hrest].
      * right. exists (S j), p. subst best'.
        replace (k + S j)%nat with (S k + j)%nat by lia.
        assert (Hlt : distance_to pos p < distance_to pos v).
        { destruct (fst (fst best)) as [m |]; [| contradiction].
          apply closer_true in Hc. simpl in Hcloser. lra. }
        repeat split; try assumption.
        -- intros [| j'] q Hj' Hq.
           ++ injection Hq as <-. exact Hlt.
           ++ apply (Hfirst j' q); [lia | exact Hq].
        -- intros q [<- | Hq]; [lra | now apply Hall].
Qed.

Lemma norm_nonneg (v : Vec3) : 0 <= norm v.
Proof. apply sqrt_pos. Qed.

(** X19: the distance to a route is the distance to its nearest point.  For
    a known route with numeric route points, of which there is at least one,
    [calculate_distance_to_route] returns a finite, non-negative distance
    that is the distance from the position to one of the route points and is
    no larger than the distance to any of them: the route is treated as a set
    of points, not as a polyline.  For a known route without route points it
    returns infinity. *)
Theorem X19_distance_to_route_is_minimum (self : Calculator)
    (route_name : string) (flock_position : Vec3) (route : FlightRoute)
    (arrays : list Vec3) :
  routes_get (JStr route_name) (flight_routes self) = Some route ->
  arrays_of (route_points route) = Some arrays ->
  match arrays with
  | [] =>
      calculate_distance_to_route self route_name flock_position
      = (Some Inf, [])
  | _ :: _ =>
      exists d,
        calculate_distance_to_route self route_name flock_position
        = (Some (Fin d), [])
        /\ 0 <= d
        /\ Exists (fun p => d = distance_to flock_position p) arrays
        /\ Forall (fun p => d <= distance_to flock_position p) arrays
  end.
Proof.
  intros Hroute Harrays. unfold calculate_distance_to_route.
  rewrite Hroute.
  pose proof (closest_from_distance flock_position (route_points route) 0
                (Inf, None, (-1)%Z)) as Hsame.
  destruct (closest_from_spec flock_position _ 0 (Inf, None, (-1)%Z) Harrays)
    as (result & Hresult & Hcases).
  rewrite Hresult in Hsame. simpl in Hsame. rewrite <- Hsame.
  destruct arrays as [| v vs].
  - destruct Hcases as [[-> _] | (j & p & _ & Hnth & _)]; [reflexivity |].
    now destruct j.
  - destruct Hcases as [[_ Hnone] | (j & p & -> & Hnth & _ & Hall & _)].
    + destruct (Hnone v (or_introl eq_refl)).
    + exists (distance_to flock_position p). split; [reflexivity |].
      split; [apply norm_nonneg |]. split.
      * apply Exists_exists. exists p. split; [| reflexivity].
        now apply nth_error_In with (n := j).
      * apply Forall_forall. exact Hall.
Qed.

Lemma X19_distance_to_route_is_minimum_witness :
  exists d,
    calculate_distance_to_route
      straight_calculator
      "Path_A" (0, 50, 90)
    = (Some (Fin d), [])
    /\ 0 <= d
    /\ Exists (fun p => d = distance_to (0, 50, 90) p)
         [(0, 0, 0); (0, 0, 100)]
    /\ Forall (fun p => d <= distance_to (0, 50, 90) p)
         [(0, 0, 0); (0, 0, 100)].
Proof.
  apply (@X19_distance_to_route_is_minimum _ "Path_A" (0, 50, 90)
           straight_route
           [(0, 0, 0); (0, 0, 100)]);
    reflexivity.
Defined.

(** X20: the closest point agrees with the distance.  Under the same
    conditions [get_closest_point_on_route] returns the distance that
    [calculate_distance_to_route] returns, together with a route point at
    exactly that distance and the index of that point; the index is that of
    the first nearest point: every earlier route point is strictly farther
    away, and no route point is nearer. *)
Theorem X20_closest_point_is_first_minimum (self : Calculator)
    (route_name : string) (flock_position : Vec3) (route : FlightRoute)
    (arrays : list Vec3) :
  routes_get (JStr route_name) (flight_routes self) = Some route ->
  arrays_of (route_points route) = Some arrays ->
  arrays <> [] ->
  exists (d : R) (p : Vec3) (i : nat),
    get_closest_point_on_route self route_name flock_position
    = (Some (Fin d, Some p, Z.of_nat i), [])
    /\ calculate_distance_to_route self route_name flock_position
       = (Some (Fin d), [])
    /\ nth_error arrays i = Some p
    /\ d = distance_to flock_position p
    /\ (forall j q, (j < i)%nat -> nth_error arrays j = Some q ->
                    d < distance_to flock_position q)
    /\ (forall q, In q arrays -> d <= distance_to flock_position q).
Proof.
  intros Hroute Harrays Hne.
  unfold get_closest_point_on_route, calculate_distance_to_route.
  rewrite Hroute. unfold Py.enumerate.
  pose proof (closest_from_distance flock_position (route_points route) 0
                (Inf, None, (-1)%Z)) as Hsame.
  destruct (closest_from_spec flock_position _ 0 (Inf, None, (-1)%Z) Harrays)
    as (result & Hresult & Hcases).
  rewrite Hresult in Hsame. simpl in Hsame. rewrite <- Hsame, Hresult.
  destruct Hcases as [[_ Hnone] | (j & p & -> & Hnth & Hfirst & Hall & _)].
  - destruct arrays as [| v vs]; [contradiction |].
    destruct (Hnone v (or_introl eq_refl)).
  - exists (distance_to flock_position p), p, j. now repeat split.
Qed.

Lemma X20_closest_point_is_first_minimum_witness :
  exists (d : R) (p : Vec3) (i : nat),
    get_closest_point_on_route
      straight_calculator
      "Path_A" (0, 50, 90)
    = (Some (Fin d, Some p, Z.of_nat i), [])
    /\ nth_error [(0, 0, 0); (0, 0, 100)] i = Some p.
Proof.
  destruct (@X20_closest_point_is_first_minimum
              straight_calculator
              "Path_A" (0, 50, 90)
              straight_route
              [(0, 0, 0); (0, 0, 100)])
    as (d & p & i & Hclosest & _ & Hnth & _).
  - reflexivity.
  - reflexivity.
  - discriminate.
  - exists d, p, i. now split.
Defined.

Lemma closest_index_bound (closest_point : Vec3) (points : list Vec3) :
  forall (k : nat) (best : nat * efloat),
    let found :=
      closest_index_from closest_point (combine (seq k (length points)) points)
        best in
    found = fst best \/ (k <= found < k + length points)%nat.
Proof.
  induction points as [| v rest IH]; intros k best; [now left |].
  cbn [length seq combine closest_index_from]. cbv zeta.
  destruct (IH (S k)
              (if closer (norm (sub v closest_point)) (snd best)
               then (k, Fin (norm (sub v closest_point))) else best))
    as [Hsame | Hrange].
  - cbv zeta in Hsame. rewrite Hsame.
    destruct (closer _ _); [right; simpl; lia | now left].
  - right. cbv zeta in Hrange. lia.
Qed.

Lemma unit_norm (v : Vec3) : norm v > 0 -> norm (div v (norm v)) = 1.
Proof.
  destruct v as [[a b] c]. unfold norm, div, c1, c2, c3. cbn [fst snd].
  set (S := a ^ 2 + b ^ 2 + c ^ 2). intros Hpos.
  assert (HS : 0 <= S) by (unfold S; nra).
  assert (Hsq : sqrt S * sqrt S = S) by now apply sqrt_sqrt.
  set (n := sqrt S) in *.
  replace ((a / n) ^ 2 + (b / n) ^ 2 + (c / n) ^ 2)
    with (S / (n * n)) by (unfold S; field; lra).
  rewrite Hsq. replace (S / S) with 1 by (field; nra).
  apply sqrt_1.
Qed.

Lemma py_index_in_range {A : Type} (l : list A) (i : Z) :
  (0 <= i < Z.of_nat (length l))%Z -> exists a, py_index l i = Some a.
Proof.
  intros Hi. unfold py_index.
  destruct (Z.leb_spec 0 i); [| lia].
  destruct (Z.ltb_spec i (Z.of_nat (length l))); [| lia].
  simpl. destruct (nth_error l (Z.to_nat i)) as [a |] eqn:Hnth.
  - now exists a.
  - apply nth_error_None in Hnth. lia.
Qed.

(** X21: the direction along a route.  For a known route with numeric route
    points and a non-negative segment length,
    [calculate_route_segment_direction] raises on a route without route
    points (it indexes the empty list), and otherwise returns either the zero
    vector or a vector of norm 1, whichever closest point it is given; on a
    route with a single point it returns the zero vector. *)
Theorem X21_route_direction_is_unit_or_zero (self : Calculator)
    (route_name : string) (closest_point : Vec3) (segment_length : Z)
    (route : FlightRoute) (arrays : list Vec3) :
  routes_get (JStr route_name) (flight_routes self) = Some route ->
  arrays_of (route_points route) = Some arrays ->
  (0 <= segment_length)%Z ->
  match arrays with
  | [] =>
      calculate_route_segment_direction self route_name closest_point
        segment_length = None
  | _ :: rest =>
      exists v,
        calculate_route_segment_direction self route_name closest_point
          segment_length = Some v
        /\ (v = zeros \/ norm v = 1)
        /\ (rest = [] -> v = zeros)
  end.
Proof.
  intros Hroute Harrays Hlen. unfold calculate_route_segment_direction.
  rewrite Hroute, Harrays. cbv zeta. unfold Py.enumerate.
  assert (Hhalf : (0 <= segment_length / 2)%Z) by (apply Z.div_pos; lia).
  pose proof (closest_index_bound closest_point arrays 0 (0%nat, Inf))
    as Hfound.
  cbv zeta in Hfound.
  set (found := closest_index_from closest_point
                  (combine (seq 0 (length arrays)) arrays) (0%nat, Inf)) in *.
  set (h := (segment_length / 2)%Z) in *.
  destruct arrays as [| first rest].
  - (* no route points: [route_points[end_idx]] raises *)
    assert (Hzero : found = 0%nat) by (destruct Hfound; simpl in *; lia).
    rewrite Hzero. simpl length.
    destruct (Z.eqb_spec (Z.max 0 (Z.of_nat 0 - h))
                (Z.min (Z.of_nat 0 - 1) (Z.of_nat 0 + h))); [lia |].
    unfold py_index. simpl length.
    destruct (Z.leb_spec 0 (Z.min (Z.of_nat 0 - 1) (Z.of_nat 0 + h)));
      [lia |].
    destruct (Z.leb_spec (- Z.of_nat 0)
                (Z.min (Z.of_nat 0 - 1) (Z.of_nat 0 + h)));
      [lia | reflexivity].
  - assert (Hrange : (found < length (first :: rest))%nat).
    { destruct Hfound as [-> | ?]; simpl in *; lia. }
    destruct (Z.eqb_spec (Z.max 0 (Z.of_nat found - h))
                (Z.min (Z.of_nat (length (first :: rest)) - 1)
                   (Z.of_nat found + h))) as [Heq | Hneq].
    + exists zeros. split; [reflexivity |]. split; [now left | reflexivity].
    + destruct (@py_index_in_range Vec3 (first :: rest)
                  (Z.min (Z.of_nat (length (first :: rest)) - 1)
                     (Z.of_nat found + h))) as [last_point ->]; [lia |].
      destruct (@py_index_in_range Vec3 (first :: rest)
                  (Z.max 0 (Z.of_nat found - h))) as [first_point ->];
        [lia |].
      assert (Hsingle : rest <> []).
      { intros ->. simpl in Hrange, Hneq. lia. }
      destruct (Rgt_dec (norm (sub last_point first_point)) 0) as [Hpos |].
      * eexists. split; [reflexivity |].
        split; [right; now apply unit_norm | contradiction].
      * exists zeros. split; [reflexivity |]. split; [now left | reflexivity].
Qed.

Lemma X21_route_direction_is_unit_or_zero_witness :
  exists v,
    calculate_route_segment_direction straight_calculator "Path_A"
      (0, 0, 0) 5 = Some v
    /\ (v = zeros \/ norm v = 1).
Proof.
  destruct (@X21_route_direction_is_unit_or_zero straight_calculator "Path_A"
              (0, 0, 0) 5 straight_route [(0, 0, 0); (0, 0, 100)])
    as (v & Hv & Hunit & _).
  - reflexivity.
  - reflexivity.
  - lia.
  - exists v. now split.
Defined.

Lemma key_eqb_str (k : json) (s : string) :
  key_eqb k (JStr s) = true -> k = JStr s.
Proof.
  destruct k; simpl; try discriminate.
  intros H. apply String.eqb_eq in H. now subst.
Qed.

Lemma routes_get_set_same (name : string) (route : FlightRoute)
    (routes : list (json * FlightRoute)) :
  routes_get (JStr name) (routes_set (JStr name) route routes) = Some route.
Proof.
  induction routes as [| [k r] rest IH]; simpl.
  - now rewrite String.eqb_refl.
  - destruct (key_eqb k (JStr name)) eqn:Hk; simpl; now rewrite Hk.
Qed.

Lemma routes_get_set_other (name other : string) (route : FlightRoute)
    (routes : list (json * FlightRoute)) :
  other <> name ->
  routes_get (JStr other) (routes_set (JStr name) route routes)
  = routes_get (JStr other) routes.
Proof.
  intros Hne. induction routes as [| [k r] rest IH]; simpl.
  - destruct (String.eqb_spec name other); [congruence | reflexivity].
  - destruct (key_eqb k (JStr name)) eqn:Hk; simpl.
    + apply key_eqb_str in Hk. subst k. simpl.
      destruct (String.eqb_spec name other); [congruence | reflexivity].
    + now rewrite IH.
Qed.

(** X22: a loaded route is found under its name.  When a route file parses
    to a route whose [pathName] is a string, the calculator after
    [load_one] finds exactly this route under that name (a route loaded
    earlier under the same name is replaced), [get_route_info] reports its
    fields and the number of its route points, and the routes under every
    other name are the ones found before. *)
Theorem X22_loaded_route_is_found (self : Calculator) (json_file : string)
    (data : json) (route : FlightRoute) (name : string) :
  parse_route data = Some route ->
  path_name route = JStr name ->
  let self' := load_one self json_file (Some data) in
  routes_get (JStr name) (flight_routes self') = Some route
  /\ get_route_info self' name
     = Some (JStr name, total_waypoints route, length (route_points route),
             export_time route)
  /\ forall other : string,
       other <> name ->
       routes_get (JStr other) (flight_routes self')
       = routes_get (JStr other) (flight_routes self).
Proof.
  intros Hparse Hname. cbv zeta.
  assert (Hload : load_one self json_file (Some data)
                  = {| routes_directory := routes_directory self;
                       flight_routes :=
                         routes_set (JStr name) route (flight_routes self);
                       log := log self ++ []
                              ++ [Info_loaded_route (JStr name)
                                    (length (route_points route))] |}).
  { unfold load_one, _load_route_from_json. rewrite Hparse, Hname.
    reflexivity. }
  rewrite Hload. unfold get_route_info. simpl flight_routes.
  rewrite routes_get_set_same, Hname.
  repeat split. intros other Hother. now apply routes_get_set_other.
Qed.

Lemma X22_loaded_route_is_found_witness :
  routes_get (JStr "Path_A")
    (flight_routes
       (load_one (new_calculator "data/routes") "Path_A.json"
          (Some waypoints_and_points)))
  = parse_route waypoints_and_points.
Proof.
  apply (@X22_loaded_route_is_found (new_calculator "data/routes")
           "Path_A.json" waypoints_and_points straight_route "Path_A");
    reflexivity.
Defined.

End RouteQueries.

(** ** The risk step of the pipeline ([bds_server.py]) *)

Section RiskStep.

Import Risk.
Import Pipeline.
Open Scope R_scope.

Lemma pick_tracks_flock (active_tracks : list TrackDict) :
  forall airplane_track flock_track : option TrackDict,
    Forall (fun t => class_name t <> "Flock"%string) active_tracks ->
    snd (pick_tracks active_tracks airplane_track flock_track) = flock_track.
Proof.
  induction active_tracks as [| track rest IH];
    intros airplane_track flock_track Hall; [reflexivity |].
  inversion Hall as [| ? ? Htrack Hrest]; subst. simpl.
  destruct (String.eqb_spec (class_name track) "Airplane");
    [now apply IH |].
  destruct (String.eqb_spec (class_name track) "Flock");
    [contradiction | now apply IH].
Qed.

Lemma pick_tracks_airplane (active_tracks : list TrackDict) :
  forall airplane_track flock_track : option TrackDict,
    airplane_track <> None
    \/ Exists (fun t => class_name t = "Airplane"%string) active_tracks ->
    exists track,
      fst (pick_tracks active_tracks airplane_track flock_track) = Some track.
Proof.
  induction active_tracks as [| track rest IH];
    intros airplane_track flock_track Hsome.
  - destruct Hsome as [Hsome | Hex]; [| inversion Hex].
    destruct airplane_track as [t |]; [now exists t | contradiction].
  - simpl.
    destruct (String.eqb_spec (class_name track) "Airplane") as [Ha | Hna].
    + apply IH. left. discriminate.
    + assert (Hrest : airplane_track <> None
                      \/ Exists (fun t => class_name t = "Airplane"%string)
                           rest).
      { destruct Hsome as [Hsome | Hex]; [now left |].
        inversion Hex; subst; [contradiction | now right]. }
      destruct (String.eqb (class_name track) "Flock"); now apply IH.
Qed.

(** X23: without a flock track the result is LOW and nothing is updated.
    When the active tracks hold an airplane track and no flock track,
    [calculate_risk] returns a dictionary with level BR_LOW, score 0 and no
    raw values, and leaves the pipeline as it was: the stabilizer is not
    consulted and not updated, no event is sent, and [current_risk_level] is
    not changed.  So a level the stabilizer still holds at HIGH drops to LOW
    in the returned dictionary at once, without the five-frame delay and
    without a BR_CHANGED event. *)
Theorem X23_no_flock_reports_low_and_keeps_state (self : State)
    (active_tracks : list TrackDict) (frame_id : Z) :
  Exists (fun t => class_name t = "Airplane"%string) active_tracks ->
  Forall (fun t => class_name t <> "Flock"%string) active_tracks ->
  exists result,
    calculate_risk self active_tracks frame_id = (Some result, self)
    /\ frame result = frame_id
    /\ Pipeline.risk_level result = BR_LOW
    /\ risk_score result = 0
    /\ raw_risk result = None
    /\ distance_kind result = No_flock
    /\ hybrid_distance result = Inf.
Proof.
  intros Hairplane Hflock. unfold calculate_risk.
  pose proof (pick_tracks_flock None None Hflock) as Hnone.
  destruct (@pick_tracks_airplane active_tracks None None
              (or_intror Hairplane)) as [track Htrack].
  destruct (pick_tracks active_tracks None None) as [a f].
  simpl in Hnone, Htrack. subst a f.
  eexists. split; [reflexivity |]. now repeat split.
Qed.

Lemma X23_no_flock_reports_low_and_keeps_state_witness :
  exists result,
    calculate_risk
      {| route_calculator := None;
         route_assignment_cache := [];
         airplane_route_mapping := [];
         tcp_client := Some Tcp.healthy_client;
         enable_tcp := true;
         current_risk_level := Level BR_HIGH;
         stabilizer := reporting_high |}
      [airplane_east] 7
    = (Some result,
       {| route_calculator := None;
          route_assignment_cache := [];
          airplane_route_mapping := [];
          tcp_client := Some Tcp.healthy_client;
          enable_tcp := true;
          current_risk_level := Level BR_HIGH;
          stabilizer := reporting_high |})
    /\ Pipeline.risk_level result = BR_LOW.
Proof.
  destruct (@X23_no_flock_reports_low_and_keeps_state
              {| route_calculator := None;
                 route_assignment_cache := [];
                 airplane_route_mapping := [];
                 tcp_client := Some Tcp.healthy_client;
                 enable_tcp := true;
                 current_risk_level := Level BR_HIGH;
                 stabilizer := reporting_high |}
              [airplane_east] 7)
    as (result & Hresult & _ & Hlevel & _).
  - constructor. reflexivity.
  - constructor; [discriminate | constructor].
  - exists result. now split.
Defined.

Lemma stable_level_facts (self : RiskState) (score : R)
    (level : Risk.risk_level) :
  let result := get_stable_risk_level self score level in
  (level_priority level <= level_priority (snd (snd result)))%Z
  /\ last_risk_level (fst result) = snd (snd result).
Proof.
  unfold get_stable_risk_level. cbv zeta.
  destruct (Z.gtb_spec (level_priority level)
              (level_priority (last_risk_level self))) as [Hup | Hnot].
  - simpl. split; [lia | reflexivity].
  - destruct (Z.ltb_spec (level_priority level)
                (level_priority (last_risk_level self))) as [Hdown | Hsame].
    + destruct (risk_level_downgrade_counter self + 1
                >=? downgrade_threshold self)%Z; simpl; split;
        try reflexivity; lia.
    + simpl. split; [lia |].
      destruct level, (last_risk_level self); simpl in *;
        try reflexivity; lia.
Qed.

Lemma estimate_airplane_route_fields (self : State)
    (airplane_track : TrackDict) :
  let self1 := snd (estimate_airplane_route self airplane_track) in
  route_calculator self1 = route_calculator self
  /\ tcp_client self1 = tcp_client self
  /\ enable_tcp self1 = enable_tcp self
  /\ current_risk_level self1 = current_risk_level self
  /\ stabilizer self1 = stabilizer self.
Proof.
  unfold estimate_airplane_route.
  destruct (route_calculator self) eqn:Hcalculator;
    [| cbv zeta; simpl; repeat split; congruence].
  destruct (_ =? 0)%Z; [cbv zeta; simpl; repeat split; congruence |].
  destruct (cache_get _ _); [cbv zeta; simpl; repeat split; congruence |].
  destruct (Py.last_item _); cbv zeta; simpl; repeat split; congruence.
Qed.

Lemma route_block_fields (self : State) (airplane_track : TrackDict)
    (flock_pos : R * R) :
  let self1 := snd (route_block self airplane_track flock_pos) in
  tcp_client self1 = tcp_client self
  /\ enable_tcp self1 = enable_tcp self
  /\ current_risk_level self1 = current_risk_level self
  /\ stabilizer self1 = stabilizer self.
Proof.
  unfold route_block.
  destruct (route_calculator self) as [calculator |]; [| now repeat split].
  pose proof (estimate_airplane_route_fields self airplane_track) as Hfields.
  destruct (estimate_airplane_route self airplane_track)
    as [assigned_route self1].
  cbv zeta in Hfields. simpl in Hfields.
  destruct Hfields as (_ & Hc & He & Hl & Hs).
  destruct assigned_route as [route_name |]; [| now repeat split].
  destruct (String.eqb route_name ""); [now repeat split |].
  destruct (fst (Routes.calculate_distance_to_route _ _ _));
    [| now repeat split].
  destruct (fst (Routes.get_closest_point_on_route _ _ _))
    as [[[d p] i] |]; now repeat split.
Qed.

Lemma min_distance_nonneg (pos : Routes.Vec3)
    (points : list Routes.RoutePoint) :
  forall (best : efloat) (d : R),
    (forall m, best = Fin m -> 0 <= m) ->
    Routes.min_distance_from pos points best = Some (Fin d) ->
    0 <= d.
Proof.
  induction points as [| p rest IH]; intros best d Hbest Hmin.
  - injection Hmin as ->. now apply Hbest.
  - simpl in Hmin. destruct (Routes.to_array p) as [v |]; [| discriminate].
    apply (IH _ d) in Hmin; [exact Hmin |].
    intros m Hm. destruct (Routes.closer _ best).
    + injection Hm as <-. apply sqrt_pos.
    + now apply Hbest.
Qed.

Lemma route_block_distance (self : State) (airplane_track : TrackDict)
    (flock_pos : R * R) (d : R) :
  fst (fst (fst (route_block self airplane_track flock_pos))) = Some (Fin d) ->
  0 <= d.
Proof.
  unfold route_block.
  destruct (route_calculator self) as [calculator |]; [| discriminate].
  destruct (estimate_airplane_route self airplane_track)
    as [[route_name |] self1]; [| discriminate].
  destruct (String.eqb route_name ""); [discriminate |].
  unfold Routes.calculate_distance_to_route.
  destruct (Routes.routes_get _ _) as [route |]; simpl.
  - destruct (Routes.min_distance_from _ _ _) as [r |] eqn:Hmin;
      [| discriminate].
    assert (Hr : fst (fst (fst
              (match fst (Routes.get_closest_point_on_route calculator
                            route_name (fst flock_pos, 50, snd flock_pos))
               with
               | Some (_, _, closest_point) =>
                   (Some r, Some route_name,
                    Routes.calculate_route_segment_direction calculator
                      route_name
                      (IZR closest_point, IZR closest_point,
                       IZR closest_point) 5, self1)
               | None => (Some r, Some route_name, None, self1)
               end))) = Some r).
    { now destruct (fst (Routes.get_closest_point_on_route _ _ _))
        as [[[? ?] ?] |]. }
    rewrite Hr. intros H. injection H as ->.
    apply (@min_distance_nonneg (fst flock_pos, 50, snd flock_pos)
             (Routes.route_points route) Inf d); [discriminate | exact Hmin].
  - now destruct (fst (Routes.get_closest_point_on_route _ _ _))
      as [[[? ?] ?] |].
Qed.

Lemma direct_distance_floor (airplane_pos flock_pos : R * R) :
  50 <= calculate_3d_distance airplane_pos flock_pos.
Proof.
  unfold calculate_3d_distance. cbv zeta.
  apply sqrt_ge_of_square; [lra |].
  match goal with
  | |- _ <= ?h ^ 2 + _ => pose proof (pow2_ge_0 h)
  end.
  lra.
Qed.

(** X24: with both tracks the result carries the stabilized level.  When the
    active tracks are an airplane track and a flock track that both have a
    position, [calculate_risk] returns a dictionary; its raw score and level
    are those of [calculate_dynamic_risk_level] at the hybrid distance, the
    relative speed and the TTC it reports; its level is never below the raw
    level and is the level the stabilizer remembers afterwards; the direct
    distance is at least 50 and the hybrid distance at least 15; and without
    a finite route distance the hybrid distance is the direct distance, so
    that the raw result cannot come from the [distance < 50] branch. *)
Theorem X24_result_carries_stabilized_level (self : State)
    (airplane_track flock_track : TrackDict) (frame_id : Z)
    (airplane_pos flock_pos : R * R) :
  class_name airplane_track = "Airplane"%string ->
  class_name flock_track = "Flock"%string ->
  Py.last_item (positions airplane_track) = Some airplane_pos ->
  Py.last_item (positions flock_track) = Some flock_pos ->
  exists (result : RiskResult) (self' : State) (direct mixed : R)
         (raw_score : R) (raw_level : Risk.risk_level),
    calculate_risk self [airplane_track; flock_track] frame_id
    = (Some result, self')
    /\ direct_distance result = Fin direct
    /\ hybrid_distance result = Fin mixed
    /\ raw_risk result = Some (raw_score, raw_level)
    /\ (raw_score, raw_level)
       = calculate_dynamic_risk_level mixed (relative_speed result)
           (ttc result)
    /\ (level_priority raw_level
        <= level_priority (Pipeline.risk_level result))%Z
    /\ last_risk_level (stabilizer self') = Pipeline.risk_level result
    /\ 50 <= direct
    /\ 15 <= mixed
    /\ ((forall d, route_distance result <> Some (Fin d)) ->
        mixed = direct /\ 50 <= mixed).
Proof.
  intros Hairplane Hflock Hapos Hfpos. unfold calculate_risk.
  assert (Hpick : pick_tracks [airplane_track; flock_track] None None
                  = (Some airplane_track, Some flock_track)).
  { simpl. rewrite Hairplane, Hflock. reflexivity. }
  rewrite Hpick, Hapos, Hfpos.
  pose proof (route_block_fields self airplane_track flock_pos) as Hfields.
  pose proof (@route_block_distance self airplane_track flock_pos) as Hdist.
  destruct (route_block self airplane_track flock_pos)
    as [[[route_dist route_name] direction] self1].
  cbv zeta in Hfields. simpl in Hfields, Hdist.
  destruct Hfields as (_ & _ & _ & Hstab).
  pose proof (direct_distance_floor airplane_pos flock_pos) as Hdirect.
  set (direct := calculate_3d_distance airplane_pos flock_pos) in *.
  assert (Hhybrid : 15 <= fst (hybrid route_dist direct)
                    /\ ((forall d, route_dist <> Some (Fin d)) ->
                        fst (hybrid route_dist direct) = direct)).
  { unfold hybrid. destruct route_dist as [[d |] |]; simpl.
    - specialize (Hdist d eq_refl). split; [lra |].
      intros Hnone. destruct (Hnone d eq_refl).
    - split; [lra | reflexivity].
    - split; [lra | reflexivity]. }
  destruct (hybrid route_dist direct) as [mixed kind]. simpl in Hhybrid.
  destruct (calculate_dynamic_risk_level mixed
              (calculate_relative_speed airplane_track flock_track)
              (calculate_realtime_ttc airplane_track flock_track))
    as [raw_score raw_level] eqn:Hraw.
  pose proof (stable_level_facts (stabilizer self1) raw_score raw_level)
    as Hstable.
  destruct (get_stable_risk_level (stabilizer self1) raw_score raw_level)
    as [risk [stable_score stable_level]].
  cbv zeta in Hstable. simpl in Hstable. destruct Hstable as [Hle Hlast].
  eexists. eexists. exists direct, mixed, raw_score, raw_level.
  split; [reflexivity |]. simpl.
  repeat split; try tauto.
  - now rewrite Hraw.
  - unfold tcp_block. simpl.
    destruct (tcp_client self1); [| exact Hlast].
    destruct (enable_tcp self1); [| exact Hlast].
    destruct (differs _ _); [| exact Hlast].
    destruct (Tcp.send_message _ _ _). exact Hlast.
  - destruct Hhybrid as [_ Hsame].
    match goal with
    | Hnone : forall d, _ <> _ |- _ => rewrite (Hsame Hnone)
    end.
    exact Hdirect.
Qed.

Lemma X24_result_carries_stabilized_level_witness :
  exists (result : RiskResult) (self' : State),
    calculate_risk (new_state None None false) [airplane_east; flock_ahead] 7
    = (Some result, self')
    /\ last_risk_level (stabilizer self') = Pipeline.risk_level result.
Proof.
  destruct (@X24_result_carries_stabilized_level (new_state None None false)
              airplane_east flock_ahead 7 (0, 0) (300, 0))
    as (result & self' & direct & mixed & raw_score & raw_level & Hresult
        & _ & _ & _ & _ & _ & Hlast & _).
  - reflexivity.
  - reflexivity.
  - reflexivity.
  - reflexivity.
  - exists result, self'. now split.
Defined.

Lemma calculate_risk_with_flock (self : State)
    (airplane_track flock_track : TrackDict) (frame_id : Z)
    (airplane_pos flock_pos : R * R) :
  class_name airplane_track = "Airplane"%string ->
  class_name flock_track = "Flock"%string ->
  Py.last_item (positions airplane_track) = Some airplane_pos ->
  Py.last_item (positions flock_track) = Some flock_pos ->
  exists (result : RiskResult) (self1 : State),
    calculate_risk self [airplane_track; flock_track] frame_id
    = (Some result, tcp_block self1 (Pipeline.risk_level result))
    /\ tcp_client self1 = tcp_client self
    /\ enable_tcp self1 = enable_tcp self
    /\ current_risk_level self1 = current_risk_level self
    /\ airplane_position result = airplane_pos
    /\ flock_position result = Some flock_pos
    /\ frame result = frame_id.
Proof.
  intros Hairplane Hflock Hapos Hfpos. unfold calculate_risk.
  assert (Hpick : pick_tracks [airplane_track; flock_track] None None
                  = (Some airplane_track, Some flock_track)).
  { simpl. rewrite Hairplane, Hflock. reflexivity. }
  rewrite Hpick, Hapos, Hfpos.
  pose proof (route_block_fields self airplane_track flock_pos) as Hfields.
  destruct (route_block self airplane_track flock_pos)
    as [[[route_dist route_name] direction] self1].
  cbv zeta in Hfields. simpl in Hfields.
  destruct Hfields as (Hclient & Henable & Hcurrent & _).
  destruct (hybrid _ _) as [mixed kind].
  destruct (calculate_dynamic_risk_level _ _ _) as [raw_score raw_level].
  destruct (get_stable_risk_level _ _ _)
    as [risk [stable_score stable_level]].
  match goal with
  | |- exists result self1, (Some ?r, _) = _ /\ _ =>
      exists r, (set_stabilizer self1 risk)
  end.
  split; [reflexivity |]. simpl. now repeat split.
Qed.

Lemma level_eqb_refl (level : Risk.risk_level) : level_eqb level level = true.
Proof. now destruct level. Qed.

Lemma level_eqb_eq (a b : Risk.risk_level) : level_eqb a b = true -> a = b.
Proof. now destruct a, b. Qed.

Lemma tcp_block_spec (self : State) (level : Risk.risk_level)
    (client : Tcp.Client) :
  tcp_client self = Some client ->
  enable_tcp self = true ->
  exists client',
    tcp_client (tcp_block self level) = Some client'
    /\ current_risk_level (tcp_block self level) = Level level
    /\ (current_risk_level self = Level level -> client' = client)
    /\ (current_risk_level self <> Level level ->
        client'
        = fst (Tcp.send_message json_dumps client (BR_CHANGED level)))
    /\ (Tcp.connected client = false -> client' = client).
Proof.
  intros Hclient Henable. unfold tcp_block. rewrite Hclient, Henable.
  destruct (differs level (current_risk_level self)) eqn:Hdiffers.
  - destruct (Tcp.send_message json_dumps client (BR_CHANGED level))
      as [client' ok] eqn:Hsend.
    exists client'. simpl. repeat split.
    + intros Hsame. rewrite Hsame in Hdiffers. simpl in Hdiffers.
      now rewrite level_eqb_refl in Hdiffers.
    + intros Hoff. unfold Tcp.send_message in Hsend.
      rewrite Hoff in Hsend. simpl in Hsend. now injection Hsend as <- _.
  - exists client. unfold differs in Hdiffers.
    destruct (current_risk_level self) as [| current] eqn:Hcurrent;
      [discriminate |].
    apply Bool.negb_false_iff, level_eqb_eq in Hdiffers. subst current.
    repeat split; try assumption. intros Hne. now destruct Hne.
Qed.

(** X25: when an event is sent.  With a TCP client and [enable_tcp] set, a
    call of [calculate_risk] on an airplane track and a flock track sends a
    BR_CHANGED message exactly when the level of the result differs from
    [current_risk_level], and afterwards [current_risk_level] is that level,
    whether or not the message could be sent: with a client that is not
    connected nothing is written, and since the level now counts as sent,
    a later frame with the same level sends nothing either. *)
Theorem X25_event_sent_on_level_change (self : State)
    (airplane_track flock_track : TrackDict) (frame_id : Z)
    (airplane_pos flock_pos : R * R) (client : Tcp.Client) :
  class_name airplane_track = "Airplane"%string ->
  class_name flock_track = "Flock"%string ->
  Py.last_item (positions airplane_track) = Some airplane_pos ->
  Py.last_item (positions flock_track) = Some flock_pos ->
  tcp_client self = Some client ->
  enable_tcp self = true ->
  exists (result : RiskResult) (self' : State) (client' : Tcp.Client),
    calculate_risk self [airplane_track; flock_track] frame_id
    = (Some result, self')
    /\ tcp_client self' = Some client'
    /\ current_risk_level self' = Level (Pipeline.risk_level result)
    /\ (current_risk_level self = Level (Pipeline.risk_level result) ->
        client' = client)
    /\ (current_risk_level self <> Level (Pipeline.risk_level result) ->
        client'
        = fst (Tcp.send_message json_dumps client
                 (BR_CHANGED (Pipeline.risk_level result))))
    /\ (Tcp.connected client = false -> client' = client).
Proof.
  intros Hairplane Hflock Hapos Hfpos Hclient Henable.
  destruct (@calculate_risk_with_flock self airplane_track flock_track
              frame_id airplane_pos flock_pos Hairplane Hflock Hapos Hfpos)
    as (result & self1 & Hrisk & Hclient1 & Henable1 & Hcurrent1 & _).
  destruct (@tcp_block_spec self1 (Pipeline.risk_level result) client)
    as (client' & Hc & Hl & Hsame & Hdiff & Hoff).
  - now rewrite Hclient1.
  - now rewrite Henable1.
  - exists result, (tcp_block self1 (Pipeline.risk_level result)), client'.
    rewrite Hcurrent1 in Hsame, Hdiff. now repeat split.
Qed.

Lemma X25_event_sent_on_level_change_witness :
  exists (result : RiskResult) (self' : State),
    calculate_risk (new_state None (Some Tcp.healthy_client) true)
      [airplane_east; flock_ahead] 7
    = (Some result, self')
    /\ current_risk_level self' = Level (Pipeline.risk_level result).
Proof.
  destruct (@X25_event_sent_on_level_change
              (new_state None (Some Tcp.healthy_client) true)
              airplane_east flock_ahead 7 (0, 0) (300, 0) Tcp.healthy_client)
    as (result & self' & client' & Hresult & _ & Hlevel & _).
  - reflexivity.
  - reflexivity.
  - reflexivity.
  - reflexivity.
  - reflexivity.
  - reflexivity.
  - exists result, self'. now split.
Defined.

Lemma send_message_healthy (Message : Type)
    (dumps : Message -> option (list Z)) (client : Tcp.Client)
    (m : Message) (sock : Tcp.Socket) (text : list Z)
    (payload prefix : list byte) :
  Tcp.connected client = true ->
  Tcp.socket client = Some sock ->
  Tcp.budget sock = None ->
  dumps m = Some text ->
  Tcp.encode_utf8 text = Some payload ->
  Tcp.to_bytes_4_big (Z.of_nat (length payload)) = Some prefix ->
  Tcp.send_message dumps client m
  = ({| Tcp.connected := true;
        Tcp.socket :=
          Some {| Tcp.written := Tcp.written sock ++ prefix ++ payload;
                  Tcp.budget := None |} |}, true).
Proof.
  intros Hconn Hsock Hbudget Hdumps Henc Hprefix.
  unfold Tcp.send_message, Tcp.sendall.
  rewrite Hconn, Hdumps, Henc, Hprefix, Hsock, Hbudget. simpl.
  now rewrite <- app_assoc.
Qed.

(** X26: the event on the wire.  On a connected client whose socket accepts
    everything, the BR_CHANGED message for a level is written as four bytes
    0, 0, 0, n followed by n bytes of UTF-8 text, where n is 54 plus the
    length of the level name (60 to 63 bytes); the text is the JSON object
    with the three keys type, event and result and nothing else, and one
    byte per character. *)
Theorem X26_event_frame_on_the_wire (level : Risk.risk_level)
    (client : Tcp.Client) (sock : Tcp.Socket) :
  Tcp.connected client = true ->
  Tcp.socket client = Some sock ->
  Tcp.budget sock = None ->
  exists (text : list Z) (payload : list byte),
    json_dumps (BR_CHANGED level) = Some text
    /\ Tcp.encode_utf8 text = Some payload
    /\ map Tcp.Z_of_byte payload = text
    /\ length payload = (54 + String.length (level_name level))%nat
    /\ Tcp.send_message json_dumps client (BR_CHANGED level)
       = ({| Tcp.connected := true;
             Tcp.socket :=
               Some {| Tcp.written :=
                         Tcp.written sock
                         ++ [x00; x00; x00;
                             Tcp.byte_of_Z (Z.of_nat (length payload))]
                         ++ payload;
                       Tcp.budget := None |} |}, true).
Proof.
  intros Hconn Hsock Hbudget.
  destruct level;
    (eexists; eexists;
     split; [reflexivity |];
     split; [vm_compute; reflexivity |];
     split; [vm_compute; reflexivity |];
     split; [vm_compute; reflexivity |];
     eapply send_message_healthy;
       [exact Hconn | exact Hsock | exact Hbudget | reflexivity
       | vm_compute; reflexivity | vm_compute; reflexivity]).
Qed.

Lemma X26_event_frame_on_the_wire_witness :
  exists (text : list Z) (payload : list byte),
    json_dumps (BR_CHANGED BR_HIGH) = Some text
    /\ Tcp.encode_utf8 text = Some payload
    /\ length payload = 61%nat.
Proof.
  destruct (@X26_event_frame_on_the_wire BR_HIGH Tcp.healthy_client
              {| Tcp.written := []; Tcp.budget := None |})
    as (text & payload & Htext & Hpayload & _ & Hlength & _).
  - reflexivity.
  - reflexivity.
  - reflexivity.
  - exists text, payload. now repeat split.
Defined.

Lemma record_frame_with_flock (m : Z) (self : Track.SessionTracker)
    (frame_number : Z) (airplane flock : Tri.Point)
    (more : list Tri.Point) :
  Track.tracker_ok m self ->
  Track.in_session self = true ->
  exists self' data0 data,
    Track.record_frame self frame_number airplane (flock :: more) = Some self'
    /\ Track.in_session self' = true
    /\ Track.current_session_data self = Some data0
    /\ Track.current_session_data self' = Some data
    /\ Track.cur_airplane_positions data
       = Track.cur_airplane_positions data0
         ++ [(frame_number, Tri.x airplane, Tri.z airplane)]
    /\ Track.cur_flock_positions data
       = Track.cur_flock_positions data0
         ++ [(frame_number, Tri.x flock, Tri.z flock)].
Proof.
  intros (Hm & Hwf & Hhist) Hin. unfold Track.record_frame. rewrite Hin.
  destruct (Track.current_session_data self) as [data |] eqn:Hdata;
    [| now destruct (Hwf Hin)].
  cbv zeta.
  destruct (Py.last_item (Track.cur_flock_positions data)) as [prev |];
    [destruct (_ >? 0)%Z |];
    (eexists; exists data; eexists; split; [reflexivity |];
     simpl; now repeat split).
Qed.

Lemma last_item_snoc_map {A B : Type} (f : A -> B) (l : list A) (a : A) :
  Py.last_item (map f (l ++ [a])) = Some (f a).
Proof. rewrite map_app. simpl. apply last_item_app. Qed.

(** X27: from a frame to a risk result.  For a well-formed tracker, a frame
    that holds an airplane and a flock is tracked without error, the active
    tracks are then an airplane track and a flock track, and
    [calculate_risk] on them returns a dictionary for this frame whose
    airplane and flock positions are the (x, z) of the first airplane and of
    the first flock of the frame. *)
Theorem X27_frame_with_airplane_and_flock_yields_risk (m : Z)
    (tracker : Track.SessionTracker) (self : State) (frame_number : Z)
    (detections others more : list Tri.Point) (airplane flock : Tri.Point) :
  Track.tracker_ok m tracker ->
  filter Track.is_airplane detections = airplane :: others ->
  filter Track.is_flock detections = flock :: more ->
  exists (tracker' : Track.SessionTracker) (result : RiskResult)
         (self' : State),
    Track.update tracker frame_number detections = Some tracker'
    /\ length (get_active_tracks_from_sessions tracker') = 2%nat
    /\ calculate_risk self (get_active_tracks_from_sessions tracker')
         frame_number
       = (Some result, self')
    /\ frame result = frame_number
    /\ airplane_position result = (Tri.x airplane, Tri.z airplane)
    /\ flock_position result = Some (Tri.x flock, Tri.z flock).
Proof.
  intros Hok Hairplane Hflock. unfold Track.update.
  rewrite Hairplane, Hflock. cbv zeta.
  pose proof (track_jump_ok frame_number
                (Tri.x airplane, Tri.z airplane) Hok) as Hok1.
  destruct (@manage_session_opens m
              (Track.track_jump tracker frame_number
                 (Tri.x airplane, Tri.z airplane))
              frame_number
              (Track.jump_frames_count
                 (Track.track_jump tracker frame_number
                    (Tri.x airplane, Tri.z airplane))
               >=? Track.jump_duration_threshold
                     (Track.track_jump tracker frame_number
                        (Tri.x airplane, Tri.z airplane)))%Z Hok1)
    as (self2 & -> & Hok2 & Hin2 & _).
  destruct (@record_frame_with_flock m self2 frame_number airplane flock more
              Hok2 Hin2)
    as (self3 & data0 & data & -> & Hin3 & _ & Hdata & Hapos & Hfpos).
  eexists.
  assert (Htracks :
    exists airplane_track flock_track,
      get_active_tracks_from_sessions
        (Track.set_last self3 (Some (Tri.x airplane, Tri.z airplane))
           (Some frame_number))
      = [airplane_track; flock_track]
      /\ class_name airplane_track = "Airplane"%string
      /\ class_name flock_track = "Flock"%string
      /\ Py.last_item (positions airplane_track)
         = Some (Tri.x airplane, Tri.z airplane)
      /\ Py.last_item (positions flock_track)
         = Some (Tri.x flock, Tri.z flock)).
  { unfold get_active_tracks_from_sessions. simpl Track.in_session.
    simpl Track.current_session_data. rewrite Hin3, Hdata. cbv zeta.
    rewrite Hapos, Hfpos.
    destruct (Track.cur_airplane_positions data0
              ++ [(frame_number, Tri.x airplane, Tri.z airplane)])
      as [| a la] eqn:Ha;
      [apply app_eq_nil in Ha; destruct Ha; discriminate |].
    destruct (Track.cur_flock_positions data0
              ++ [(frame_number, Tri.x flock, Tri.z flock)])
      as [| b lb] eqn:Hb;
      [apply app_eq_nil in Hb; destruct Hb; discriminate |].
    eexists. eexists. split; [reflexivity |]. cbn [class_name positions].
    rewrite <- Ha, <- Hb, !last_item_snoc_map. now repeat split. }
  destruct Htracks as (airplane_track & flock_track & -> & Hca & Hcf & Hpa
                       & Hpf).
  destruct (@calculate_risk_with_flock self airplane_track flock_track
              frame_number _ _ Hca Hcf Hpa Hpf)
    as (result & self1 & Hrisk & _ & _ & _ & Hra & Hrf & Hframe).
  exists result, (tcp_block self1 (Pipeline.risk_level result)).
  now repeat split.
Qed.

Lemma X27_frame_with_airplane_and_flock_yields_risk_witness :
  exists (tracker' : Track.SessionTracker) (result : RiskResult)
         (self' : State),
    Track.update (Track.init 50 5 50) 1
      [Track.point_at "Airplane" 0 0; Track.point_at "Flock" 300 0]
    = Some tracker'
    /\ calculate_risk (new_state None None false)
         (get_active_tracks_from_sessions tracker') 1
       = (Some result, self').
Proof.
  destruct (@X27_frame_with_airplane_and_flock_yields_risk 50
              (Track.init 50 5 50) (new_state None None false) 1
              [Track.point_at "Airplane" 0 0; Track.point_at "Flock" 300 0]
              [] [] (Track.point_at "Airplane" 0 0)
              (Track.point_at "Flock" 300 0))
    as (tracker' & result & self' & Hupdate & _ & Hrisk & _).
  - repeat split; simpl; [discriminate | constructor].
  - reflexivity.
  - reflexivity.
  - exists tracker', result, self'. now split.
Defined.

End RiskStep.

(** ** Merging flocks in the image ([triangulate.py]) *)

Section FlockMerge2D.

Import Tri.
Open Scope R_scope.

Lemma two_flocks_one_group (p0 p1 : R * R) (t : R) :
  0 < t ->
  norm_diff p0 p1 < t ->
  merged_groups_loop [p0; p1] t 2 [0%nat; 1%nat] [] = [[0%nat; 0%nat; 1%nat]].
Proof.
  intros Ht Hnear.
  cbn [merged_groups_loop Py.mem existsb seq filter].
  unfold distance_entry. cbn [Nat.eqb Nat.min Nat.max nth].
  unfold Rltb.
  destruct (Rlt_dec 0 t); [| lra].
  destruct (Rlt_dec (norm_diff p0 p1) t); [| contradiction].
  cbn. reflexivity.
Qed.

Lemma one_flock_one_group (p0 : R * R) (t : R) :
  0 < t ->
  merged_groups_loop [p0] t 1 [0%nat] [] = [[0%nat; 0%nat]].
Proof.
  intros Ht.
  cbn [merged_groups_loop Py.mem existsb seq filter].
  unfold distance_entry. cbn [Nat.eqb Nat.min Nat.max nth].
  unfold Rltb.
  destruct (Rlt_dec 0 t); [| lra].
  cbn. reflexivity.
Qed.

(** X28: the first flock of a merged pair counts twice.  With a positive
    threshold a flock is always within the threshold of itself, so the group
    built around it lists it twice.  Two flocks with positive confidences
    whose centres are closer than the threshold are therefore merged into one
    box whose centre is the average of the two centres with weights 2 c0 and
    c1, whose size is the larger width and the larger height, and whose
    confidence is (2 c0 + c1) / 3; a flock on its own comes back unchanged. *)
Theorem X28_first_flock_counts_twice
    (x0 y0 w0 h0 c0 x1 y1 w1 h1 c1 t : R) :
  0 < t ->
  0 < c0 ->
  0 < c1 ->
  norm_diff (x0, y0) (x1, y1) < t ->
  merge_nearby_flocks_2d [((x0, y0, w0, h0), c0); ((x1, y1, w1, h1), c1)] t
  = [(((2 * c0 * x0 + c1 * x1) / (2 * c0 + c1),
       (2 * c0 * y0 + c1 * y1) / (2 * c0 + c1),
       Rmax w0 w1, Rmax h0 h1),
      (2 * c0 + c1) / 3)]
  /\ merge_nearby_flocks_2d [((x0, y0, w0, h0), c0)] t
     = [((x0, y0, w0, h0), c0)].
Proof.
  intros Ht Hc0 Hc1 Hnear. split.
  - unfold merge_nearby_flocks_2d. cbv zeta.
    cbn [length seq map fst box_center].
    rewrite (two_flocks_one_group _ _ Ht Hnear).
    cbn [map]. unfold merge_group_2d. cbv zeta.
    cbn [map nth fst snd combine box_center box_size].
    unfold Py.mean, Py.sum, column_max.
    cbn [fold_right fold_left length map combine fst snd].
    assert (Hw : Rmax (Rmax w0 w0) w1 = Rmax w0 w1).
    { unfold Rmax. destruct (Rle_dec w0 w0); [| lra]. reflexivity. }
    assert (Hh : Rmax (Rmax h0 h0) h1 = Rmax h0 h1).
    { unfold Rmax. destruct (Rle_dec h0 h0); [| lra]. reflexivity. }
    rewrite Hw, Hh.
    replace (x0 * (c0 / (c0 + (c0 + (c1 + 0))))
             + (x0 * (c0 / (c0 + (c0 + (c1 + 0))))
                + (x1 * (c1 / (c0 + (c0 + (c1 + 0)))) + 0)))
      with ((2 * c0 * x0 + c1 * x1) / (2 * c0 + c1)) by (field; lra).
    replace (y0 * (c0 / (c0 + (c0 + (c1 + 0))))
             + (y0 * (c0 / (c0 + (c0 + (c1 + 0))))
                + (y1 * (c1 / (c0 + (c0 + (c1 + 0)))) + 0)))
      with ((2 * c0 * y0 + c1 * y1) / (2 * c0 + c1)) by (field; lra).
    replace ((c0 + (c0 + (c1 + 0))) / INR 3) with ((2 * c0 + c1) / 3)
      by (simpl; field).
    reflexivity.
  - unfold merge_nearby_flocks_2d. cbv zeta.
    cbn [length seq map fst box_center].
    rewrite (one_flock_one_group _ Ht).
    cbn [map]. unfold merge_group_2d. cbv zeta.
    cbn [map nth fst snd combine box_center box_size].
    unfold Py.mean, Py.sum, column_max.
    cbn [fold_right fold_left length map combine fst snd].
    assert (Hw : Rmax w0 w0 = w0).
    { unfold Rmax. destruct (Rle_dec w0 w0); [| lra]. reflexivity. }
    assert (Hh : Rmax h0 h0 = h0).
    { unfold Rmax. destruct (Rle_dec h0 h0); [| lra]. reflexivity. }
    rewrite Hw, Hh.
    replace (x0 * (c0 / (c0 + (c0 + 0))) + (x0 * (c0 / (c0 + (c0 + 0))) + 0))
      with x0 by (field; lra).
    replace (y0 * (c0 / (c0 + (c0 + 0))) + (y0 * (c0 / (c0 + (c0 + 0))) + 0))
      with y0 by (field; lra).
    replace ((c0 + (c0 + 0)) / INR 2) with c0 by (simpl; field).
    reflexivity.
Qed.

Lemma X28_first_flock_counts_twice_witness :
  merge_nearby_flocks_2d [((0, 0, 10, 10), 1); ((30, 0, 20, 5), 1)] 100
  = [(((2 * 1 * 0 + 1 * 30) / (2 * 1 + 1),
       (2 * 1 * 0 + 1 * 0) / (2 * 1 + 1),
       Rmax 10 20, Rmax 10 5),
      (2 * 1 + 1) / 3)].
Proof.
  apply (@X28_first_flock_counts_twice 0 0 10 10 1 30 0 20 5 1 100);
    try lra.
  unfold norm_diff. simpl.
  apply Rle_lt_trans with (sqrt (30 * 30)).
  - apply sqrt_le_1_alt. lra.
  - rewrite sqrt_square; lra.
Defined.

End FlockMerge2D.

(** ** The projection matrix ([triangulate.py]) *)

Section Calibration.

Import Tri.
Open Scope R_scope.

Lemma unit_quaternion_orthogonal (a b c d : R) :
  a * a + b * b + c * c + d * d = 1 ->
  matmul (quaternion_to_rotation_matrix (a, b, c, d))
    (transpose (quaternion_to_rotation_matrix (a, b, c, d))) = identity
  /\ matmul (transpose (quaternion_to_rotation_matrix (a, b, c, d)))
       (quaternion_to_rotation_matrix (a, b, c, d)) = identity.
Proof.
  intros Hunit.
  assert (Hzero : forall l k : R,
             l = k * (a * a + b * b + c * c + d * d - 1) -> l = 0).
  { intros l k ->. rewrite Hunit. ring. }
  assert (Hone : forall l k : R,
             l - 1 = k * (a * a + b * b + c * c + d * d - 1) -> l = 1).
  { intros l k Hl. rewrite Hunit in Hl. lra. }
  unfold matmul, transpose, quaternion_to_rotation_matrix, identity, dot3.
  split; repeat (apply (f_equal2 (@pair _ _))).
  - apply Hone with (k := 4 * (b * b + c * c)). ring.
  - apply Hzero with (k := - 4 * (a * b)). ring.
  - apply Hzero with (k := - 4 * (a * c)). ring.
  - apply Hzero with (k := - 4 * (a * b)). ring.
  - apply Hone with (k := 4 * (a * a + c * c)). ring.
  - apply Hzero with (k := - 4 * (b * c)). ring.
  - apply Hzero with (k := - 4 * (a * c)). ring.
  - apply Hzero with (k := - 4 * (b * c)). ring.
  - apply Hone with (k := 4 * (a * a + b * b)). ring.
  - apply Hone with (k := 4 * (b * b + c * c)). ring.
  - apply Hzero with (k := - 4 * (a * b)). ring.
  - apply Hzero with (k := - 4 * (a * c)). ring.
  - apply Hzero with (k := - 4 * (a * b)). ring.
  - apply Hone with (k := 4 * (a * a + c * c)). ring.
  - apply Hzero with (k := - 4 * (b * c)). ring.
  - apply Hzero with (k := - 4 * (a * c)). ring.
  - apply Hzero with (k := - 4 * (b * c)). ring.
  - apply Hone with (k := 4 * (a * a + b * b)). ring.
Qed.

Lemma corrected_normalises (qx qy qz qw : R) :
  0 < qx * qx + qy * qy + qz * qz + qw * qw ->
  exists a b c d : R,
    a * a + b * b + c * c + d * d = 1
    /\ quaternion_to_rotation_matrix_corrected (qx, qy, qz, qw)
       = quaternion_to_rotation_matrix (a, b, c, d).
Proof.
  intros Hpos.
  set (S := qx * qx + qy * qy + qz * qz + qw * qw) in *.
  assert (Hn : 0 < sqrt S) by now apply sqrt_lt_R0.
  assert (Hsq : sqrt S * sqrt S = S) by (apply sqrt_sqrt; lra).
  exists (qx / sqrt S), (qy / sqrt S), (qz / sqrt S), (qw / sqrt S).
  split.
  - set (n := sqrt S) in *.
    replace (qx / n * (qx / n) + qy / n * (qy / n) + qz / n * (qz / n)
             + qw / n * (qw / n))
      with ((qx * qx + qy * qy + qz * qz + qw * qw) / (n * n))
      by (field; lra).
    fold S. rewrite Hsq. field. lra.
  - unfold quaternion_to_rotation_matrix_corrected,
      quaternion_to_rotation_matrix. fold S. cbv zeta.
    destruct (Rgt_dec (sqrt S) 0); [reflexivity | lra].
Qed.

(** X29: the projection matrix is that of a pinhole camera.  For camera
    parameters whose rotation quaternion is not zero, the rotation matrix
    that [get_projection_matrix] uses is orthogonal; the matrix it returns
    maps a world point to (fx xc + cx zc, fy yc + cy zc, zc), where
    (xc, yc, zc) are the coordinates of the point relative to the camera
    position, turned by the transposed rotation, and are as far from the
    origin as the point is from the camera; and it maps the camera position
    itself to (0, 0, 0). *)
Theorem X29_projection_matrix_is_a_pinhole_camera (params : CameraParams)
    (qx qy qz qw t1 t2 t3 : R) :
  rotation_UnityWorld params = (qx, qy, qz, qw) ->
  position_UnityWorld params = (t1, t2, t3) ->
  0 < qx * qx + qy * qy + qz * qz + qw * qw ->
  let rotation :=
    quaternion_to_rotation_matrix_corrected (rotation_UnityWorld params) in
  let P := get_projection_matrix params in
  let fx := m00 params * imageWidth params / 2 in
  let fy := m11 params * imageHeight params / 2 in
  let cx := imageWidth params / 2 in
  let cy := imageHeight params / 2 in
  matmul rotation (transpose rotation) = identity
  /\ matmul (transpose rotation) rotation = identity
  /\ (forall wx wy wz : R,
        exists xc yc zc : R,
          matvec (transpose rotation) (wx - t1, wy - t2, wz - t3)
          = (xc, yc, zc)
          /\ project P (wx, wy, wz, 1)
             = (fx * xc + cx * zc, fy * yc + cy * zc, zc)
          /\ xc * xc + yc * yc + zc * zc
             = (wx - t1) * (wx - t1) + (wy - t2) * (wy - t2)
               + (wz - t3) * (wz - t3))
  /\ project P (t1, t2, t3, 1) = (0, 0, 0).
Proof.
  intros Hrot Hpos Hnonzero. cbv zeta.
  unfold get_projection_matrix. cbv zeta. rewrite Hrot, Hpos.
  destruct (@corrected_normalises qx qy qz qw Hnonzero)
    as (a & b & c & d & Hunit & ->).
  destruct (@unit_quaternion_orthogonal a b c d Hunit) as [Horth1 Horth2].
  split; [exact Horth1 |]. split; [exact Horth2 |].
  set (fx := m00 params * imageWidth params / 2).
  set (fy := m11 params * imageHeight params / 2).
  set (cx := imageWidth params / 2).
  set (cy := imageHeight params / 2).
  split.
  - intros wx wy wz.
    unfold quaternion_to_rotation_matrix, transpose, matvec, dot3.
    eexists. eexists. eexists. split; [reflexivity |]. split.
    + unfold project, matmul34, hstack, matmul, transpose, matvec,
        neg_matrix, neg, dot3, dot4.
      cbv beta iota zeta. repeat (apply (f_equal2 (@pair _ _))); ring.
    + match goal with
      | |- ?l = ?r =>
          assert (Hdiff :
            l - r
            = 4 * ((a * a + b * b + c * c)
                   * ((wx - t1) * (wx - t1) + (wy - t2) * (wy - t2)
                      + (wz - t3) * (wz - t3))
                   - (a * (wx - t1) + b * (wy - t2) + c * (wz - t3))
                     * (a * (wx - t1) + b * (wy - t2) + c * (wz - t3)))
              * (a * a + b * b + c * c + d * d - 1)) by ring
      end.
      rewrite Hunit in Hdiff. lra.
  - unfold project, matmul34, hstack, matmul, transpose, matvec,
      neg_matrix, neg, dot3, dot4, quaternion_to_rotation_matrix.
    cbv beta iota zeta. repeat (apply (f_equal2 (@pair _ _))); ring.
Qed.

Lemma X29_projection_matrix_is_a_pinhole_camera_witness :
  project (get_projection_matrix side_camera) (3, 4, 5, 1) = (0, 0, 0).
Proof.
  apply (@X29_projection_matrix_is_a_pinhole_camera side_camera 0 1 0 1
           3 4 5); try reflexivity.
  lra.
Defined.

End Calibration.

(** ** Real-time triangulation ([triangulate.py]) *)

Section RealtimePath.

Import Tri.
Open Scope R_scope.

Variable triangulatePoints :
  Mat34 -> Mat34 -> R * R -> R * R -> option (R * R * R * R).









End RealtimePath.

